(** * Podcastpio: fallback script synthesizer, script-generation facade
      and URL content extractor

    A shallow embedding of [generateFallbackScript], [generatePodcastScript]
    and [fetchContentFromUrl], the functions of the Gemini service module.
    The module exists in two copies: one holds the synthesizer and a facade
    that falls back on it, the other, [server/services/gemini.ts], holds a
    facade that rethrows; [fetchContentFromUrl] is the same in both.

    Conventions of the embedding.
    - A JavaScript string is a Rocq [string]; its characters stand for the
      UTF-16 code units U+0000..U+007F.  Case conversion, the whitespace
      class [\s] and [trim] are exact on that range.
    - Arrays are lists; [slice], [filter], [map], [some], [includes],
      [reduce] and [join] are the corresponding list functions.
    - An ordinary object used as a dictionary is modelled with its property
      order (array-index keys first, ascending; then string keys in creation
      order) and with the members it inherits from [Object.prototype].
    - A promise that rejects or a [throw] is a left injection; the value a
      function returns is a right injection.
    - The network, the model call, the HTML parser and [JSON.parse] are
      inputs of the functions that use them. *)

From Stdlib Require Import String Ascii List ZArith NArith Lia Bool Arith.
From Stdlib Require Import DecimalString Sorted Permutation.
Import ListNotations.
Local Open Scope string_scope.

(* ================================================================== *)
(** * Strings *)
(* ================================================================== *)

Module JsString.

(** The line feed, written [\n] in the source. *)
Definition lf : ascii := ascii_of_nat 10.
Definition nl : string := String lf EmptyString.

Definition isLf (c : ascii) : bool := Ascii.eqb c lf.

(** The class [\s] (and the characters [trim] removes): TAB, LF, VT, FF,
    CR and SPACE. *)
Definition isSpace (c : ascii) : bool :=
  let n := nat_of_ascii c in
  ((9 <=? n)%nat && (n <=? 13)%nat) || (n =? 32)%nat.

(** The class [[.!?]]. *)
Definition isTerminal (c : ascii) : bool :=
  Ascii.eqb c "." || Ascii.eqb c "!" || Ascii.eqb c "?".

(** [toLowerCase] and [toUpperCase] on one code unit of the ASCII range.
    Beyond that range JavaScript maps more characters, some of them to the
    same capital; a statement that needs capitalizing to be one-to-one
    takes ASCII content as its hypothesis. *)
Definition lowerChar (c : ascii) : ascii :=
  let n := nat_of_ascii c in
  if (65 <=? n)%nat && (n <=? 90)%nat then ascii_of_nat (n + 32) else c.

Definition upperChar (c : ascii) : ascii :=
  let n := nat_of_ascii c in
  if (97 <=? n)%nat && (n <=? 122)%nat then ascii_of_nat (n - 32) else c.

Fixpoint toLowerCase (s : string) : string :=
  match s with
  | EmptyString => EmptyString
  | String c r => String (lowerChar c) (toLowerCase r)
  end.

(** [s.split(/C+/)] for a character class [C]: the pieces between the
    maximal runs of [C].  [cur] is the piece being read and [insep] tells
    that the previous character was in [C].  A leading run gives a first
    piece [""], a trailing run a last piece [""], and the empty string
    gives [[""]]. *)
Fixpoint split_from (sep : ascii -> bool) (s cur : string) (insep : bool)
  : list string :=
  match s with
  | EmptyString => [cur]
  | String c r =>
      if sep c then
        if insep then split_from sep r "" true
        else cur :: split_from sep r "" true
      else split_from sep r (cur ++ String c "") false
  end.

Definition split (sep : ascii -> bool) (s : string) : list string :=
  split_from sep s "" false.

Fixpoint trimStart (s : string) : string :=
  match s with
  | EmptyString => EmptyString
  | String c r => if isSpace c then trimStart r else s
  end.

Fixpoint trimEnd (s : string) : string :=
  match s with
  | EmptyString => EmptyString
  | String c r =>
      let t := trimEnd r in
      if isSpace c && (t =? "") then "" else String c t
  end.

Definition trim (s : string) : string := trimEnd (trimStart s).

(** [word.charAt(0).toUpperCase() + word.slice(1)]. *)
Definition capitalize (word : string) : string :=
  match word with
  | EmptyString => EmptyString
  | String c r => String (upperChar c) r
  end.

(** [s.replace(c, '')] with a one-character string pattern: only the
    first occurrence goes. *)
Fixpoint removeFirst (c : ascii) (s : string) : string :=
  match s with
  | EmptyString => EmptyString
  | String d r => if Ascii.eqb c d then r else String d (removeFirst c r)
  end.

(** [s.replace(/\s+/g, ' ')]. *)
Fixpoint collapse_from (s : string) (insep : bool) : string :=
  match s with
  | EmptyString => EmptyString
  | String c r =>
      if isSpace c then
        if insep then collapse_from r true
        else String " " (collapse_from r true)
      else String c (collapse_from r false)
  end.

Definition collapseWhitespace (s : string) : string := collapse_from s false.

(** [s.replace(/\n\s*\n/g, '\n\n')].  A match starts at a line feed and,
    [\s*] being greedy, ends at the last line feed of the whitespace run
    that follows it.  The state is [None] outside a candidate match and
    [Some (matched, buf)] after its first line feed: [matched] tells that
    a later line feed was met, [buf] holds the whitespace read since the
    last line feed. *)
Definition flush (st : option (bool * string)) : string :=
  match st with
  | None => ""
  | Some (matched, buf) => (if matched then nl ++ nl else nl) ++ buf
  end.

Fixpoint squeeze_from (s : string) (st : option (bool * string)) : string :=
  match s with
  | EmptyString => flush st
  | String c r =>
      match st with
      | None =>
          if isLf c then squeeze_from r (Some (false, ""))
          else String c (squeeze_from r None)
      | Some (matched, buf) =>
          if isLf c then squeeze_from r (Some (true, ""))
          else if isSpace c
               then squeeze_from r (Some (matched, buf ++ String c ""))
               else flush st ++ String c (squeeze_from r None)
      end
  end.

Definition squeezeBlankLines (s : string) : string := squeeze_from s None.

(** [xs.join(sep)]. *)
Fixpoint join (sep : string) (xs : list string) : string :=
  match xs with
  | [] => ""
  | [x] => x
  | x :: rest => x ++ sep ++ join sep rest
  end.

(** [xs[i]]: [None] is [undefined]. *)
Definition at_ (xs : list string) (i : nat) : option string := nth_error xs i.

(** [x || fallback] for a string or [undefined] [x]: the empty string is
    falsy. *)
Definition orElse (x : option string) (fallback : string) : string :=
  match x with
  | Some s => if s =? "" then fallback else s
  | None => fallback
  end.

(** [xs.slice(from, to)] for [0 <= from], [0 <= to]. *)
Definition slice {A : Type} (xs : list A) (from to : nat) : list A :=
  firstn (to - from) (skipn from xs).

(** [xs.includes(w)] and [xs.some(p)]. *)
Definition includes (xs : list string) (w : string) : bool :=
  existsb (String.eqb w) xs.

Definition some {A : Type} (xs : list A) (p : A -> bool) : bool :=
  existsb p xs.

End JsString.

(* ================================================================== *)
(** * Numbers *)
(* ================================================================== *)

Module JsNumber.

(** The numbers the synthesizer computes with are small integers, or NaN
    when an operand is not a number. *)
Inductive t : Type :=
| Num (z : Z)
| NaN.

Definition toString (x : t) : string :=
  match x with
  | Num z => NilZero.string_of_int (Z.to_int z)
  | NaN => "NaN"
  end.

Definition sub (x : t) (k : Z) : t :=
  match x with
  | Num z => Num (z - k)
  | NaN => NaN
  end.

(** [Math.floor(x * 0.t)] for a decimal fraction of [tenths] tenths.  The
    source multiplies binary64 numbers; for the estimates 8, 15, 25 and 35
    of the duration table and the factors 0.2, 0.5 and 0.8 the rounded
    product has the integer part of the exact one. *)
Definition floorTenths (x : t) (tenths : Z) : t :=
  match x with
  | Num z => Num ((z * tenths) / 10)
  | NaN => NaN
  end.

End JsNumber.

(* ================================================================== *)
(** * Ordinary objects used as dictionaries *)
(* ================================================================== *)

Module JsObject.

(** The property names every ordinary object inherits from
    [Object.prototype]. *)
Definition objectPrototypeKeys : list string :=
  [ "constructor"; "__defineGetter__"; "__defineSetter__"; "hasOwnProperty";
    "__lookupGetter__"; "__lookupSetter__"; "isPrototypeOf";
    "propertyIsEnumerable"; "toString"; "valueOf"; "__proto__";
    "toLocaleString" ].

(** The decimal numeral of an integer, as [String(i)] writes it. *)
Definition numeral (i : N) : string := NilZero.string_of_uint (N.to_uint i).

(** A key is an array index when it is the canonical decimal numeral of an
    integer in [0, 2^32 - 2]. *)
Definition arrayIndex (k : string) : option N :=
  match NilZero.uint_of_string k with
  | Some u =>
      let n := N.of_uint u in
      if (numeral n =? k) && (n <=? 4294967294)%N then Some n else None
  | None => None
  end.

(** Own properties: the array-index keys in ascending order, then the
    other keys in the order of their creation. *)
Record t (V : Type) : Type := make {
  indexed : list (N * V);
  named : list (string * V)
}.
Arguments make {V} _ _.
Arguments indexed {V} _.
Arguments named {V} _.

Definition empty {V : Type} : t V := make [] [].

(** What [o[k]] finds. *)
Inductive lookup (V : Type) : Type :=
| Own (v : V)
| Inherited (k : string)
| Undefined.
Arguments Own {V} _.
Arguments Inherited {V} _.
Arguments Undefined {V}.

Fixpoint findNamed {V : Type} (k : string) (l : list (string * V)) : option V :=
  match l with
  | [] => None
  | (k', v) :: r => if k =? k' then Some v else findNamed k r
  end.

Fixpoint findIndexed {V : Type} (i : N) (l : list (N * V)) : option V :=
  match l with
  | [] => None
  | (j, v) :: r => if (i =? j)%N then Some v else findIndexed i r
  end.

Definition getOwn {V : Type} (o : t V) (k : string) : option V :=
  match arrayIndex k with
  | Some i => findIndexed i (indexed o)
  | None => findNamed k (named o)
  end.

Definition get {V : Type} (o : t V) (k : string) : lookup V :=
  match getOwn o k with
  | Some v => Own v
  | None =>
      if JsString.includes objectPrototypeKeys k then Inherited k
      else Undefined
  end.

(** Assignment to a string key: the value of an existing key is replaced
    where it stands, a new key goes to the end. *)
Fixpoint putNamed {V : Type} (k : string) (v : V) (l : list (string * V))
  : list (string * V) :=
  match l with
  | [] => [(k, v)]
  | (k', v') :: r =>
      if k =? k' then (k, v) :: r else (k', v') :: putNamed k v r
  end.

(** Assignment to an array-index key keeps the keys ascending. *)
Fixpoint putIndexed {V : Type} (i : N) (v : V) (l : list (N * V))
  : list (N * V) :=
  match l with
  | [] => [(i, v)]
  | (j, w) :: r =>
      if (i =? j)%N then (i, v) :: r
      else if (i <? j)%N then (i, v) :: (j, w) :: r
      else (j, w) :: putIndexed i v r
  end.

(** [o[k] = v] for a primitive [v].  Assigning a primitive to [__proto__]
    runs the inherited setter, which ignores it: no own property is made. *)
Definition set {V : Type} (o : t V) (k : string) (v : V) : t V :=
  if k =? "__proto__" then o
  else match arrayIndex k with
       | Some i => make (putIndexed i v (indexed o)) (named o)
       | None => make (indexed o) (putNamed k v (named o))
       end.

(** [Object.entries(o)]. *)
Definition entries {V : Type} (o : t V) : list (string * V) :=
  map (fun '(i, v) => (numeral i, v)) (indexed o) ++ named o.

(** An object literal whose keys are not array indices. *)
Definition literal {V : Type} (props : list (string * V)) : t V :=
  make [] props.

End JsObject.

(* ================================================================== *)
(** * Data model *)
(* ================================================================== *)

Module PodcastScriptOptions.
(** [showName?: string]: [None] is an absent (undefined) show name. *)
Record t : Type := make {
  content : string;
  style : string;
  duration : string;
  showName : option string
}.
End PodcastScriptOptions.

Module Timestamp.
Record t : Type := make { time : string; topic : string }.
End Timestamp.

Module EpisodeDetails.
Record t : Type := make {
  duration : string;
  category : string;
  format : string
}.
End EpisodeDetails.

Module ShowNotes.
Record t : Type := make {
  keyTopics : list string;
  resources : list string;
  timestamps : list Timestamp.t;
  episodeDetails : EpisodeDetails.t
}.
End ShowNotes.

Module GeneratedScript.
Record t : Type := make {
  intro : string;
  mainContent : string;
  outro : string;
  showNotes : ShowNotes.t
}.
End GeneratedScript.

Module FetchedContent.
Record t : Type := make {
  title : string;
  content : string;
  wordCount : nat
}.
End FetchedContent.

(** What a [throw] carries: an [Error] with its message, or another value. *)
Inductive Thrown : Type :=
| ErrorObject (message : string)
| OtherValue.

(** [error instanceof Error ? error.message : "Unknown error"]. *)
Definition messageOf (error : Thrown) : string :=
  match error with
  | ErrorObject message => message
  | OtherValue => "Unknown error"
  end.

Import JsString.

(* ================================================================== *)
(** * The fallback synthesizer: [generateFallbackScript] *)
(* ================================================================== *)

(** ** Tokens and sentences *)

Definition words (content : string) : list string :=
  split isSpace (toLowerCase content).

Definition sentences (content : string) : list string :=
  filter (fun s => (10 <? String.length (trim s))%nat)
         (split isTerminal content).

(** [sentences[0]?.trim() || "Welcome to today's discussion."]. *)
Definition firstSentence (content : string) : string :=
  orElse (option_map trim (at_ (sentences content) 0))
         "Welcome to today's discussion.".

(** ** Category *)

Inductive Category : Type :=
| Technology
| Business
| Health
| Education
| Science.

Definition keywords (c : Category) : list string :=
  match c with
  | Technology => ["technology"; "tech"; "ai"; "digital"; "software"]
  | Business => ["business"; "market"; "company"; "finance"; "economy"]
  | Health => ["health"; "medical"; "wellness"; "fitness"; "nutrition"]
  | Education => ["education"; "learning"; "school"; "university"; "study"]
  | Science => ["science"; "research"; "study"; "discovery"; "experiment"]
  end.

Definition categoryName (c : Category) : string :=
  match c with
  | Technology => "Technology"
  | Business => "Business"
  | Health => "Health"
  | Education => "Education"
  | Science => "Science"
  end.

(** [words.some(w => [...].includes(w))]. *)
Definition mentions (words : list string) (c : Category) : bool :=
  some words (fun w => includes (keywords c) w).

(** [let category = "General"] followed by the five [if] statements, each
    of which assigns when its keyword list is hit. *)
Definition category (content : string) : string :=
  let words := words content in
  let category := "General" in
  let category := if mentions words Technology then "Technology" else category in
  let category := if mentions words Business then "Business" else category in
  let category := if mentions words Health then "Health" else category in
  let category := if mentions words Education then "Education" else category in
  let category := if mentions words Science then "Science" else category in
  category.

(** ** Key topics *)

Definition stopWords : list string :=
  [ "the"; "a"; "an"; "and"; "or"; "but"; "in"; "on"; "at"; "to"; "for";
    "of"; "with"; "by"; "is"; "are"; "was"; "were"; "be"; "been"; "have";
    "has"; "had"; "do"; "does"; "did"; "will"; "would"; "could"; "should";
    "may"; "might"; "can"; "this"; "that"; "these"; "those"; "i"; "you";
    "he"; "she"; "it"; "we"; "they"; "me"; "him"; "her"; "us"; "them" ].

Definition meaningful (w : string) : bool :=
  (4 <? String.length w)%nat && negb (includes stopWords w).

Definition meaningfulWords (content : string) : list string :=
  filter meaningful (words content).

(** A value held by [wordFreq]: a count, or the text that [+ 1] makes of an
    inherited member. *)
Inductive Tally : Type :=
| Count (n : Z)
| Text (s : string).

(** The string an inherited member of [Object.prototype] converts to:
    [__proto__] reads as the prototype object, the others are built-in
    functions. *)
Definition inheritedText (k : string) : string :=
  if k =? "__proto__" then "[object Object]"
  else if k =? "constructor" then "function Object() { [native code] }"
  else "function " ++ k ++ "() { [native code] }".

(** [(acc[word] || 0) + 1].  A count of 0 is falsy and [0 + 1] is the same
    number; a non-empty text is truthy and [+] appends. *)
Definition increment (x : JsObject.lookup Tally) : Tally :=
  match x with
  | JsObject.Own (Count n) => Count (n + 1)
  | JsObject.Own (Text s) => if s =? "" then Count 1 else Text (s ++ "1")
  | JsObject.Inherited k => Text (inheritedText k ++ "1")
  | JsObject.Undefined => Count 1
  end.

Definition countWord (acc : JsObject.t Tally) (word : string) : JsObject.t Tally :=
  JsObject.set acc word (increment (JsObject.get acc word)).

(** [meaningfulWords.reduce((acc, word) => ..., {})]. *)
Definition wordFreq (content : string) : JsObject.t Tally :=
  fold_left countWord (meaningfulWords content) JsObject.empty.

(** The texts above are no numerals: as numbers they are NaN. *)
Definition toNumber (v : Tally) : JsNumber.t :=
  match v with
  | Count n => JsNumber.Num n
  | Text _ => JsNumber.NaN
  end.

(** The comparator [([,a], [,b]) => b - a]; [sort] reads NaN as 0. *)
Definition byFrequency (x y : string * Tally) : Z :=
  match toNumber (snd y), toNumber (snd x) with
  | JsNumber.Num b, JsNumber.Num a => b - a
  | _, _ => 0
  end.

(** [xs.sort(cmp)] is stable: [x] goes behind [y] only when [cmp x y > 0].
    With a consistent comparator every stable sort gives this list.  When
    an entry holds a text the comparator is not consistent and the language
    leaves the order to the engine; the statements on the order below are
    made for entries that hold counts. *)
Fixpoint insert {A : Type} (cmp : A -> A -> Z) (x : A) (l : list A) : list A :=
  match l with
  | [] => [x]
  | y :: r => if (0 <? cmp x y)%Z then y :: insert cmp x r else x :: l
  end.

Definition sort {A : Type} (cmp : A -> A -> Z) (l : list A) : list A :=
  fold_right (insert cmp) [] l.

Definition keyTopics (content : string) : list string :=
  map (fun '(word, _) => capitalize word)
      (slice (sort byFrequency (JsObject.entries (wordFreq content))) 0 5).

(** ** Style *)

Module StyleFormat.
Record t : Type := make {
  introTone : string;
  transitionPhrase : string;
  hostVoice : string
}.
End StyleFormat.

Definition conversational : StyleFormat.t :=
  StyleFormat.make "friendly and welcoming" "So let's dive in"
                   "casual and engaging".

Definition styleFormats : JsObject.t StyleFormat.t :=
  JsObject.literal
    [ ("conversational", conversational);
      ("professional",
        StyleFormat.make "authoritative and polished"
                         "Let's examine this in detail"
                         "professional and informative");
      ("educational",
        StyleFormat.make "knowledgeable and approachable"
                         "Today we'll learn about"
                         "educational and clear");
      ("interview",
        StyleFormat.make "curious and engaging"
                         "Our guest today brings unique insights"
                         "inquisitive and thoughtful") ].

(** [styleFormats[style] || styleFormats.conversational].  [styleFormats]
    is an object literal too: an inherited member is an object, hence
    truthy, and is kept. *)
Definition format (style : string) : JsObject.lookup StyleFormat.t :=
  match JsObject.get styleFormats style with
  | JsObject.Undefined => JsObject.Own conversational
  | found => found
  end.

(** [${format.transitionPhrase}]: an inherited member has no such property
    and the template prints [undefined]. *)
Definition transitionPhrase (style : string) : string :=
  match format style with
  | JsObject.Own f => StyleFormat.transitionPhrase f
  | _ => "undefined"
  end.

(** ** Texts *)

(** The destructuring default [showName = "The Show"] applies to an absent
    show name only. *)
Definition showNameOf (showName : option string) : string :=
  match showName with
  | Some name => name
  | None => "The Show"
  end.

Definition intro (showName firstSentence transitionPhrase : string) : string :=
  "[INTRO MUSIC FADES IN]" ++ nl
  ++ nl
  ++ "Welcome to " ++ showName ++ "! I'm your host, and today we're diving into a fascinating topic that's sure to capture your attention." ++ nl
  ++ nl
  ++ "[MUSIC FADES TO BACKGROUND]" ++ nl
  ++ nl
  ++ firstSentence ++ " This is exactly the kind of story that deserves our attention, and I'm excited to break it down for you in today's episode." ++ nl
  ++ nl
  ++ "[MUSIC FADES OUT]" ++ nl
  ++ nl
  ++ transitionPhrase ++ ", and explore what this means for all of us. Grab your coffee, settle in, and let's get started.".

(** [sentences.slice(1, Math.min(sentences.length, 8))]. *)
Definition contentChunks (content : string) : list string :=
  let sentences := sentences content in
  slice sentences 1 (Nat.min (List.length sentences) 8).

Fixpoint mapi {A B : Type} (f : A -> nat -> B) (xs : list A) (i : nat) : list B :=
  match xs with
  | [] => []
  | x :: r => f x i :: mapi f r (S i)
  end.

(** [contentChunks.slice(3, 6).map((chunk, i) => ...).join('\n\n')]. *)
Definition implications (contentChunks : list string) : string :=
  join (nl ++ nl)
    (mapi (fun chunk i =>
             JsNumber.toString (JsNumber.Num (Z.of_nat (i + 1))) ++ ". "
             ++ orElse (Some chunk)
                  "This aspect requires careful consideration of multiple factors.")
          (slice contentChunks 3 6) 0).

Definition mainContent (contentChunks : list string) : string :=
  "Now, let me walk you through the key points of this story." ++ nl
  ++ nl
  ++ "[TRANSITION MUSIC - 3 SECONDS]" ++ nl
  ++ nl
  ++ "First, let's establish the context. " ++ orElse (at_ contentChunks 0) "We're looking at a development that has significant implications." ++ nl
  ++ nl
  ++ orElse (at_ contentChunks 1) "The details are quite compelling when you examine them closely." ++ " This brings us to an important consideration that affects how we should interpret these findings." ++ nl
  ++ nl
  ++ "[TRANSITION MUSIC - 3 SECONDS]" ++ nl
  ++ nl
  ++ "What's particularly interesting is how this connects to broader trends we've been seeing. " ++ orElse (at_ contentChunks 2) "The patterns are becoming clearer as more information emerges." ++ nl
  ++ nl
  ++ "Let me break down the key implications:" ++ nl
  ++ nl
  ++ implications contentChunks ++ nl
  ++ nl
  ++ "[TRANSITION MUSIC - 3 SECONDS]" ++ nl
  ++ nl
  ++ "Now, you might be wondering what this means for the future. " ++ orElse (at_ contentChunks 6) "The trajectory suggests several possible outcomes that are worth monitoring." ++ " " ++ nl
  ++ nl
  ++ "This is where things get really interesting, and why I wanted to share this story with you today.".

Definition outro (showName : string) (keyTopics : list string) : string :=
  "[OUTRO MUSIC FADES IN]" ++ nl
  ++ nl
  ++ "So, what's the takeaway from all of this? I think the key insight is that " ++ orElse (at_ keyTopics 0) "this topic" ++ " continues to evolve in ways that demand our attention." ++ nl
  ++ nl
  ++ "As we wrap up today's episode, I encourage you to think about how this might impact your own perspective on " ++ orElse (at_ keyTopics 1) "related matters" ++ "." ++ nl
  ++ nl
  ++ "[MUSIC BUILDS]" ++ nl
  ++ nl
  ++ "Thanks for joining me on " ++ showName ++ ". If you enjoyed today's discussion, don't forget to subscribe and share this episode with friends who might find it interesting." ++ nl
  ++ nl
  ++ "Next time, we'll be exploring another compelling story, so make sure you're subscribed so you don't miss it." ++ nl
  ++ nl
  ++ "Until then, keep questioning, keep learning, and I'll see you in the next episode." ++ nl
  ++ nl
  ++ "[OUTRO MUSIC FADES OUT]".

(** ** Timestamps *)

Definition durationMap : JsObject.t Z :=
  JsObject.literal [("5-10", 8%Z); ("10-20", 15%Z); ("20-30", 25%Z); ("30+", 35%Z)].

(** [durationMap[duration] || 15], as the number the arithmetic below sees.
    [durationMap] is an object literal: for a [duration] such as
    ["constructor"] or ["toString"] the lookup finds the member inherited
    from [Object.prototype], a function or an object, which is truthy, is
    kept by [||], and is NaN in the products and the difference. *)
Definition estimatedDuration (duration : string) : JsNumber.t :=
  match JsObject.get durationMap duration with
  | JsObject.Own n => if (n =? 0)%Z then JsNumber.Num 15 else JsNumber.Num n
  | JsObject.Inherited _ => JsNumber.NaN
  | JsObject.Undefined => JsNumber.Num 15
  end.

Definition timestamps (duration : string) : list Timestamp.t :=
  let estimatedDuration := estimatedDuration duration in
  [ Timestamp.make "0:00" "Introduction";
    Timestamp.make "1:30" "Topic Overview";
    Timestamp.make
      (JsNumber.toString (JsNumber.floorTenths estimatedDuration 2) ++ ":00")
      "Key Points Analysis";
    Timestamp.make
      (JsNumber.toString (JsNumber.floorTenths estimatedDuration 5) ++ ":00")
      "Main Discussion";
    Timestamp.make
      (JsNumber.toString (JsNumber.floorTenths estimatedDuration 8) ++ ":00")
      "Implications & Takeaways";
    Timestamp.make
      (JsNumber.toString (JsNumber.sub estimatedDuration 2) ++ ":00")
      "Wrap-up & Next Episode" ].

(** ** The synthesizer *)

Definition generateFallbackScript (options : PodcastScriptOptions.t)
  : GeneratedScript.t :=
  let content := PodcastScriptOptions.content options in
  let style := PodcastScriptOptions.style options in
  let duration := PodcastScriptOptions.duration options in
  let showName := showNameOf (PodcastScriptOptions.showName options) in
  let keyTopics := keyTopics content in
  GeneratedScript.make
    (intro showName (firstSentence content) (transitionPhrase style))
    (mainContent (contentChunks content))
    (outro showName keyTopics)
    (ShowNotes.make
       (if (0 <? List.length keyTopics)%nat then keyTopics
        else ["Analysis"; "Discussion"; "Insights"])
       [ "Episode transcript available on our website";
         "Follow us on social media for updates";
         "Submit topic suggestions via our contact form" ]
       (timestamps duration)
       (EpisodeDetails.make
          ("~" ++ removeFirst "+" duration ++ " minutes")
          (category content)
          (if style =? "interview" then "Interview Style"
           else "Solo Commentary"))).

(* ================================================================== *)
(** * The script-generation facade: [generatePodcastScript] *)
(* ================================================================== *)

(** How [await ai.models.generateContent(...)] ends: the promise rejects,
    or it resolves to a response whose [text] is a string or undefined. *)
Inductive ModelCall : Type :=
| CallRejects (error : Thrown)
| CallResolves (text : option string).

Section Facade.

(** [JSON.parse] and the values it yields; the source casts the value to
    [GeneratedScript] without inspecting it. *)
Variable Json : Type.
Variable JSON_parse : string -> Thrown + Json.

(** The body of the [try] block. *)
Definition tryModel (call : ModelCall) : Thrown + Json :=
  match call with
  | CallRejects error => inl error
  | CallResolves text =>
      match text with
      | None => inl (ErrorObject "Empty response from Gemini API")
      | Some rawJson =>
          if rawJson =? ""
          then inl (ErrorObject "Empty response from Gemini API")
          else JSON_parse rawJson
      end
  end.

Inductive Returned : Type :=
| FromModel (script : Json)
| FromFallback (script : GeneratedScript.t).

(** The facade that sits next to [generateFallbackScript]: its [catch]
    block returns [generateFallbackScript(options)]. *)
Definition generatePodcastScript (options : PodcastScriptOptions.t)
           (call : ModelCall) : Thrown + Returned :=
  match tryModel call with
  | inr script => inr (FromModel script)
  | inl _ => inr (FromFallback (generateFallbackScript options))
  end.

End Facade.

Arguments FromModel {Json} _.
Arguments FromFallback {Json} _.

(** The file [server/services/gemini.ts] holds the same function without
    the synthesizer: its [catch] block throws. *)
Module Server.
Section Facade.

Variable Json : Type.
Variable JSON_parse : string -> Thrown + Json.

Definition generatePodcastScript (options : PodcastScriptOptions.t)
           (call : ModelCall) : Thrown + Json :=
  match tryModel Json JSON_parse call with
  | inr script => inr script
  | inl error =>
      inl (ErrorObject
             ("Failed to generate podcast script: " ++ messageOf error))
  end.

End Facade.
End Server.

(* ================================================================== *)
(** * The content extractor: [fetchContentFromUrl] *)
(* ================================================================== *)

(** The document [cheerio.load(html)] builds, after the script, style,
    navigation, footer and sidebar elements are removed, seen through its
    queries: a selector gives the text of each element it matches, in
    document order. *)
Definition Document : Type := string -> list string.

(** [selection.text()], [selection.first()] and [selection.length]. *)
Definition text (selection : list string) : string := String.concat "" selection.
Definition first (selection : list string) : list string := firstn 1 selection.

Record Response : Type := {
  ok : bool;
  status : Z;
  statusText : string;
  body : Thrown + Document
}.

(** How [await fetch(url)] ends. *)
Inductive Fetch : Type :=
| FetchRejects (error : Thrown)
| FetchResolves (response : Response).

Definition contentSelectors : list string :=
  [ "article"; "main"; ".content"; ".article-content"; ".post-content";
    ".entry-content"; "#content"; ".story-body"; ".article-body" ].

(** [$('title').text() || $('h1').first().text() || 'Untitled Article']. *)
Definition titleOf (dom : Document) : string :=
  orElse (Some (text (dom "title")))
         (orElse (Some (text (first (dom "h1")))) "Untitled Article").

(** The [for] loop over the selectors with its [break]; [content] starts as
    the empty string. *)
Fixpoint firstLongEnough (dom : Document) (selectors : list string) : string :=
  match selectors with
  | [] => ""
  | selector :: rest =>
      let element := dom selector in
      if (0 <? List.length element)%nat
         && (100 <? String.length (trim (text element)))%nat
      then trim (text element)
      else firstLongEnough dom rest
  end.

Definition rawContent (dom : Document) : string :=
  let content := firstLongEnough dom contentSelectors in
  if content =? "" then trim (text (dom "body")) else content.

(** The two [replace] calls and the [trim]. *)
Definition cleanUp (content : string) : string :=
  trim (squeezeBlankLines (collapseWhitespace content)).

(** The part of the [try] block that follows [cheerio.load]. *)
Definition extract (dom : Document) : Thrown + FetchedContent.t :=
  let title := titleOf dom in
  let content := cleanUp (rawContent dom) in
  if (String.length content <? 50)%nat
  then inl (ErrorObject "Could not extract meaningful content from the URL")
  else inr (FetchedContent.make
              (trim title)
              content
              (List.length (split isSpace (trim content)))).

(** The function is the same in both files that hold it. *)
Definition fetchContentFromUrl (fetch : Fetch) : Thrown + FetchedContent.t :=
  let attempt :=
    match fetch with
    | FetchRejects error => inl error
    | FetchResolves response =>
        if negb (ok response)
        then inl (ErrorObject
                    ("Failed to fetch content: "
                     ++ JsNumber.toString (JsNumber.Num (status response))
                     ++ " " ++ statusText response))
        else match body response with
             | inl error => inl error
             | inr dom => extract dom
             end
    end in
  match attempt with
  | inr fetched => inr fetched
  | inl error =>
      inl (ErrorObject
             ("Failed to fetch content from URL: " ++ messageOf error))
  end.

(* ================================================================== *)
(** * Notions of the specification *)
(* ================================================================== *)

(** The order in which the five keyword sets are checked. *)
Definition rank (c : Category) : nat :=
  match c with
  | Technology => 0
  | Business => 1
  | Health => 2
  | Education => 3
  | Science => 4
  end.

(** Key-topic extraction as the specification words it: tokenize, discard
    the stop words and the tokens of length at most 4, count, order by
    descending count with equal counts in the order of first encounter,
    take five, capitalize. *)
Definition retained (content : string) : list string :=
  filter (fun w => negb (includes stopWords w)
                   && negb (String.length w <=? 4)%nat)
         (words content).

(** The tokens in the order of their first encounter. *)
Fixpoint distinct (ws : list string) : list string :=
  match ws with
  | [] => []
  | w :: r => w :: filter (fun x => negb (x =? w)) (distinct r)
  end.

Definition frequency (ws : list string) (w : string) : nat :=
  count_occ string_dec ws w.

(** [level m ++ level (m - 1) ++ ... ++ level 1]. *)
Fixpoint fromHighest {A : Type} (m : nat) (level : nat -> list A) : list A :=
  match m with
  | 0 => []
  | S m' => level m ++ fromHighest m' level
  end.

(** Highest count first: for each count from [length ws] down to 1, the
    tokens that have it, in the order of first encounter. *)
Definition rankByFrequency (ws : list string) : list string :=
  fromHighest (List.length ws)
    (fun n => filter (fun w => (frequency ws w =? n)%nat) (distinct ws)).

Definition spec_keyTopics (content : string) : list string :=
  map capitalize (firstn 5 (rankByFrequency (retained content))).

(** A token that is not the name of a member inherited from
    [Object.prototype], and one that is no array index either. *)
Definition ownKey (w : string) : bool :=
  negb (includes JsObject.objectPrototypeKeys w).

Definition isNamed (w : string) : bool :=
  match JsObject.arrayIndex w with
  | Some _ => false
  | None => true
  end.

(** The order in which the keys of the frequency object are listed: the
    array indices among the tokens, ascending and each once, then the other
    tokens in the order of first encounter. *)
Fixpoint insertIndex (i : N) (l : list N) : list N :=
  match l with
  | [] => [i]
  | j :: r =>
      if (i =? j)%N then l
      else if (i <? j)%N then i :: l
      else j :: insertIndex i r
  end.

Definition noteIndex (l : list N) (w : string) : list N :=
  match JsObject.arrayIndex w with
  | Some i => insertIndex i l
  | None => l
  end.

Definition indexKeys (ws : list string) : list N := fold_left noteIndex ws [].

Definition keyOrder (ws : list string) : list string :=
  (map JsObject.numeral (indexKeys ws) ++ distinct (filter isNamed ws))%list.

(** Highest count first, equal counts in key order. *)
Definition rankInKeyOrder (ws : list string) : list string :=
  fromHighest (List.length ws)
    (fun n => filter (fun w => (frequency ws w =? n)%nat) (keyOrder ws)).

(** The number of whitespace-delimited tokens: the maximal runs of
    characters that are not whitespace. *)
Fixpoint countTokens_from (s : string) (inToken : bool) : nat :=
  match s with
  | EmptyString => 0
  | String c r =>
      if isSpace c then countTokens_from r false
      else (if inToken then 0 else 1) + countTokens_from r true
  end.

Definition countTokens (s : string) : nat := countTokens_from s false.

(** The error the caller of the extractor sees when the page has no usable
    text. *)
Definition ExtractionError : Thrown :=
  ErrorObject
    "Failed to fetch content from URL: Could not extract meaningful content from the URL".

(** A time label [M:SS] read as minutes and seconds. *)
Definition isColon (c : ascii) : bool := Ascii.eqb c ":".

Definition clock (label : string) : option (N * N) :=
  match split isColon label with
  | [m; s] =>
      match NilZero.uint_of_string m, NilZero.uint_of_string s with
      | Some a, Some b => Some (N.of_uint a, N.of_uint b)
      | _, _ => None
      end
  | _ => None
  end.

Definition minuteField (label : string) : option N :=
  option_map fst (clock label).

Definition secondsOf (label : string) : option N :=
  option_map (fun '(m, s) => (60 * m + s)%N) (clock label).

Fixpoint nondecreasing (l : list N) : bool :=
  match l with
  | a :: (b :: _) as r => (a <=? b)%N && nondecreasing r
  | _ => true
  end.

(** [Some l] when every element is a number. *)
Fixpoint allSome {A : Type} (l : list (option A)) : option (list A) :=
  match l with
  | [] => Some []
  | Some a :: r => option_map (cons a) (allSome r)
  | None :: _ => None
  end.


(** ** Auxiliary notions *)

(** The time labels of a script. *)
Definition timesOf (script : GeneratedScript.t) : list string :=
  map Timestamp.time (ShowNotes.timestamps (GeneratedScript.showNotes script)).

(** Whether a scan that starts in state [insep] ends on a separator. *)
Fixpoint endsInSpace (s : string) (insep : bool) : bool :=
  match s with
  | EmptyString => insep
  | String c r => endsInSpace r (isSpace c)
  end.

(** The elements of key [n], and the lists sorted by descending key. *)
Definition hasKey {A : Type} (key : A -> nat) (n : nat) (x : A) : bool :=
  (key x =? n)%nat.

Definition descending {A : Type} (key : A -> nat) : list A -> Prop :=
  StronglySorted (fun a b => key b <= key a).

(** The own properties after counting the tokens [ws]: one per token, with
    its count. *)
Definition tallied (ws : list string) (w : string) : string * Tally :=
  (w, Count (Z.of_nat (frequency ws w))).

Definition indexTallied (ws : list string) (i : N) : N * Tally :=
  (i, Count (Z.of_nat (frequency ws (JsObject.numeral i)))).

(** [(found || 0) + 1] for an own property or none. *)
Definition bump (found : option Tally) : Tally :=
  match found with
  | Some v => increment (JsObject.Own v)
  | None => Count 1
  end.

(** A page with a title and an article of 117 characters, and an empty
    page. *)
Definition articlePage (title : string) : Document :=
  fun selector =>
    if selector =? "title" then [title]
    else if selector =? "article" then
      ["  The quick brown fox jumps over the lazy dog while the band plays on and on until everybody in the hall has gone home.  "]
    else [].

Definition emptyPage : Document := fun _ => [].

Definition okResponse (dom : Document) : Response :=
  {| ok := true; status := 200; statusText := "OK"; body := inr dom |}.

(** The end-to-end scenario of the specification. *)
Definition medTech : PodcastScriptOptions.t :=
  PodcastScriptOptions.make
    "Artificial intelligence is transforming healthcare. Doctors now use AI diagnostic tools daily. Patient outcomes have improved significantly. This represents a major shift in medicine."
    "educational" "10-20" (Some "MedTech Weekly").

(* ================================================================== *)
(** * Further notions *)
(* ================================================================== *)

(** Every character of a string passes a test. *)
Fixpoint allChars (p : ascii -> bool) (s : string) : bool :=
  match s with
  | EmptyString => true
  | String c r => p c && allChars p r
  end.

Definition notSpace (c : ascii) : bool := negb (isSpace c).
Definition notTerminal (c : ascii) : bool := negb (isTerminal c).
Definition notLf (c : ascii) : bool := negb (isLf c).

Definition isUpper (c : ascii) : bool :=
  let n := nat_of_ascii c in (65 <=? n)%nat && (n <=? 90)%nat.

Definition notUpper (c : ascii) : bool := negb (isUpper c).

(** The names of the six categories and of the four styles. *)
Definition categoryNames : list string :=
  ["General"; "Technology"; "Business"; "Health"; "Education"; "Science"].

Definition styleNames : list string :=
  ["conversational"; "professional"; "educational"; "interview"].

(** The keys of an object, in the order of [Object.entries]. *)
Definition keysOf {V : Type} (o : JsObject.t V) : list string :=
  map fst (JsObject.entries o).

(** The well-formed frequency objects: array-index keys ascending, string
    keys without repetition, and each key filed on its side. *)
Definition wellKeyed {V : Type} (o : JsObject.t V) : Prop :=
  StronglySorted N.lt (map fst (JsObject.indexed o))
  /\ NoDup (map fst (JsObject.named o))
  /\ (forall i, In i (map fst (JsObject.indexed o)) ->
                JsObject.arrayIndex (JsObject.numeral i) = Some i)
  /\ (forall k, In k (map fst (JsObject.named o)) ->
                JsObject.arrayIndex k = None).

(** The condition of the selector loop. *)
Definition qualifies (dom : Document) (selector : string) : bool :=
  (0 <? List.length (dom selector))%nat
  && (100 <? String.length (trim (text (dom selector))))%nat.

(** Whitespace occurs as single spaces only; [afterSpace] tells that the
    previous character was a space. *)
Fixpoint collapsed (s : string) (afterSpace : bool) : bool :=
  match s with
  | EmptyString => true
  | String c r =>
      if isSpace c
      then Ascii.eqb c " " && negb afterSpace && collapsed r true
      else collapsed r false
  end.

(** Words separated by single spaces: not empty, no whitespace but the
    space, no space first or last, no two spaces in a row. *)
Fixpoint spaced (s : string) (afterSpace : bool) : bool :=
  match s with
  | EmptyString => negb afterSpace
  | String c r =>
      if isSpace c
      then Ascii.eqb c " " && negb afterSpace && spaced r true
      else spaced r false
  end.

Definition singleSpaced (s : string) : bool := spaced s true.

Fixpoint countChar (c : ascii) (s : string) : nat :=
  match s with
  | EmptyString => 0
  | String d r => (if Ascii.eqb c d then 1 else 0) + countChar c r
  end.

(* ================================================================== *)
(** * The in-memory storage: [MemStorage] *)
(* ================================================================== *)

(** A [Map] with string keys.  The entries are kept in the order of
    insertion; [set] on a key that is present replaces the value where it
    stands. *)
Module JsMap.

Definition t (V : Type) : Type := list (string * V).

Definition empty {V : Type} : t V := [].

Fixpoint get {V : Type} (m : t V) (k : string) : option V :=
  match m with
  | [] => None
  | (k', v) :: r => if k =? k' then Some v else get r k
  end.

Fixpoint set {V : Type} (m : t V) (k : string) (v : V) : t V :=
  match m with
  | [] => [(k, v)]
  | (k', v') :: r => if k =? k' then (k, v) :: r else (k', v') :: set r k v
  end.

Definition values {V : Type} (m : t V) : list V := map snd m.

End JsMap.

Module MemStorage.

(** [{ ...insertScript, id, createdAt }]: the inserted fields with the two
    members the storage sets; [randomUUID()] and [new Date()] are inputs. *)
Record PodcastScript (Insert Date : Type) : Type := make {
  fields : Insert;
  id : string;
  createdAt : Date
}.
Arguments make {Insert Date} _ _ _.
Arguments fields {Insert Date} _.
Arguments id {Insert Date} _.
Arguments createdAt {Insert Date} _.

(** The private member [scripts]. *)
Definition t (Insert Date : Type) : Type := JsMap.t (PodcastScript Insert Date).

(** The constructor. *)
Definition create {Insert Date : Type} : t Insert Date := JsMap.empty.

Definition getPodcastScript {Insert Date : Type} (scripts : t Insert Date)
           (id : string) : option (PodcastScript Insert Date) :=
  JsMap.get scripts id.

Definition createPodcastScript {Insert Date : Type} (scripts : t Insert Date)
           (insertScript : Insert) (uuid : string) (now : Date)
  : t Insert Date * PodcastScript Insert Date :=
  let id := uuid in
  let script := make insertScript id now in
  (JsMap.set scripts id script, script).

Definition listPodcastScripts {Insert Date : Type} (scripts : t Insert Date)
  : list (PodcastScript Insert Date) :=
  JsMap.values scripts.

(** Every script is filed under its own id. *)
Definition consistent {Insert Date : Type} (scripts : t Insert Date) : Prop :=
  forall k script, In (k, script) scripts -> id script = k.

End MemStorage.

(* ================================================================== *)
(** * The request schema and the routes *)
(* ================================================================== *)

(** A member of a JSON request body as a schema sees it: absent, a value
    of the expected JavaScript type, or a value of another type (which
    includes [null]). *)
Inductive Field (A : Type) : Type :=
| Absent
| Given (v : A)
| Mistyped.
Arguments Absent {A}.
Arguments Given {A} _.
Arguments Mistyped {A}.

Module RequestBody.
Record t (JsNum : Type) : Type := make {
  inputContent : Field string;
  inputType : Field string;
  sourceUrl : Field string;
  podcastStyle : Field string;
  targetDuration : Field string;
  showName : Field string;
  wordCount : Field JsNum;
  charCount : Field JsNum
}.
Arguments make {JsNum} _ _ _ _ _ _ _ _.
Arguments inputContent {JsNum} _.
Arguments inputType {JsNum} _.
Arguments sourceUrl {JsNum} _.
Arguments podcastStyle {JsNum} _.
Arguments targetDuration {JsNum} _.
Arguments showName {JsNum} _.
Arguments wordCount {JsNum} _.
Arguments charCount {JsNum} _.
End RequestBody.

(** [req.body]: an object with the members above, or something else. *)
Inductive Body (JsNum : Type) : Type :=
| NotObject
| Object (members : RequestBody.t JsNum).
Arguments NotObject {JsNum}.
Arguments Object {JsNum} _.

(** The type [GenerateScriptRequest] that the schema infers. *)
Module GenerateScriptRequest.
Record t (JsNum : Type) : Type := make {
  inputContent : string;
  inputType : string;
  sourceUrl : option string;
  podcastStyle : string;
  targetDuration : string;
  showName : option string;
  wordCount : option JsNum;
  charCount : option JsNum
}.
Arguments make {JsNum} _ _ _ _ _ _ _ _.
Arguments inputContent {JsNum} _.
Arguments inputType {JsNum} _.
Arguments sourceUrl {JsNum} _.
Arguments podcastStyle {JsNum} _.
Arguments targetDuration {JsNum} _.
Arguments showName {JsNum} _.
Arguments wordCount {JsNum} _.
Arguments charCount {JsNum} _.
End GenerateScriptRequest.

Definition durationNames : list string := ["5-10"; "10-20"; "20-30"; "30+"].

(** A required member, an [.optional()] one and one with a [.default()];
    [accepts] is the refinement the schema puts on the value. *)
Definition required {A : Type} (accepts : A -> bool) (f : Field A) : option A :=
  match f with
  | Given v => if accepts v then Some v else None
  | _ => None
  end.

Definition optional {A : Type} (accepts : A -> bool) (f : Field A)
  : option (option A) :=
  match f with
  | Absent => Some None
  | Given v => if accepts v then Some (Some v) else None
  | Mistyped => None
  end.

Definition withDefault {A : Type} (accepts : A -> bool) (default : A)
           (f : Field A) : option A :=
  match f with
  | Absent => Some default
  | Given v => if accepts v then Some v else None
  | Mistyped => None
  end.

Definition anything {A : Type} (_ : A) : bool := true.

(** [generateScriptSchema]: [None] stands for the [ZodError] that [parse]
    throws.  [isUrl] is the test behind [z.string().url()]. *)
Definition generateScriptSchema {JsNum : Type} (isUrl : string -> bool)
           (body : Body JsNum) : option (GenerateScriptRequest.t JsNum) :=
  match body with
  | NotObject => None
  | Object b =>
      match required (fun s => (10 <=? String.length s)%nat)
                     (RequestBody.inputContent b),
            required (includes ["text"; "url"]) (RequestBody.inputType b),
            optional isUrl (RequestBody.sourceUrl b),
            withDefault (includes styleNames) "conversational"
                        (RequestBody.podcastStyle b),
            withDefault (includes durationNames) "10-20"
                        (RequestBody.targetDuration b),
            optional anything (RequestBody.showName b),
            optional anything (RequestBody.wordCount b),
            optional anything (RequestBody.charCount b)
      with
      | Some inputContent, Some inputType, Some sourceUrl, Some podcastStyle,
        Some targetDuration, Some showName, Some wordCount, Some charCount =>
          Some (GenerateScriptRequest.make inputContent inputType sourceUrl
                  podcastStyle targetDuration showName wordCount charCount)
      | _, _, _, _, _, _, _, _ => None
      end
  end.

(** What a handler sends: [res.json(payload)], or a status with a message
    and, from a [catch] block, the message of the error. *)
Inductive Reply (A : Type) : Type :=
| Json (payload : A)
| Message (status : nat) (message : string)
| Failure (status : nat) (message error : string).
Arguments Json {A} _.
Arguments Message {A} _ _.
Arguments Failure {A} _ _ _.

(** [{ ...validatedData, script }], the value handed to the storage. *)
Module InsertPodcastScript.
Record t (JsNum Script : Type) : Type := make {
  request : GenerateScriptRequest.t JsNum;
  script : Script
}.
Arguments make {JsNum Script} _ _.
Arguments request {JsNum Script} _.
Arguments script {JsNum Script} _.
End InsertPodcastScript.

(** [req.body] of the route that fetches: without a body the destructuring
    throws; otherwise the member [url]. *)
Inductive FetchBody : Type :=
| NoBody
| UrlMember (url : Field string).

Module Routes.
Section Routes.

(** JSON numbers, the scripts the generator resolves to, dates. *)
Variable JsNum : Type.
Variable Script : Type.
Variable Date : Type.

(** The test of [z.string().url()], the message of a [ZodError] and of the
    [TypeError] of a destructuring, the network, and the function
    [generatePodcastScript] the module imports. *)
Variable isUrl : string -> bool.
Variable zodMessage : Body JsNum -> string.
Variable typeErrorMessage : string.
Variable network : string -> Fetch.
Variable generatePodcastScript : PodcastScriptOptions.t -> Thrown + Script.

Definition Stored : Type :=
  MemStorage.PodcastScript (InsertPodcastScript.t JsNum Script) Date.

Definition Storage : Type :=
  MemStorage.t (InsertPodcastScript.t JsNum Script) Date.

(** [validatedData.inputType === "url" && validatedData.sourceUrl]. *)
Definition urlToFetch (validatedData : GenerateScriptRequest.t JsNum)
  : option string :=
  if GenerateScriptRequest.inputType validatedData =? "url"
  then match GenerateScriptRequest.sourceUrl validatedData with
       | Some url => if url =? "" then None else Some url
       | None => None
       end
  else None.

(** [validatedData.inputContent = content]. *)
Definition withContent (validatedData : GenerateScriptRequest.t JsNum)
           (content : string) : GenerateScriptRequest.t JsNum :=
  GenerateScriptRequest.make
    content
    (GenerateScriptRequest.inputType validatedData)
    (GenerateScriptRequest.sourceUrl validatedData)
    (GenerateScriptRequest.podcastStyle validatedData)
    (GenerateScriptRequest.targetDuration validatedData)
    (GenerateScriptRequest.showName validatedData)
    (GenerateScriptRequest.wordCount validatedData)
    (GenerateScriptRequest.charCount validatedData).

Definition optionsOf (validatedData : GenerateScriptRequest.t JsNum)
           (content : string) : PodcastScriptOptions.t :=
  PodcastScriptOptions.make
    content
    (GenerateScriptRequest.podcastStyle validatedData)
    (GenerateScriptRequest.targetDuration validatedData)
    (GenerateScriptRequest.showName validatedData).

(** The part of the handler after the content is known. *)
Definition generateAndSave (scripts : Storage)
           (validatedData : GenerateScriptRequest.t JsNum)
           (uuid : string) (now : Date) : Reply Stored * Storage :=
  let content := GenerateScriptRequest.inputContent validatedData in
  match generatePodcastScript (optionsOf validatedData content) with
  | inl error =>
      (Failure 500 "Failed to generate podcast script" (messageOf error),
       scripts)
  | inr script =>
      let (scripts', savedScript) :=
        MemStorage.createPodcastScript
          scripts (InsertPodcastScript.make validatedData script) uuid now in
      (Json savedScript, scripts')
  end.

(** [POST /api/scripts/generate]. *)
Definition postGenerate (scripts : Storage) (body : Body JsNum)
           (uuid : string) (now : Date) : Reply Stored * Storage :=
  match generateScriptSchema isUrl body with
  | None =>
      (Failure 500 "Failed to generate podcast script" (zodMessage body),
       scripts)
  | Some validatedData =>
      match urlToFetch validatedData with
      | Some url =>
          match fetchContentFromUrl (network url) with
          | inl error =>
              (Failure 400 "Failed to fetch content from URL"
                       (messageOf error),
               scripts)
          | inr fetchedContent =>
              generateAndSave
                scripts
                (withContent validatedData
                             (FetchedContent.content fetchedContent))
                uuid now
          end
      | None => generateAndSave scripts validatedData uuid now
      end
  end.

(** [POST /api/content/fetch]. *)
Definition postFetch (body : FetchBody) : Reply FetchedContent.t :=
  match body with
  | NoBody =>
      Failure 500 "Failed to fetch content from URL" typeErrorMessage
  | UrlMember (Given url) =>
      if url =? "" then Message 400 "URL is required"
      else match fetchContentFromUrl (network url) with
           | inr fetchedContent => Json fetchedContent
           | inl error =>
               Failure 500 "Failed to fetch content from URL"
                       (messageOf error)
           end
  | UrlMember _ => Message 400 "URL is required"
  end.

(** [GET /api/scripts/:id]; the storage does not throw. *)
Definition getScript (scripts : Storage) (id : string) : Reply Stored :=
  match MemStorage.getPodcastScript scripts id with
  | None => Message 404 "Script not found"
  | Some script => Json script
  end.

End Routes.
End Routes.

(* ================================================================== *)
(** * The page: word count and request *)
(* ================================================================== *)

Module Home.

Inductive Tab : Type := TextTab | UrlTab.

Definition tabName (tab : Tab) : string :=
  match tab with
  | TextTab => "text"
  | UrlTab => "url"
  end.

Inductive Style : Type := Conversational | Professional | Educational | Interview.

Definition styleName (style : Style) : string :=
  match style with
  | Conversational => "conversational"
  | Professional => "professional"
  | Educational => "educational"
  | Interview => "interview"
  end.

Inductive Duration : Type := Short | Medium | Long | Extended.

Definition durationName (duration : Duration) : string :=
  match duration with
  | Short => "5-10"
  | Medium => "10-20"
  | Long => "20-30"
  | Extended => "30+"
  end.

(** The state the handlers read. *)
Record State : Type := {
  inputTab : Tab;
  inputText : string;
  inputUrl : string;
  podcastStyle : Style;
  targetDuration : Duration;
  showName : string;
  fetchedContent : option FetchedContent.t
}.

(** [inputText.trim() ? inputText.trim().split(/\s+/).length : 0]. *)
Definition wordCount (inputText : string) : nat :=
  if trim inputText =? "" then 0
  else List.length (split isSpace (trim inputText)).

Definition charCount (inputText : string) : nat := String.length inputText.

(** [inputText || fetchedContent?.content]. *)
Definition contentOf (state : State) : option string :=
  if inputText state =? ""
  then option_map FetchedContent.content (fetchedContent state)
  else Some (inputText state).

(** [handleGenerateScript]: [None] when the handler shows the toast and
    returns, otherwise the request data it sends. *)
Definition handleGenerateScript (state : State) : option (RequestBody.t nat) :=
  match contentOf state with
  | None => None
  | Some content =>
      if (content =? "") || (String.length (trim content) <? 10)%nat
      then None
      else Some (RequestBody.make
                   (Given content)
                   (Given (tabName (inputTab state)))
                   (match inputTab state with
                    | UrlTab => Given (inputUrl state)
                    | TextTab => Absent
                    end)
                   (Given (styleName (podcastStyle state)))
                   (Given (durationName (targetDuration state)))
                   (if showName state =? "" then Absent
                    else Given (showName state))
                   (Given (List.length (split isSpace (trim content))))
                   (Given (String.length content)))
  end.

End Home.

(* ================================================================== *)
(** * The serverless function *)
(* ================================================================== *)

Module Netlify.

(** [s.indexOf(c)] and [s.lastIndexOf(c)] for a one-character string [c]:
    the position, or -1. *)
Fixpoint indexOf (c : ascii) (s : string) : Z :=
  match s with
  | EmptyString => -1
  | String d r =>
      if Ascii.eqb c d then 0
      else let i := indexOf c r in
           if (i =? -1)%Z then -1 else (i + 1)%Z
  end.

Fixpoint lastIndexOf (c : ascii) (s : string) : Z :=
  match s with
  | EmptyString => -1
  | String d r =>
      let i := lastIndexOf c r in
      if (i =? -1)%Z then (if Ascii.eqb c d then 0 else -1)%Z
      else (i + 1)%Z
  end.

(** [s.slice(from, to)] where [0 <= from <= to <= s.length], which is how
    the function calls it. *)
Definition sliceBetween (s : string) (from to : Z) : string :=
  String.substring (Z.to_nat from) (Z.to_nat (to - from)) s.

(** The text between the first opening brace and the last closing brace,
    both included; [None] where the function throws
    ["Failed to parse AI response"]. *)
Definition jsonText (text : string) : option string :=
  let jsonStart := indexOf "{" text in
  let jsonEnd := (lastIndexOf "}" text + 1)%Z in
  if negb (jsonStart =? -1)%Z && (jsonStart <? jsonEnd)%Z
  then Some (sliceBetween text jsonStart jsonEnd)
  else None.

(** [event.body] is a string or null. *)
Record Event : Type := {
  httpMethod : string;
  path : string;
  body : option string
}.

(** [p.replace(pattern, "")] with a string pattern: the first occurrence
    goes. *)
Fixpoint dropPrefix (pattern s : string) : option string :=
  match pattern with
  | EmptyString => Some s
  | String a pattern' =>
      match s with
      | EmptyString => None
      | String b s' => if Ascii.eqb a b then dropPrefix pattern' s' else None
      end
  end.

Fixpoint removeFirstOccurrence (pattern s : string) : string :=
  match dropPrefix pattern s with
  | Some rest => rest
  | None =>
      match s with
      | EmptyString => EmptyString
      | String c r => String c (removeFirstOccurrence pattern r)
      end
  end.

(** [!x] for a string that may be undefined. *)
Definition missing (x : option string) : bool :=
  match x with
  | None => true
  | Some s => s =? ""
  end.

(** The bodies the function serialises. *)
Inductive ResultBody (Json : Type) : Type :=
| EmptyBody
| ErrorOnly (error : string)
| ErrorWithMessage (error message : string)
| ScriptData (scriptData : Json).
Arguments EmptyBody {Json}.
Arguments ErrorOnly {Json} _.
Arguments ErrorWithMessage {Json} _ _.
Arguments ScriptData {Json} _.

Section Handler.

(** [JSON.parse] with the values it yields; the test [!content] on the
    parsed body, which throws where the destructuring does; the prompt
    built from the body; the model, which is given the prompt and whose
    answer is a text unless a step rejects. *)
Variable Json : Type.
Variable JSON_parse : string -> Thrown + Json.
Variable hasContent : Json -> Thrown + bool.
Variable promptOf : Json -> string.
Variable generateContent : string -> Thrown + string.

(** The branch of the route, inside the [try] block; [apiKey] is
    [process.env.GEMINI_API_KEY]. *)
Definition generate (apiKey : option string) (event : Event)
  : Thrown + (nat * ResultBody Json) :=
  match JSON_parse (orElse (body event) "{}") with
  | inl error => inl error
  | inr parsed =>
      match hasContent parsed with
      | inl error => inl error
      | inr false => inr (400, ErrorOnly "Content is required")
      | inr true =>
          if missing apiKey
          then inr (500, ErrorOnly "Gemini API key not configured")
          else match generateContent (promptOf parsed) with
               | inl error => inl error
               | inr text =>
                   match jsonText text with
                   | Some json =>
                       match JSON_parse json with
                       | inl error => inl error
                       | inr scriptData => inr (200, ScriptData scriptData)
                       end
                   | None => inl (ErrorObject "Failed to parse AI response")
                   end
               end
      end
  end.

Definition handler (apiKey : option string) (event : Event)
  : nat * ResultBody Json :=
  if httpMethod event =? "OPTIONS" then (200, EmptyBody)
  else
    let path := removeFirstOccurrence "/.netlify/functions/api" (path event) in
    let attempt :=
      if (path =? "/scripts/generate") && (httpMethod event =? "POST")
      then generate apiKey event
      else inr (404, ErrorOnly "Route not found") in
    match attempt with
    | inr result => result
    | inl error =>
        (500, ErrorWithMessage "Internal server error" (messageOf error))
    end.

End Handler.

End Netlify.

(* ================================================================== *)
(** * Sample requests and states *)
(* ================================================================== *)

(** [c !== d]. *)
Definition differs (c d : ascii) : bool := negb (Ascii.eqb c d).

(** A network on which every address serves the article page, and one on
    which every request is rejected. *)
Definition foxNetwork : string -> Fetch :=
  fun _ => FetchResolves (okResponse (articlePage "Fox News")).

Definition noNetwork : string -> Fetch :=
  fun _ => FetchRejects (ErrorObject "getaddrinfo ENOTFOUND").

(** A generator that resolves, with the number of characters it was given
    in place of a script. *)
Definition countingGenerator (options : PodcastScriptOptions.t)
  : Thrown + nat :=
  inr (String.length (PodcastScriptOptions.content options)).

Definition anyUrl (_ : string) : bool := true.

Definition invalidInput (_ : Body nat) : string := "Invalid input".

(** A request for a page, with a placeholder as content, and the same
    request with a content that is too short. *)
Definition urlRequest : RequestBody.t nat :=
  RequestBody.make (Given "placeholder text") (Given "url")
                   (Given "https://example.org/fox")
                   Absent Absent Absent (Given 2) (Given 16).

Definition shortRequest : RequestBody.t nat :=
  RequestBody.make (Given "too short") (Given "url")
                   (Given "https://example.org/fox")
                   Absent Absent Absent Absent Absent.

(** The page with a text typed in, and the page on its URL tab after the
    article was fetched. *)
Definition typedState : Home.State :=
  {| Home.inputTab := Home.TextTab;
     Home.inputText := "Tea is the most widely drunk beverage after water.";
     Home.inputUrl := "";
     Home.podcastStyle := Home.Educational;
     Home.targetDuration := Home.Short;
     Home.showName := "";
     Home.fetchedContent := None |}.

Definition fetchedState : Home.State :=
  {| Home.inputTab := Home.UrlTab;
     Home.inputText := "";
     Home.inputUrl := "https://example.org/fox";
     Home.podcastStyle := Home.Conversational;
     Home.targetDuration := Home.Medium;
     Home.showName := "Fox Hour";
     Home.fetchedContent :=
       Some (FetchedContent.make
               "Fox News"
               "The quick brown fox jumps over the lazy dog while the band plays on and on until everybody in the hall has gone home."
               24) |}.

(* ================================================================== *)
(** * Stretches, tokens and the normal form of a text *)
(* ================================================================== *)

(** The code units of the ASCII range, on which [toLowerCase] and
    [toUpperCase] of the embedding are those of JavaScript. *)
Definition isAscii (c : ascii) : bool := (nat_of_ascii c <? 128)%nat.

Definition nonEmpty (s : string) : bool := negb (s =? "").

(** [seg] is a maximal stretch of [s] without a character of the class
    [sep]: it lies between [pre] and [post], holds no such character, and
    on each side it is bounded by such a character or by the end of [s]. *)
Definition stretch (sep : ascii -> bool) (s pre seg post : string) : Prop :=
  s = pre ++ seg ++ post
  /\ allChars (fun c => negb (sep c)) seg = true
  /\ (pre = "" \/ exists p c, pre = p ++ String c "" /\ sep c = true)
  /\ (post = "" \/ exists c q, post = String c q /\ sep c = true).

(** The pieces of [s] between the characters of the class [sep], one more
    than there are such characters; two such characters in a row have an
    empty piece between them. *)
Definition consHead (c : ascii) (pieces : list string) : list string :=
  match pieces with
  | [] => [String c ""]
  | piece :: rest => String c piece :: rest
  end.

Fixpoint spans (sep : ascii -> bool) (s : string) : list string :=
  match s with
  | EmptyString => [""]
  | String c r => if sep c then "" :: spans sep r else consHead c (spans sep r)
  end.

(** The pieces with [cur] put before the first of them. *)
Definition prefixHead (cur : string) (pieces : list string) : list string :=
  match pieces with
  | [] => [cur]
  | piece :: rest => (cur ++ piece) :: rest
  end.

(** The whitespace-delimited tokens of a text, and its normal form: the
    tokens with one space between each two of them. *)
Definition tokens (s : string) : list string :=
  filter nonEmpty (spans isSpace s).

Definition normalize (s : string) : string := join " " (tokens s).

(** A segment counts as a sentence when it has more than 10 characters
    after trimming. *)
Definition longEnough (s : string) : bool :=
  (10 <? String.length (trim s))%nat.

(** A page whose article has tabs, line feeds and runs of spaces. *)
Definition tab : string := String (ascii_of_nat 9) "".

Definition raggedPage : Document :=
  fun selector =>
    if selector =? "title" then ["Fox News"]
    else if selector =? "article" then
      [ nl ++ "  The quick" ++ tab ++ "brown fox jumps over the lazy dog"
        ++ nl ++ nl
        ++ "while the band   plays on and on until everybody in the hall has gone home. "
        ++ nl ]
    else [].

(** A storage that holds two scripts. *)
Definition teaScript : Routes.Stored nat nat nat :=
  MemStorage.make
    (InsertPodcastScript.make
       (GenerateScriptRequest.make
          "Tea is the most widely drunk beverage after water." "text" None
          "educational" "5-10" None (Some 9) (Some 50))
       50)
    "a1" 2026.

Definition foxScript : Routes.Stored nat nat nat :=
  MemStorage.make
    (InsertPodcastScript.make
       (GenerateScriptRequest.make
          "The quick brown fox jumps over the lazy dog while the band plays on and on until everybody in the hall has gone home."
          "url" (Some "https://example.org/fox")
          "conversational" "10-20" (Some "Fox Hour") (Some 24) (Some 117))
       117)
    "b2" 2027.

Definition twoScripts : Routes.Storage nat nat nat :=
  [("a1", teaScript); ("b2", foxScript)].

(* ================================================================== *)
(** * Category inference *)
(* ================================================================== *)

(** The chain of assignments keeps the name of the last keyword set that is
    hit. *)
Lemma category_unfold (content : string) :
  category content =
    if mentions (words content) Science then "Science"
    else if mentions (words content) Education then "Education"
    else if mentions (words content) Health then "Health"
    else if mentions (words content) Business then "Business"
    else if mentions (words content) Technology then "Technology"
    else "General".
Proof.
  unfold category.
  destruct (mentions (words content) Science),
           (mentions (words content) Education),
           (mentions (words content) Health),
           (mentions (words content) Business),
           (mentions (words content) Technology); reflexivity.
Qed.

(** C1, as amended.  The set that matches and is checked last gives the
    category: of two matching sets the later one in the order Technology,
    Business, Health, Education, Science wins; a single matching set gives
    its own category; without a match the category is General. *)
Theorem category_last_match_wins (content : string) :
  (forall c : Category,
      mentions (words content) c = true ->
      (forall c', rank c < rank c' -> mentions (words content) c' = false) ->
      category content = categoryName c)
  /\ ((forall c, mentions (words content) c = false) ->
      category content = "General").
Proof.
  split.
  - intros c Hc Hlater. rewrite category_unfold.
    destruct c; simpl in Hlater;
      repeat match goal with
             | |- context [mentions (words content) ?d] =>
                 first [ rewrite Hc
                       | rewrite (Hlater d) by (simpl; lia) ]
             end; reflexivity.
  - intros Hnone. rewrite category_unfold.
    rewrite !Hnone. reflexivity.
Qed.

Lemma category_last_match_wins_witness :
  mentions (words "tech business") Technology = true
  /\ mentions (words "tech business") Business = true
  /\ category "tech business" = "Business".
Proof.
  split; [reflexivity |]. split; [reflexivity |].
  apply (proj1 (category_last_match_wins "tech business") Business).
  - reflexivity.
  - intros c' H. destruct c'; simpl in H; try lia; reflexivity.
Defined.

(** C1 as stated fails: "tech business" holds a Technology keyword and a
    Business keyword, Technology is checked first, and the category is not
    Technology. *)
Lemma category_first_match_counterexample :
  mentions (words "tech business") Technology = true
  /\ mentions (words "tech business") Business = true
  /\ rank Technology < rank Business
  /\ category "tech business" <> categoryName Technology.
Proof.
  repeat split; try reflexivity.
  - simpl. lia.
  - vm_compute. discriminate.
Qed.

(* ================================================================== *)
(** * Length of the key-topic list *)
(* ================================================================== *)

Lemma slice_length_le {A : Type} (xs : list A) (from to : nat) :
  List.length (slice xs from to) <= to - from.
Proof. unfold slice. apply firstn_le_length. Qed.

Lemma keyTopics_length_le (content : string) :
  List.length (keyTopics content) <= 5.
Proof.
  unfold keyTopics. rewrite length_map.
  apply (slice_length_le _ 0 5).
Qed.

(** C2, as amended.  The key-topic list of the show notes has between 1 and
    5 entries: it is the list of extracted topics when there is at least
    one, and the three placeholders when there is none. *)
Theorem showNotes_keyTopics_length (options : PodcastScriptOptions.t) :
  let extracted := keyTopics (PodcastScriptOptions.content options) in
  let shown :=
    ShowNotes.keyTopics (GeneratedScript.showNotes (generateFallbackScript options)) in
  1 <= List.length shown <= 5
  /\ shown = match extracted with
             | [] => ["Analysis"; "Discussion"; "Insights"]
             | _ :: _ => extracted
             end.
Proof.
  cbv zeta. unfold generateFallbackScript. cbn [GeneratedScript.showNotes ShowNotes.keyTopics].
  pose proof (keyTopics_length_le (PodcastScriptOptions.content options)) as Hle.
  destruct (keyTopics (PodcastScriptOptions.content options)) as [| t ts] eqn:E.
  - cbn. split; [lia | reflexivity].
  - cbn [List.length] in *. cbn. split; [lia | reflexivity].
Qed.

(** C2 as stated fails: one extracted topic is shown alone. *)
Lemma showNotes_keyTopics_short_counterexample :
  let options :=
    PodcastScriptOptions.make "this is a podcast" "conversational" "10-20" None in
  let shown :=
    ShowNotes.keyTopics (GeneratedScript.showNotes (generateFallbackScript options)) in
  shown = ["Podcast"] /\ ~ (3 <= List.length shown <= 5).
Proof.
  cbv zeta. split.
  - vm_compute. reflexivity.
  - vm_compute. intros [H _].
    repeat match goal with H : _ <= _ |- _ => inversion H; clear H end.
Qed.

(* ================================================================== *)
(** * Timestamps *)
(* ================================================================== *)


Lemma timestamps_length (duration : string) :
  List.length (timestamps duration) = 6.
Proof. reflexivity. Qed.

Lemma timestamps_head (duration : string) :
  hd_error (timestamps duration) = Some (Timestamp.make "0:00" "Introduction").
Proof. reflexivity. Qed.

(** The estimate is one of the four table values, 15 for a string the
    lookup does not find, and no number for a name the table inherits. *)
Lemma estimatedDuration_cases (duration : string) :
  estimatedDuration duration = JsNumber.Num 8
  \/ estimatedDuration duration = JsNumber.Num 15
  \/ estimatedDuration duration = JsNumber.Num 25
  \/ estimatedDuration duration = JsNumber.Num 35
  \/ (estimatedDuration duration = JsNumber.NaN
      /\ includes JsObject.objectPrototypeKeys duration = true).
Proof.
  unfold estimatedDuration, JsObject.get, JsObject.getOwn.
  remember (includes JsObject.objectPrototypeKeys duration) as inherited.
  destruct (JsObject.arrayIndex duration) as [i |].
  - cbn. destruct inherited; auto 6.
  - cbn [durationMap JsObject.literal JsObject.named JsObject.findNamed].
    destruct (duration =? "5-10"); [cbn; auto |].
    destruct (duration =? "10-20"); [cbn; auto |].
    destruct (duration =? "20-30"); [cbn; auto 6 |].
    destruct (duration =? "30+"); [cbn; auto 6 |].
    destruct inherited; auto 6.
Qed.

(** The minutes written before the colon never go down, whatever numeric
    estimate the table gives. *)
Lemma timestamps_minute_fields (duration : string) :
  includes JsObject.objectPrototypeKeys duration = false ->
  exists fields,
    allSome (map (fun t => minuteField (Timestamp.time t)) (timestamps duration))
    = Some fields
    /\ nondecreasing fields = true.
Proof.
  intros Hplain. unfold timestamps.
  destruct (estimatedDuration_cases duration)
    as [E | [E | [E | [E | [_ E]]]]]; try congruence;
    rewrite E; eexists; split; vm_compute; reflexivity.
Qed.

(** Read as times, the entries are in order for the estimates 15, 25 and
    35. *)
Lemma timestamps_chronological (duration : string) :
  estimatedDuration duration = JsNumber.Num 15
  \/ estimatedDuration duration = JsNumber.Num 25
  \/ estimatedDuration duration = JsNumber.Num 35 ->
  exists seconds,
    allSome (map (fun t => secondsOf (Timestamp.time t)) (timestamps duration))
    = Some seconds
    /\ nondecreasing seconds = true.
Proof.
  intros [E | [E | E]]; unfold timestamps; rewrite E;
    eexists; split; vm_compute; reflexivity.
Qed.

(** Read as times, the entries for 5-10 are not in order, although their
    minutes are: the third entry, 1:00, lies before the second, 1:30,
    because 20 percent of the 8-minute estimate is rounded down to one
    minute. *)
Lemma timestamps_smallest_bucket (content style : string)
      (showName : option string) :
  let script :=
    generateFallbackScript
      (PodcastScriptOptions.make content style "5-10" showName) in
  timesOf script = ["0:00"; "1:30"; "1:00"; "4:00"; "6:00"; "6:00"]
  /\ allSome (map secondsOf (timesOf script))
     = Some [0; 90; 60; 240; 360; 360]%N
  /\ nondecreasing [0; 90; 60; 240; 360; 360]%N = false.
Proof. cbv zeta. repeat split. Qed.

(** C3 at a duration that names a member inherited from
    [Object.prototype].  [durationMap["constructor"]] is the function
    [Object], which is truthy, so the default of 15 is not taken: the
    estimate is no number, and of the six entries, which start with 0:00
    Introduction, the last four are labelled NaN:00 and have no minute
    value. *)
Theorem timestamps_inherited_duration (content style : string)
        (showName : option string) :
  let script :=
    generateFallbackScript
      (PodcastScriptOptions.make content style "constructor" showName) in
  List.length (timesOf script) = 6
  /\ hd_error (ShowNotes.timestamps (GeneratedScript.showNotes script))
     = Some (Timestamp.make "0:00" "Introduction")
  /\ estimatedDuration "constructor" = JsNumber.NaN
  /\ timesOf script
     = ["0:00"; "1:30"; "NaN:00"; "NaN:00"; "NaN:00"; "NaN:00"]
  /\ map minuteField (timesOf script)
     = [Some 0%N; Some 1%N; None; None; None; None]
  /\ allSome (map minuteField (timesOf script)) = None.
Proof. cbv zeta. repeat split. Qed.

(* ================================================================== *)
(** * The facade *)
(* ================================================================== *)

(** With the synthesizer at hand the facade always returns a script, and it
    is the synthesizer's, for the same options, whenever the [try] block
    throws. *)
Lemma generatePodcastScript_total (Json : Type)
      (JSON_parse : string -> Thrown + Json)
      (options : PodcastScriptOptions.t) (call : ModelCall) :
  (exists script, generatePodcastScript Json JSON_parse options call = inr script)
  /\ (forall error,
         tryModel Json JSON_parse call = inl error ->
         generatePodcastScript Json JSON_parse options call
         = inr (FromFallback (generateFallbackScript options))).
Proof.
  unfold generatePodcastScript.
  destruct (tryModel Json JSON_parse call) as [e | s].
  - split; [eexists; reflexivity | reflexivity].
  - split; [eexists; reflexivity | discriminate].
Qed.

(** C4 at [server/services/gemini.ts].  There the facade has no fallback:
    a rejected model call reaches the caller as an error. *)
Theorem server_generatePodcastScript_propagates (Json : Type)
        (JSON_parse : string -> Thrown + Json)
        (options : PodcastScriptOptions.t) (error : Thrown) :
  Server.generatePodcastScript Json JSON_parse options (CallRejects error)
  = inl (ErrorObject
           ("Failed to generate podcast script: " ++ messageOf error))
  /\ generatePodcastScript Json JSON_parse options (CallRejects error)
     = inr (FromFallback (generateFallbackScript options)).
Proof. split; reflexivity. Qed.

(* ================================================================== *)
(** * Show name and resources *)
(* ================================================================== *)

(** An absent show name is replaced by The Show, a given one is used as it
    is. *)
Lemma showName_interpolated (content style duration : string)
      (showName : option string) :
  let script :=
    generateFallbackScript
      (PodcastScriptOptions.make content style duration showName) in
  GeneratedScript.intro script
  = intro (showNameOf showName) (firstSentence content) (transitionPhrase style)
  /\ GeneratedScript.outro script
     = outro (showNameOf showName) (keyTopics content).
Proof. split; reflexivity. Qed.

Lemma showName_absent : showNameOf None = "The Show".
Proof. reflexivity. Qed.

Lemma showName_given (name : string) : showNameOf (Some name) = name.
Proof. reflexivity. Qed.

(** C9 at the empty show name.  The destructuring default does not apply to
    it: the intro greets with an empty name and differs from the intro for
    The Show. *)
Theorem showName_empty_not_defaulted (content style duration : string) :
  let script :=
    generateFallbackScript
      (PodcastScriptOptions.make content style duration (Some "")) in
  GeneratedScript.intro script
  = intro "" (firstSentence content) (transitionPhrase style)
  /\ GeneratedScript.outro script = outro "" (keyTopics content)
  /\ GeneratedScript.intro script
     <> intro "The Show" (firstSentence content) (transitionPhrase style).
Proof.
  cbv zeta. repeat split.
  unfold generateFallbackScript, intro. cbn.
  intros H. discriminate H.
Qed.

(** C10.  The resources of the show notes are the same three lines for all
    options. *)
Theorem resources_fixed (options : PodcastScriptOptions.t) :
  ShowNotes.resources (GeneratedScript.showNotes (generateFallbackScript options))
  = [ "Episode transcript available on our website";
      "Follow us on social media for updates";
      "Submit topic suggestions via our contact form" ].
Proof. reflexivity. Qed.

(* ================================================================== *)
(** * The content extractor *)
(* ================================================================== *)


Lemma split_from_length (s cur : string) (insep : bool) :
  List.length (split_from isSpace s cur insep)
  = (if insep then 0 else 1)
    + countTokens_from s (negb insep)
    + (if endsInSpace s insep then 1 else 0).
Proof.
  revert cur insep. induction s as [| c r IH]; intros cur insep.
  - destruct insep; reflexivity.
  - cbn [split_from countTokens_from endsInSpace].
    destruct (isSpace c) eqn:Ec.
    + destruct insep; cbn [List.length negb]; rewrite IH; cbn [negb]; lia.
    + rewrite IH. cbn [negb]. destruct insep; cbn [negb]; lia.
Qed.

Lemma endsInSpace_trimEnd (s : string) (b : bool) :
  endsInSpace (trimEnd s) b = (trimEnd s =? "") && b.
Proof.
  revert b. induction s as [| c r IH]; intros b.
  - reflexivity.
  - cbn [trimEnd].
    destruct (isSpace c && (trimEnd r =? "")) eqn:E.
    + reflexivity.
    + cbn [endsInSpace]. rewrite IH. cbn.
      destruct (trimEnd r =? ""), (isSpace c); try reflexivity; discriminate.
Qed.

Lemma trimStart_head (s : string) :
  trimStart s = ""
  \/ exists c r, trimStart s = String c r /\ isSpace c = false.
Proof.
  induction s as [| c r IH].
  - left. reflexivity.
  - cbn [trimStart]. destruct (isSpace c) eqn:Ec.
    + exact IH.
    + right. exists c, r. split; [reflexivity | exact Ec].
Qed.

Lemma trimEnd_head (c : ascii) (r : string) :
  isSpace c = false -> trimEnd (String c r) = String c (trimEnd r).
Proof. intros Ec. cbn [trimEnd]. rewrite Ec. reflexivity. Qed.

Lemma trim_head (s : string) :
  trim s = ""
  \/ exists c r, trim s = String c (trimEnd r) /\ isSpace c = false.
Proof.
  unfold trim. destruct (trimStart_head s) as [E | [c [r [E Ec]]]]; rewrite E.
  - left. reflexivity.
  - right. exists c, r. split; [apply trimEnd_head; exact Ec | exact Ec].
Qed.

Lemma trimEnd_idempotent (s : string) : trimEnd (trimEnd s) = trimEnd s.
Proof.
  induction s as [| c r IH].
  - reflexivity.
  - cbn [trimEnd]. destruct (isSpace c && (trimEnd r =? "")) eqn:E.
    + reflexivity.
    + cbn [trimEnd]. rewrite IH, E. reflexivity.
Qed.

Lemma trim_idempotent (s : string) : trim (trim s) = trim s.
Proof.
  destruct (trim_head s) as [E | [c [r [E Ec]]]]; rewrite E.
  - reflexivity.
  - unfold trim. cbn [trimStart]. rewrite Ec.
    rewrite trimEnd_head by exact Ec.
    rewrite trimEnd_idempotent. reflexivity.
Qed.

(** On a trimmed, non-empty string [split(/\s+/)] yields exactly the
    tokens. *)
Lemma split_trim_countTokens (s : string) :
  trim s <> "" ->
  List.length (split isSpace (trim s)) = countTokens (trim s).
Proof.
  intros Hne. destruct (trim_head s) as [E | [c [r [E Ec]]]]; [contradiction |].
  unfold split. rewrite split_from_length.
  rewrite E. unfold countTokens.
  cbn [countTokens_from endsInSpace negb]. rewrite Ec.
  rewrite endsInSpace_trimEnd. rewrite andb_false_r. cbn. lia.
Qed.

Lemma extract_unfold (dom : Document) :
  extract dom =
    let content := cleanUp (rawContent dom) in
    if (String.length content <? 50)%nat
    then inl (ErrorObject "Could not extract meaningful content from the URL")
    else inr (FetchedContent.make (trim (titleOf dom)) content
                (countTokens content)).
Proof.
  unfold extract. cbv zeta.
  destruct (String.length (cleanUp (rawContent dom)) <? 50)%nat eqn:E.
  - reflexivity.
  - apply Nat.ltb_ge in E. f_equal. f_equal.
    unfold cleanUp in *. rewrite trim_idempotent.
    apply split_trim_countTokens.
    intros H0. rewrite H0 in E. cbn in E. lia.
Qed.

(** The title the extractor returns is the trimmed text of the title
    element, of the first heading when the title element has no text, and
    the placeholder when both have none. *)
Lemma extract_title (dom : Document) (fetched : FetchedContent.t) :
  extract dom = inr fetched ->
  FetchedContent.title fetched
  = trim (if text (dom "title") =? "" then
            if text (first (dom "h1")) =? "" then "Untitled Article"
            else text (first (dom "h1"))
          else text (dom "title")).
Proof.
  rewrite extract_unfold. cbv zeta.
  destruct (String.length (cleanUp (rawContent dom)) <? 50)%nat; [discriminate |].
  intros H. injection H as <-. cbn [FetchedContent.title].
  unfold titleOf, orElse. reflexivity.
Qed.

(** C8 at a title element that holds one space.  Its text is not empty, so
    neither the heading nor the placeholder is used, and trimming leaves the
    empty title. *)
Theorem fetchContentFromUrl_blank_title :
  fetchContentFromUrl (FetchResolves (okResponse (articlePage " ")))
  = inr (FetchedContent.make
           ""
           "The quick brown fox jumps over the lazy dog while the band plays on and on until everybody in the hall has gone home."
           24).
Proof. vm_compute. reflexivity. Qed.

(* ================================================================== *)
(** * Key-topic extraction *)
(* ================================================================== *)

(** ** The stable sort, for a comparator that subtracts keys *)

Section SortByKey.

Variable A : Type.
Variable key : A -> nat.
Variable cmp : A -> A -> Z.
Hypothesis cmp_key : forall x y, cmp x y = (Z.of_nat (key y) - Z.of_nat (key x))%Z.

Lemma insert_unfold (x y : A) (r : list A) :
  insert cmp x (y :: r)
  = if (key x <? key y)%nat then y :: insert cmp x r else x :: y :: r.
Proof.
  cbn [insert]. rewrite cmp_key.
  destruct (key x <? key y)%nat eqn:E.
  - apply Nat.ltb_lt in E.
    replace (0 <? Z.of_nat (key y) - Z.of_nat (key x))%Z with true
      by (symmetry; apply Z.ltb_lt; lia).
    reflexivity.
  - apply Nat.ltb_ge in E.
    replace (0 <? Z.of_nat (key y) - Z.of_nat (key x))%Z with false
      by (symmetry; apply Z.ltb_ge; lia).
    reflexivity.
Qed.

(** Stability: among the elements of one key, the order is kept. *)
Lemma filter_insert (n : nat) (x : A) (l : list A) :
  filter (hasKey key n) (insert cmp x l)
  = if hasKey key n x then x :: filter (hasKey key n) l else filter (hasKey key n) l.
Proof.
  induction l as [| y r IH].
  - reflexivity.
  - rewrite insert_unfold. destruct (key x <? key y)%nat eqn:E.
    + cbn [filter]. rewrite IH. unfold hasKey in *.
      apply Nat.ltb_lt in E.
      destruct (key x =? n)%nat eqn:Ex; [| reflexivity].
      apply Nat.eqb_eq in Ex.
      replace (key y =? n)%nat with false
        by (symmetry; apply Nat.eqb_neq; lia).
      reflexivity.
    + cbn [filter]. destruct (hasKey key n x); reflexivity.
Qed.

Lemma filter_sort (n : nat) (l : list A) :
  filter (hasKey key n) (sort cmp l) = filter (hasKey key n) l.
Proof.
  induction l as [| x r IH].
  - reflexivity.
  - cbn [sort fold_right]. fold (sort cmp r).
    rewrite filter_insert, IH. reflexivity.
Qed.

Lemma insert_Forall (P : A -> Prop) (x : A) (l : list A) :
  P x -> Forall P l -> Forall P (insert cmp x l).
Proof.
  intros Hx Hl. induction Hl as [| y r Hy Hr IH].
  - constructor; [exact Hx | constructor].
  - rewrite insert_unfold. destruct (key x <? key y)%nat.
    + constructor; assumption.
    + constructor; [exact Hx |]. constructor; assumption.
Qed.

Lemma sort_Forall (P : A -> Prop) (l : list A) :
  Forall P l -> Forall P (sort cmp l).
Proof.
  induction 1 as [| x r Hx Hr IH].
  - constructor.
  - cbn [sort fold_right]. apply insert_Forall; assumption.
Qed.

Lemma insert_descending (x : A) (l : list A) :
  descending key l -> descending key (insert cmp x l).
Proof.
  unfold descending. induction 1 as [| y r Hr IH Hy].
  - constructor; constructor.
  - rewrite insert_unfold. destruct (key x <? key y)%nat eqn:E.
    + apply Nat.ltb_lt in E. constructor; [exact IH |].
      apply insert_Forall; [lia | exact Hy].
    + apply Nat.ltb_ge in E. constructor.
      * constructor; assumption.
      * constructor; [exact E |].
        eapply Forall_impl; [| exact Hy]. cbn. intros a Ha. lia.
Qed.

Lemma sort_descending (l : list A) : descending key (sort cmp l).
Proof.
  induction l as [| x r IH].
  - constructor.
  - cbn [sort fold_right]. apply insert_descending. exact IH.
Qed.

Lemma fromHighest_ext (m : nat) (f g : nat -> list A) :
  (forall n, 1 <= n <= m -> f n = g n) ->
  fromHighest m f = fromHighest m g.
Proof.
  induction m as [| m IH]; intros Hfg.
  - reflexivity.
  - cbn [fromHighest]. rewrite (Hfg (S m)) by lia.
    rewrite IH; [reflexivity |]. intros n Hn. apply Hfg. lia.
Qed.

Lemma fromHighest_truncate (k m : nat) (f : nat -> list A) :
  k <= m -> (forall n, k < n -> f n = []) ->
  fromHighest m f = fromHighest k f.
Proof.
  intros Hkm Hf. induction m as [| m IH].
  - replace k with 0 by lia. reflexivity.
  - destruct (Nat.eq_dec k (S m)) as [-> | Hne]; [reflexivity |].
    cbn [fromHighest]. rewrite Hf by lia. cbn [app]. apply IH. lia.
Qed.

Lemma filter_none (p : A -> bool) (l : list A) :
  Forall (fun x => p x = false) l -> filter p l = [].
Proof.
  induction 1 as [| x r Hx Hr IH]; [reflexivity |].
  cbn [filter]. rewrite Hx. exact IH.
Qed.

(** A list sorted by descending key is the concatenation of its key
    classes, highest key first. *)
Lemma descending_levels (l : list A) :
  descending key l ->
  forall m, Forall (fun x => 1 <= key x <= m) l ->
  l = fromHighest m (fun n => filter (hasKey key n) l).
Proof.
  unfold descending. induction 1 as [| x r Hr IH Hx]; intros m Hm.
  - induction m as [| m IHm]; [reflexivity |].
    cbn [fromHighest filter app]. apply IHm. constructor.
  - inversion Hm as [| x' r' Hkx Hmr]; subst.
    assert (Habove : forall n, key x < n -> filter (hasKey key n) (x :: r) = []).
    { intros n Hn. apply filter_none. constructor.
      - unfold hasKey. apply Nat.eqb_neq. lia.
      - eapply Forall_impl; [| exact Hx]. cbn. intros a Ha.
        unfold hasKey. apply Nat.eqb_neq. lia. }
    rewrite (fromHighest_truncate (key x) m _ (proj2 Hkx) Habove).
    clear Habove.
    destruct (key x) as [| k] eqn:Ek; [lia |].
    cbn [fromHighest filter]. unfold hasKey at 1. rewrite Ek, Nat.eqb_refl.
    cbn [app]. f_equal.
    rewrite (fromHighest_ext k _ (fun n => filter (hasKey key n) r)).
    + change (r = fromHighest (S k) (fun n => filter (hasKey key n) r)).
      apply IH.
      eapply Forall_impl; [| exact (Forall_and Hx Hmr)].
      cbn. intros a [Ha1 Ha2]. lia.
    + intros n Hn. cbn [filter]. unfold hasKey at 1.
      replace (key x =? n)%nat with false
        by (symmetry; apply Nat.eqb_neq; lia).
      reflexivity.
Qed.

(** The stable sort lists the key classes of its input, highest key
    first, each in the order of the input. *)
Lemma sort_fromHighest (l : list A) (m : nat) :
  Forall (fun x => 1 <= key x <= m) l ->
  sort cmp l = fromHighest m (fun n => filter (hasKey key n) l).
Proof.
  intros Hm.
  rewrite (descending_levels (sort cmp l) (sort_descending l) m)
    by (apply sort_Forall; exact Hm).
  apply fromHighest_ext. intros n _. apply filter_sort.
Qed.

End SortByKey.

(** ** The frequency object *)

Lemma includes_In (xs : list string) (w : string) :
  includes xs w = true <-> In w xs.
Proof.
  unfold includes. rewrite existsb_exists. split.
  - intros [x [Hx E]]. apply String.eqb_eq in E. subst. exact Hx.
  - intros H. exists w. split; [exact H | apply String.eqb_refl].
Qed.

Lemma includes_false (xs : list string) (w : string) :
  includes xs w = false <-> ~ In w xs.
Proof.
  rewrite <- includes_In. destruct (includes xs w); split; congruence.
Qed.

Lemma In_distinct (ws : list string) (x : string) :
  In x (distinct ws) <-> In x ws.
Proof.
  induction ws as [| w r IH]; [reflexivity |].
  cbn [distinct In]. rewrite filter_In, IH.
  destruct (String.eqb_spec x w) as [-> | Hne]; cbn.
  - split; auto.
  - split.
    + intros [H | [H _]]; auto.
    + intros [H | H]; [subst; contradiction | auto].
Qed.

Lemma NoDup_distinct (ws : list string) : NoDup (distinct ws).
Proof.
  induction ws as [| w r IH]; cbn [distinct]; constructor.
  - rewrite filter_In. intros [_ H]. rewrite String.eqb_refl in H. discriminate.
  - apply NoDup_filter. exact IH.
Qed.

Lemma distinct_snoc (ws : list string) (w : string) :
  distinct (ws ++ [w])%list
  = if includes ws w then distinct ws else (distinct ws ++ [w])%list.
Proof.
  induction ws as [| x r IH].
  - reflexivity.
  - cbn [app distinct]. rewrite IH. unfold includes. cbn [existsb].
    fold (includes r w).
    destruct (String.eqb_spec w x) as [-> | Hne]; cbn [orb].
    + destruct (includes r x); [reflexivity |].
      rewrite filter_app. cbn [filter]. rewrite String.eqb_refl. cbn.
      rewrite app_nil_r. reflexivity.
    + destruct (includes r w); [reflexivity |].
      rewrite filter_app. cbn [filter].
      destruct (String.eqb_spec w x); [contradiction |]. reflexivity.
Qed.

Lemma frequency_snoc (ws : list string) (w x : string) :
  frequency (ws ++ [w])%list x = frequency ws x + (if x =? w then 1 else 0).
Proof.
  unfold frequency. rewrite count_occ_app. cbn [count_occ].
  destruct (string_dec w x) as [-> | Hne].
  - rewrite String.eqb_refl. reflexivity.
  - destruct (String.eqb_spec x w); [subst; contradiction | reflexivity].
Qed.

Lemma frequency_snoc_other (ws : list string) (w x : string) :
  x <> w -> frequency (ws ++ [w])%list x = frequency ws x.
Proof.
  intros Hne. rewrite frequency_snoc.
  destruct (String.eqb_spec x w); [contradiction | apply Nat.add_0_r].
Qed.

Lemma frequency_zero (ws : list string) (w : string) :
  ~ In w ws -> frequency ws w = 0.
Proof. intros H. apply count_occ_not_In. exact H. Qed.

Lemma frequency_bounds (ws : list string) (w : string) :
  In w ws -> 1 <= frequency ws w <= List.length ws.
Proof.
  intros H. split.
  - apply (count_occ_In string_dec) in H. unfold frequency. lia.
  - apply count_occ_bound.
Qed.

(** *** Array-index keys *)

Lemma arrayIndex_numeral (w : string) (i : N) :
  JsObject.arrayIndex w = Some i -> JsObject.numeral i = w.
Proof.
  unfold JsObject.arrayIndex.
  destruct (NilZero.uint_of_string w) as [u |]; [| discriminate].
  cbv zeta. destruct (JsObject.numeral (N.of_uint u) =? w) eqn:E;
    cbn [andb]; [| discriminate].
  destruct (N.of_uint u <=? 4294967294)%N; [| discriminate].
  intros H. injection H as <-. apply String.eqb_eq. exact E.
Qed.

Lemma In_insertIndex (i j : N) (l : list N) :
  In j (insertIndex i l) <-> j = i \/ In j l.
Proof.
  induction l as [| k r IH]; cbn [insertIndex].
  - cbn. intuition congruence.
  - destruct (N.eqb_spec i k) as [-> | Hne].
    + cbn. intuition congruence.
    + destruct (i <? k)%N.
      * cbn. intuition congruence.
      * cbn [In]. rewrite IH. intuition congruence.
Qed.

Lemma insertIndex_sorted (i : N) (l : list N) :
  StronglySorted N.lt l -> StronglySorted N.lt (insertIndex i l).
Proof.
  induction 1 as [| k r Hr IH Hk]; cbn [insertIndex].
  - repeat constructor.
  - destruct (N.eqb_spec i k) as [-> | Hne]; [constructor; assumption |].
    destruct (N.ltb_spec i k) as [Hlt | Hge].
    + constructor; [constructor; assumption |].
      constructor; [exact Hlt |].
      eapply Forall_impl; [| exact Hk]. cbn. intros a Ha. lia.
    + constructor; [exact IH |].
      apply Forall_forall. intros a Ha. apply In_insertIndex in Ha.
      destruct Ha as [-> | Ha]; [lia |].
      rewrite Forall_forall in Hk. apply Hk. exact Ha.
Qed.

Lemma indexKeys_snoc (ws : list string) (w : string) :
  indexKeys (ws ++ [w]) = noteIndex (indexKeys ws) w.
Proof. unfold indexKeys. rewrite fold_left_app. reflexivity. Qed.

(** The index keys are listed in ascending order, each once, and they are
    the array indices of the tokens. *)
Lemma indexKeys_sorted (ws : list string) : StronglySorted N.lt (indexKeys ws).
Proof.
  induction ws as [| w r IH] using rev_ind.
  - constructor.
  - rewrite indexKeys_snoc. unfold noteIndex.
    destruct (JsObject.arrayIndex w); [apply insertIndex_sorted |]; exact IH.
Qed.

Lemma In_indexKeys (ws : list string) (i : N) :
  In i (indexKeys ws)
  <-> exists w, In w ws /\ JsObject.arrayIndex w = Some i.
Proof.
  induction ws as [| w r IH] using rev_ind.
  - split; [intros [] | intros [w [[] _]]].
  - rewrite indexKeys_snoc. unfold noteIndex.
    destruct (JsObject.arrayIndex w) as [k |] eqn:E.
    + rewrite In_insertIndex, IH. split.
      * intros [-> | [x [Hx Ex]]].
        -- exists w. split; [apply in_or_app; right; left; reflexivity | exact E].
        -- exists x. split; [apply in_or_app; left; exact Hx | exact Ex].
      * intros [x [Hx Ex]]. apply in_app_or in Hx.
        destruct Hx as [Hx | [<- | []]].
        -- right. exists x. split; assumption.
        -- left. congruence.
    + rewrite IH. split; intros [x [Hx Ex]].
      * exists x. split; [apply in_or_app; left; exact Hx | exact Ex].
      * apply in_app_or in Hx. destruct Hx as [Hx | [<- | []]].
        -- exists x. split; assumption.
        -- congruence.
Qed.

Lemma indexKeys_numeral (ws : list string) (i : N) :
  In i (indexKeys ws) ->
  In (JsObject.numeral i) ws
  /\ JsObject.arrayIndex (JsObject.numeral i) = Some i.
Proof.
  intros H. apply In_indexKeys in H. destruct H as [w [Hw E]].
  rewrite (arrayIndex_numeral w i E). split; assumption.
Qed.

Lemma findIndexed_map (f : N -> Tally) (l : list N) (i : N) :
  JsObject.findIndexed i (map (fun j => (j, f j)) l)
  = if existsb (N.eqb i) l then Some (f i) else None.
Proof.
  induction l as [| k r IH]; [reflexivity |].
  cbn [map JsObject.findIndexed existsb].
  destruct (N.eqb_spec i k) as [-> | Hne]; [reflexivity |].
  cbn [orb]. exact IH.
Qed.

Lemma putIndexed_map (f : N -> Tally) (l : list N) (i : N) (v : Tally) :
  StronglySorted N.lt l ->
  JsObject.putIndexed i v (map (fun j => (j, f j)) l)
  = map (fun j => (j, if (j =? i)%N then v else f j)) (insertIndex i l).
Proof.
  induction 1 as [| k r Hr IH Hk].
  - cbn. rewrite N.eqb_refl. reflexivity.
  - rewrite Forall_forall in Hk.
    cbn [map JsObject.putIndexed insertIndex].
    destruct (N.eqb_spec i k) as [-> | Hne].
    + cbn [map]. rewrite N.eqb_refl. f_equal.
      apply map_ext_in. intros a Ha. specialize (Hk a Ha).
      destruct (N.eqb_spec a k); [lia | reflexivity].
    + destruct (N.ltb_spec i k) as [Hlt | Hge].
      * cbn [map]. rewrite N.eqb_refl. f_equal.
        destruct (N.eqb_spec k i); [congruence |]. f_equal.
        apply map_ext_in. intros a Ha. specialize (Hk a Ha).
        destruct (N.eqb_spec a i); [lia | reflexivity].
      * cbn [map]. destruct (N.eqb_spec k i); [congruence |].
        f_equal. exact IH.
Qed.

(** *** String keys *)

Lemma findNamed_map (f : string -> Tally) (l : list string) (w : string) :
  JsObject.findNamed w (map (fun x => (x, f x)) l)
  = if includes l w then Some (f w) else None.
Proof.
  induction l as [| x r IH]; [reflexivity |].
  cbn [map JsObject.findNamed]. unfold includes. cbn [existsb].
  fold (includes r w).
  destruct (String.eqb_spec w x) as [-> | Hne]; [reflexivity |].
  cbn [orb]. exact IH.
Qed.

Lemma putNamed_new (f : string -> Tally) (l : list string) (w : string)
      (v : Tally) :
  ~ In w l ->
  JsObject.putNamed w v (map (fun x => (x, f x)) l)
  = (map (fun x => (x, f x)) l ++ [(w, v)])%list.
Proof.
  induction l as [| x r IH]; intros Hnot; [reflexivity |].
  cbn [map JsObject.putNamed app].
  destruct (String.eqb_spec w x) as [-> | Hne].
  - exfalso. apply Hnot. left. reflexivity.
  - rewrite IH; [reflexivity |]. intros H. apply Hnot. right. exact H.
Qed.

Lemma putNamed_old (f g : string -> Tally) (l : list string) (w : string) :
  NoDup l -> In w l ->
  (forall x, x <> w -> g x = f x) ->
  JsObject.putNamed w (g w) (map (fun x => (x, f x)) l)
  = map (fun x => (x, g x)) l.
Proof.
  intros Hnd Hin Hfg. induction Hnd as [| x r Hx Hr IH]; [contradiction |].
  cbn [map JsObject.putNamed].
  destruct (String.eqb_spec w x) as [-> | Hne].
  - f_equal. apply map_ext_in. intros a Ha. f_equal. symmetry. apply Hfg.
    intros ->. contradiction.
  - rewrite (Hfg x) by congruence. f_equal. apply IH.
    destruct Hin as [E | H]; [congruence | exact H].
Qed.

(** *** Counting *)

Lemma ownKey_spec (w : string) :
  ownKey w = true ->
  includes JsObject.objectPrototypeKeys w = false
  /\ (w =? "__proto__") = false.
Proof.
  unfold ownKey. intros H. apply negb_true_iff in H. split; [exact H |].
  destruct (String.eqb_spec w "__proto__") as [-> | _]; [| reflexivity].
  vm_compute in H. discriminate.
Qed.

Lemma countWord_own (idx : list (N * Tally)) (named : list (string * Tally))
      (w : string) :
  ownKey w = true ->
  countWord (JsObject.make idx named) w
  = match JsObject.arrayIndex w with
    | Some i =>
        JsObject.make
          (JsObject.putIndexed i (bump (JsObject.findIndexed i idx)) idx) named
    | None =>
        JsObject.make
          idx (JsObject.putNamed w (bump (JsObject.findNamed w named)) named)
    end.
Proof.
  intros H. destruct (ownKey_spec w H) as [Hproto Hp].
  unfold countWord, JsObject.set, JsObject.get, JsObject.getOwn.
  rewrite Hp, Hproto. cbn [JsObject.named JsObject.indexed].
  destruct (JsObject.arrayIndex w) as [i |].
  - destruct (JsObject.findIndexed i idx); reflexivity.
  - destruct (JsObject.findNamed w named); reflexivity.
Qed.

Lemma isNamed_spec (w : string) :
  isNamed w = true <-> JsObject.arrayIndex w = None.
Proof.
  unfold isNamed. destruct (JsObject.arrayIndex w); split; congruence.
Qed.

(** After counting tokens none of which names an inherited member, the
    object holds one count per token: the array indices ascending, the
    other tokens in the order of first encounter. *)
Lemma wordFreq_own (ws : list string) :
  forallb ownKey ws = true ->
  fold_left countWord ws JsObject.empty
  = JsObject.make (map (indexTallied ws) (indexKeys ws))
                  (map (tallied ws) (distinct (filter isNamed ws))).
Proof.
  induction ws as [| w r IH] using rev_ind; intros Hown.
  - reflexivity.
  - rewrite forallb_app in Hown. apply andb_true_iff in Hown.
    destruct Hown as [Hr Hw]. cbn in Hw. rewrite andb_true_r in Hw.
    rewrite fold_left_app. cbn [fold_left]. rewrite (IH Hr). clear IH.
    rewrite countWord_own by exact Hw.
    rewrite indexKeys_snoc, filter_app. unfold noteIndex. cbn [filter].
    destruct (JsObject.arrayIndex w) as [i |] eqn:Ei.
    + (* an array index *)
      pose proof (arrayIndex_numeral w i Ei) as Hnum.
      replace (isNamed w) with false by (unfold isNamed; rewrite Ei; reflexivity).
      rewrite app_nil_r. f_equal.
      * unfold indexTallied at 1 2. rewrite findIndexed_map.
        rewrite putIndexed_map by apply indexKeys_sorted.
        apply map_ext_in. intros j Hj. unfold indexTallied. f_equal.
        destruct (N.eqb_spec j i) as [-> | Hne].
        -- rewrite Hnum, frequency_snoc, String.eqb_refl.
           destruct (existsb (N.eqb i) (indexKeys r)) eqn:Ex; cbn [bump increment].
           ++ f_equal. lia.
           ++ rewrite frequency_zero; [reflexivity |].
              intros Hin.
              assert (Hi : In i (indexKeys r))
                by (apply In_indexKeys; exists w; split; assumption).
              assert (Ex' : existsb (N.eqb i) (indexKeys r) = true)
                by (apply existsb_exists; exists i; split;
                    [exact Hi | apply N.eqb_refl]).
              congruence.
        -- apply In_insertIndex in Hj. destruct Hj as [-> | Hj]; [congruence |].
           destruct (indexKeys_numeral r j Hj) as [_ Ej].
           rewrite frequency_snoc_other; [reflexivity |].
           intros E. rewrite E in Ej. congruence.
      * apply map_ext_in. intros x Hx. unfold tallied.
        rewrite frequency_snoc_other; [reflexivity |].
        intros ->. apply In_distinct, filter_In in Hx. destruct Hx as [_ Hx].
        apply isNamed_spec in Hx. congruence.
    + (* a string key *)
      replace (isNamed w) with true by (unfold isNamed; rewrite Ei; reflexivity).
      f_equal.
      * apply map_ext_in. intros j Hj. unfold indexTallied.
        destruct (indexKeys_numeral r j Hj) as [_ Ej].
        rewrite frequency_snoc_other; [reflexivity |].
        intros E. rewrite E in Ej. congruence.
      * unfold tallied at 1 2. rewrite findNamed_map, distinct_snoc.
        destruct (includes (distinct (filter isNamed r)) w) eqn:Ein.
        -- assert (Hin : In w (filter isNamed r))
             by (apply In_distinct, includes_In; exact Ein).
           replace (includes (filter isNamed r) w) with true
             by (symmetry; apply includes_In; exact Hin).
           cbn [bump increment].
           replace (Count (Z.of_nat (frequency r w) + 1))
             with ((fun x => Count (Z.of_nat (frequency (r ++ [w])%list x))) w).
           ++ apply (putNamed_old
                       (fun x => Count (Z.of_nat (frequency r x)))
                       (fun x => Count (Z.of_nat (frequency (r ++ [w])%list x)))).
              ** apply NoDup_distinct.
              ** apply In_distinct. exact Hin.
              ** intros x Hx. rewrite frequency_snoc_other by exact Hx.
                 reflexivity.
           ++ cbn beta. rewrite frequency_snoc, String.eqb_refl. f_equal. lia.
        -- assert (Hnot : ~ In w (filter isNamed r)).
           { intros H. apply In_distinct, includes_In in H. congruence. }
           assert (Hnot' : ~ In w r).
           { intros H. apply Hnot. apply filter_In. split; [exact H |].
             apply isNamed_spec. exact Ei. }
           replace (includes (filter isNamed r) w) with false
             by (symmetry; apply includes_false; exact Hnot).
           rewrite putNamed_new by (rewrite In_distinct; exact Hnot).
           rewrite map_app. cbn [map bump]. f_equal.
           ++ apply map_ext_in. intros x Hx. unfold tallied.
              rewrite frequency_snoc_other; [reflexivity |].
              intros ->. apply (proj1 (In_distinct _ _)) in Hx. contradiction.
           ++ unfold tallied. rewrite frequency_snoc, String.eqb_refl.
              rewrite (frequency_zero r w Hnot'). reflexivity.
Qed.

Lemma entries_wordFreq (ws : list string) :
  forallb ownKey ws = true ->
  JsObject.entries (fold_left countWord ws JsObject.empty)
  = map (tallied ws) (keyOrder ws).
Proof.
  intros Hown. rewrite (wordFreq_own ws Hown).
  unfold JsObject.entries, keyOrder. cbn [JsObject.indexed JsObject.named].
  rewrite map_app, !map_map. reflexivity.
Qed.

Lemma keyOrder_In (ws : list string) (x : string) :
  In x (keyOrder ws) -> In x ws.
Proof.
  unfold keyOrder. intros H. apply in_app_or in H. destruct H as [H | H].
  - apply in_map_iff in H. destruct H as [i [<- Hi]].
    apply (indexKeys_numeral ws i Hi).
  - apply In_distinct, filter_In in H. apply H.
Qed.

Lemma filter_all {A : Type} (p : A -> bool) (l : list A) :
  forallb p l = true -> filter p l = l.
Proof.
  induction l as [| x r IH]; [reflexivity |].
  cbn [forallb filter]. intros H. apply andb_true_iff in H.
  destruct H as [Hx Hr]. rewrite Hx, (IH Hr). reflexivity.
Qed.

(** Without array indices among the tokens the key order is the order of
    first encounter. *)
Lemma keyOrder_named (ws : list string) :
  forallb isNamed ws = true -> keyOrder ws = distinct ws.
Proof.
  intros Hnamed. unfold keyOrder.
  assert (Hkeys : indexKeys ws = []).
  { destruct (indexKeys ws) as [| i l] eqn:E; [reflexivity |].
    assert (Hi : In i (indexKeys ws)) by (rewrite E; left; reflexivity).
    apply In_indexKeys in Hi. destruct Hi as [w [Hw Ew]].
    rewrite forallb_forall in Hnamed. specialize (Hnamed w Hw).
    apply isNamed_spec in Hnamed. congruence. }
  rewrite Hkeys, (filter_all _ _ Hnamed). reflexivity.
Qed.

(** ** Ranking *)

Lemma meaningfulWords_retained (content : string) :
  meaningfulWords content = retained content.
Proof.
  unfold meaningfulWords, retained. apply filter_ext. intros w.
  unfold meaningful. rewrite Nat.ltb_antisym. apply andb_comm.
Qed.

Lemma filter_map_tallied (ws l : list string) (n : nat) :
  filter (fun p => (frequency ws (fst p) =? n)%nat) (map (tallied ws) l)
  = map (tallied ws) (filter (fun w => (frequency ws w =? n)%nat) l).
Proof.
  induction l as [| x r IH]; [reflexivity |].
  cbn [map filter fst tallied]. rewrite IH.
  destruct (frequency ws x =? n)%nat; reflexivity.
Qed.

Lemma fromHighest_map {A B : Type} (f : A -> B) (m : nat) (level : nat -> list A) :
  fromHighest m (fun n => map f (level n)) = map f (fromHighest m level).
Proof.
  induction m as [| m IH]; [reflexivity |].
  cbn [fromHighest]. rewrite map_app, IH. reflexivity.
Qed.

(** On entries that hold counts the comparator of the source subtracts
    counts, and so does it on every list the sort builds from them. *)
Lemma sort_counts (ws l : list string) :
  sort byFrequency (map (tallied ws) l)
  = sort (fun x y : string * Tally =>
            (Z.of_nat (frequency ws (fst y)) - Z.of_nat (frequency ws (fst x)))%Z)
         (map (tallied ws) l).
Proof.
  set (cmp := fun x y : string * Tally =>
                (Z.of_nat (frequency ws (fst y))
                 - Z.of_nat (frequency ws (fst x)))%Z).
  set (counted := fun p : string * Tally => exists w, p = tallied ws w).
  assert (Hinsert : forall x t, counted x -> Forall counted t ->
                      insert byFrequency x t = insert cmp x t
                      /\ Forall counted (insert cmp x t)).
  { intros x t Hx Ht. induction Ht as [| y t Hy Ht IH].
    - split; [reflexivity | repeat constructor; exact Hx].
    - destruct IH as [E1 E2]. cbn [insert].
      replace (byFrequency x y) with (cmp x y)
        by (destruct Hx as [a ->], Hy as [b ->]; reflexivity).
      destruct (0 <? cmp x y)%Z.
      + rewrite E1. split; [reflexivity |]. constructor; assumption.
      + split; [reflexivity |]. repeat constructor; assumption. }
  assert (Hsort : forall t, Forall counted t ->
                    sort byFrequency t = sort cmp t
                    /\ Forall counted (sort cmp t)).
  { induction 1 as [| x t Hx Ht IH].
    - split; [reflexivity | constructor].
    - destruct IH as [E1 E2]. cbn [sort fold_right].
      fold (sort byFrequency t). fold (sort cmp t). rewrite E1.
      apply Hinsert; assumption. }
  apply Hsort. apply Forall_forall. intros p Hp.
  apply in_map_iff in Hp. destruct Hp as [w [<- _]]. exists w. reflexivity.
Qed.

(** The sorted entries list the tokens by descending count, equal counts
    in the order of the entries. *)
Lemma sort_tallied (ws l : list string) :
  (forall x, In x l -> In x ws) ->
  sort byFrequency (map (tallied ws) l)
  = map (tallied ws)
        (fromHighest (List.length ws)
           (fun n => filter (fun w => (frequency ws w =? n)%nat) l)).
Proof.
  intros Hl. rewrite sort_counts.
  rewrite (sort_fromHighest _ (fun p => frequency ws (fst p)) _
             (fun x y => eq_refl) _ (List.length ws)).
  - rewrite <- fromHighest_map. apply fromHighest_ext.
    intros n _. apply filter_map_tallied.
  - apply Forall_forall. intros p Hp. apply in_map_iff in Hp.
    destruct Hp as [w [<- Hw]]. cbn [tallied fst].
    apply frequency_bounds, Hl, Hw.
Qed.

Lemma keyTopics_keyOrder (content : string) :
  forallb ownKey (retained content) = true ->
  keyTopics content
  = map capitalize (firstn 5 (rankInKeyOrder (retained content))).
Proof.
  intros Hown. unfold keyTopics, wordFreq.
  rewrite meaningfulWords_retained, (entries_wordFreq _ Hown).
  rewrite (sort_tallied _ _ (keyOrder_In (retained content))).
  unfold slice. cbn [skipn Nat.sub].
  rewrite firstn_map, map_map. reflexivity.
Qed.

(** C5, as amended.  When no retained token names a member inherited from
    [Object.prototype], the key topics are the retained tokens (lower-cased
    whitespace tokens that are no stop words and longer than 4) by
    descending count, equal counts in the key order of the frequency
    object, the first five, capitalized.  The key order lists the tokens
    that are array-index numerals first, ascending, and then the other
    tokens in the order of first encounter; when no retained token is such
    a numeral, the key topics are those of the specification. *)
Theorem keyTopics_ranking (content : string) :
  forallb ownKey (retained content) = true ->
  keyTopics content
  = map capitalize (firstn 5 (rankInKeyOrder (retained content)))
  /\ (forallb isNamed (retained content) = true ->
      keyTopics content = spec_keyTopics content).
Proof.
  intros Hown. split.
  - apply keyTopics_keyOrder. exact Hown.
  - intros Hnamed. rewrite (keyTopics_keyOrder content Hown).
    unfold spec_keyTopics, rankInKeyOrder, rankByFrequency.
    rewrite (keyOrder_named _ Hnamed). reflexivity.
Qed.

Lemma keyTopics_ranking_witness :
  keyTopics "Alpha gamma 20000 GAMMA delta 10000 would these alpha gamma"
  = ["Gamma"; "Alpha"; "10000"; "20000"; "Delta"]
  /\ keyTopics "Alpha gamma GAMMA delta would these alpha gamma"
     = spec_keyTopics "Alpha gamma GAMMA delta would these alpha gamma".
Proof.
  split.
  - rewrite (proj1 (keyTopics_ranking
                      "Alpha gamma 20000 GAMMA delta 10000 would these alpha gamma"
                      eq_refl)).
    vm_compute. reflexivity.
  - apply (proj2 (keyTopics_ranking
                    "Alpha gamma GAMMA delta would these alpha gamma"
                    eq_refl)).
    vm_compute. reflexivity.
Defined.

(** C5 as stated fails: "report" is met before "10000", both occur once,
    and the numeral comes first. *)
Lemma keyTopics_numeral_counterexample :
  retained "report 10000" = ["report"; "10000"]
  /\ frequency (retained "report 10000") "report"
     = frequency (retained "report 10000") "10000"
  /\ keyTopics "report 10000" = ["10000"; "Report"]
  /\ keyTopics "report 10000" <> spec_keyTopics "report 10000".
Proof.
  repeat split; try (vm_compute; reflexivity).
  vm_compute. discriminate.
Qed.

(* ================================================================== *)
(** * The synthesizer on the scenario of the specification *)
(* ================================================================== *)

(** The token "ai" is a Technology keyword; "healthcare." and "medicine."
    are no Health keywords. *)
Example medTech_category :
  EpisodeDetails.category
    (ShowNotes.episodeDetails
       (GeneratedScript.showNotes (generateFallbackScript medTech)))
  = "Technology".
Proof. reflexivity. Qed.

Example medTech_format :
  EpisodeDetails.format
    (ShowNotes.episodeDetails
       (GeneratedScript.showNotes (generateFallbackScript medTech)))
  = "Solo Commentary".
Proof. reflexivity. Qed.

Example medTech_timestamps :
  timesOf (generateFallbackScript medTech)
  = ["0:00"; "1:30"; "3:00"; "7:00"; "12:00"; "13:00"].
Proof. reflexivity. Qed.

Example medTech_keyTopics :
  ShowNotes.keyTopics (GeneratedScript.showNotes (generateFallbackScript medTech))
  = ["Artificial"; "Intelligence"; "Transforming"; "Healthcare."; "Doctors"].
Proof. vm_compute. reflexivity. Qed.

(* ================================================================== *)
(** * Further properties of the synthesizer *)
(* ================================================================== *)

(** ** Pieces of a split, trimmed strings *)

Lemma allChars_app (p : ascii -> bool) (a b : string) :
  allChars p (a ++ b) = allChars p a && allChars p b.
Proof.
  induction a as [| c r IH]; [reflexivity |].
  cbn [append allChars]. rewrite IH, andb_assoc. reflexivity.
Qed.

Lemma allChars_impl (p q : ascii -> bool) (s : string) :
  (forall c, p c = true -> q c = true) ->
  allChars p s = true -> allChars q s = true.
Proof.
  intros Hpq. induction s as [| c r IH]; [reflexivity |].
  cbn [allChars]. intros H. apply andb_true_iff in H. destruct H as [Hc Hr].
  rewrite (Hpq c Hc), (IH Hr). reflexivity.
Qed.

(** The pieces of a split are made of the characters of the string that
    are no separators. *)
Lemma split_from_pieces (q sep : ascii -> bool) (s cur : string)
      (insep : bool) :
  allChars (fun c => sep c || q c) s = true ->
  allChars q cur = true ->
  Forall (fun piece => allChars q piece = true) (split_from sep s cur insep).
Proof.
  revert cur insep. induction s as [| c r IH]; intros cur insep Hs Hcur.
  - repeat constructor. exact Hcur.
  - cbn [allChars] in Hs. apply andb_true_iff in Hs. destruct Hs as [Hc Hr].
    cbn [split_from]. destruct (sep c) eqn:Ec.
    + destruct insep.
      * apply IH; [exact Hr | reflexivity].
      * constructor; [exact Hcur |]. apply IH; [exact Hr | reflexivity].
    + cbn [orb] in Hc. apply IH; [exact Hr |].
      rewrite allChars_app, Hcur. cbn. rewrite Hc. reflexivity.
Qed.

Lemma split_no_separator (sep : ascii -> bool) (s piece : string) :
  In piece (split sep s) -> allChars (fun c => negb (sep c)) piece = true.
Proof.
  intros H.
  assert (Hall : Forall (fun piece => allChars (fun c => negb (sep c)) piece = true)
                        (split sep s)).
  { clear H. apply split_from_pieces; [| reflexivity].
    induction s as [| c r IH]; [reflexivity |].
    cbn [allChars]. rewrite IH. destruct (sep c); reflexivity. }
  rewrite Forall_forall in Hall. apply Hall. exact H.
Qed.

Lemma split_keeps (q sep : ascii -> bool) (s piece : string) :
  allChars q s = true -> In piece (split sep s) -> allChars q piece = true.
Proof.
  intros Hs H.
  assert (Hall : Forall (fun piece => allChars q piece = true) (split sep s)).
  { apply split_from_pieces; [| reflexivity].
    apply (allChars_impl q); [| exact Hs].
    intros c Hc. rewrite Hc. apply orb_true_r. }
  rewrite Forall_forall in Hall. apply Hall. exact H.
Qed.

Lemma trimStart_allChars (p : ascii -> bool) (s : string) :
  allChars p s = true -> allChars p (trimStart s) = true.
Proof.
  induction s as [| c r IH]; [reflexivity |].
  cbn [trimStart]. destruct (isSpace c); [| tauto].
  cbn [allChars]. intros H. apply andb_true_iff in H. apply IH, H.
Qed.

Lemma trimEnd_allChars (p : ascii -> bool) (s : string) :
  allChars p s = true -> allChars p (trimEnd s) = true.
Proof.
  induction s as [| c r IH]; [reflexivity |].
  cbn [trimEnd allChars]. intros H. apply andb_true_iff in H.
  destruct H as [Hc Hr].
  destruct (isSpace c && (trimEnd r =? "")); [reflexivity |].
  cbn [allChars]. rewrite Hc, (IH Hr). reflexivity.
Qed.

Lemma trim_allChars (p : ascii -> bool) (s : string) :
  allChars p s = true -> allChars p (trim s) = true.
Proof.
  intros H. unfold trim. apply trimEnd_allChars, trimStart_allChars, H.
Qed.

(** ** The hook sentence and the content chunks *)

Lemma sentences_In (content s : string) :
  In s (sentences content) ->
  In s (split isTerminal content) /\ 10 < String.length (trim s).
Proof.
  unfold sentences. intros H. apply filter_In in H. destruct H as [H1 H2].
  split; [exact H1 | apply Nat.ltb_lt; exact H2].
Qed.

Lemma firstSentence_unfold (content : string) :
  firstSentence content
  = match sentences content with
    | [] => "Welcome to today's discussion."
    | s :: _ => trim s
    end.
Proof.
  unfold firstSentence, at_.
  destruct (sentences content) as [| s rest] eqn:E; [reflexivity |].
  cbn [nth_error option_map orElse].
  assert (Hs : In s (sentences content)) by (rewrite E; left; reflexivity).
  apply sentences_In in Hs. destruct Hs as [_ Hlen].
  destruct (String.eqb_spec (trim s) "") as [E0 | _]; [| reflexivity].
  rewrite E0 in Hlen. cbn in Hlen. lia.
Qed.

Lemma append_associative (a b c : string) : (a ++ b) ++ c = a ++ (b ++ c).
Proof.
  induction a as [| x a IH]; [reflexivity |].
  cbn [append]. rewrite IH. reflexivity.
Qed.

Lemma length_append_sum (a b : string) :
  String.length (a ++ b) = String.length a + String.length b.
Proof.
  induction a as [| x a IH]; [reflexivity |].
  cbn [append String.length]. rewrite IH. reflexivity.
Qed.

(** ** Stretches of a text *)

Lemma append_empty_r (a : string) : a ++ "" = a.
Proof.
  induction a as [| x a IH]; [reflexivity |].
  cbn [append]. rewrite IH. reflexivity.
Qed.

Lemma spans_nonempty (sep : ascii -> bool) (s : string) : spans sep s <> [].
Proof.
  destruct s as [| c r]; cbn [spans]; [discriminate |].
  destruct (sep c); [discriminate |].
  destruct (spans sep r); discriminate.
Qed.

Lemma spans_free (sep : ascii -> bool) (seg : string) :
  allChars (fun c => negb (sep c)) seg = true -> spans sep seg = [seg].
Proof.
  induction seg as [| c r IH]; [reflexivity |].
  cbn [allChars spans]. intros H. apply andb_true_iff in H.
  destruct H as [Hc Hr]. apply negb_true_iff in Hc.
  rewrite Hc, (IH Hr). reflexivity.
Qed.

Lemma consHead_app (c : ascii) (l1 l2 : list string) :
  l1 <> [] -> consHead c (l1 ++ l2) = (consHead c l1 ++ l2)%list.
Proof. destruct l1; [contradiction | reflexivity]. Qed.

(** Splitting at a character of the class splits the list of pieces. *)
Lemma spans_at_separator (sep : ascii -> bool) (a b : string) (c : ascii) :
  sep c = true ->
  spans sep (a ++ String c b) = (spans sep a ++ spans sep b)%list.
Proof.
  intros Hc. induction a as [| d a IH]; cbn [append spans].
  - rewrite Hc. reflexivity.
  - rewrite IH. destruct (sep d); [reflexivity |].
    apply consHead_app, spans_nonempty.
Qed.

Lemma spans_free_then (sep : ascii -> bool) (seg post : string) :
  allChars (fun c => negb (sep c)) seg = true ->
  post = "" \/ (exists c q, post = String c q /\ sep c = true) ->
  exists l2, spans sep (seg ++ post) = seg :: l2.
Proof.
  intros Hseg [-> | [c [q [-> Hc]]]].
  - rewrite append_empty_r, (spans_free sep seg Hseg). exists []. reflexivity.
  - rewrite (spans_at_separator sep seg q c Hc), (spans_free sep seg Hseg).
    exists (spans sep q). reflexivity.
Qed.

(** A maximal stretch is one of the pieces, and the pieces before it are
    those of the text before it. *)
Lemma spans_stretch (sep : ascii -> bool) (s pre seg post : string) :
  stretch sep s pre seg post ->
  exists l1 l2,
    spans sep s = (l1 ++ seg :: l2)%list
    /\ ((pre = "" /\ l1 = []) \/ spans sep pre = (l1 ++ [""])%list).
Proof.
  intros [-> [Hseg [Hpre Hpost]]].
  destruct (spans_free_then sep seg post Hseg Hpost) as [l2 E].
  destruct Hpre as [-> | [p [c [-> Hc]]]].
  - exists [], l2. split; [exact E |]. left. split; reflexivity.
  - exists (spans sep p), l2. split.
    + rewrite append_associative. cbn [append].
      rewrite (spans_at_separator sep p _ c Hc), E. reflexivity.
    + right. apply (spans_at_separator sep p "" c Hc).
Qed.

Lemma spans_structure (sep : ascii -> bool) (s : string) :
  allChars (fun c => negb (sep c)) s = true
  \/ exists seg c q,
      s = seg ++ String c q
      /\ allChars (fun c => negb (sep c)) seg = true
      /\ sep c = true.
Proof.
  induction s as [| c r IH]; [left; reflexivity |].
  destruct (sep c) eqn:Ec.
  - right. exists "", c, r. repeat split. exact Ec.
  - destruct IH as [Hr | [seg [d [q [-> [Hseg Hd]]]]]].
    + left. cbn [allChars]. rewrite Ec, Hr. reflexivity.
    + right. exists (String c seg), d, q. repeat split; [| exact Hd].
      cbn [allChars]. rewrite Ec, Hseg. reflexivity.
Qed.

(** Conversely every piece is a maximal stretch, at the place that its
    position in the list gives. *)
Lemma spans_position (sep : ascii -> bool) (l1 : list string) :
  forall (s x : string) (l2 : list string),
    spans sep s = (l1 ++ x :: l2)%list ->
    exists pre post,
      stretch sep s pre x post
      /\ ((pre = "" /\ l1 = []) \/ spans sep pre = (l1 ++ [""])%list).
Proof.
  induction l1 as [| y l1 IH]; intros s x l2 H;
    destruct (spans_structure sep s) as [Hfree | [seg [c [q [-> [Hseg Hc]]]]]].
  - rewrite (spans_free sep s Hfree) in H. injection H as <- _.
    exists "", "". split; [| left; split; reflexivity].
    repeat split; [| exact Hfree | left; reflexivity | left; reflexivity].
    cbn [append]. rewrite append_empty_r. reflexivity.
  - rewrite (spans_at_separator sep seg q c Hc), (spans_free sep seg Hseg) in H.
    injection H as <- _.
    exists "", (String c q). split; [| left; split; reflexivity].
    repeat split; [exact Hseg | left; reflexivity |].
    right. exists c, q. split; [reflexivity | exact Hc].
  - rewrite (spans_free sep s Hfree) in H. injection H as _ H.
    destruct l1; discriminate.
  - rewrite (spans_at_separator sep seg q c Hc), (spans_free sep seg Hseg) in H.
    injection H as <- H.
    destruct (IH q x l2 H) as [pre [post [[-> [Hx [Hpre Hpost]]] Hl1]]].
    exists (seg ++ String c pre), post. split.
    + repeat split; [| exact Hx | | exact Hpost].
      * rewrite !append_associative. reflexivity.
      * right. destruct Hpre as [-> | [p [d [-> Hd]]]].
        -- exists seg, c. split; [reflexivity | exact Hc].
        -- exists (seg ++ String c p), d. split; [| exact Hd].
           rewrite append_associative. reflexivity.
    + right.
      rewrite (spans_at_separator sep seg pre c Hc), (spans_free sep seg Hseg).
      destruct Hl1 as [[-> ->] | ->]; reflexivity.
Qed.

(** [split] joins the characters of a run; apart from empty pieces it
    gives the same pieces. *)
Lemma split_from_spans (keep : string -> bool) (sep : ascii -> bool) :
  keep "" = false ->
  forall (s cur : string) (insep : bool),
    (insep = true -> cur = "") ->
    filter keep (split_from sep s cur insep)
    = filter keep (prefixHead cur (spans sep s)).
Proof.
  intros Hkeep. induction s as [| c r IH]; intros cur insep Hin.
  - cbn [split_from spans prefixHead]. rewrite append_empty_r. reflexivity.
  - cbn [split_from spans]. destruct (sep c) eqn:Ec.
    + cbn [prefixHead]. rewrite append_empty_r.
      assert (Hrest : filter keep (split_from sep r "" true)
                      = filter keep (spans sep r)).
      { rewrite (IH "" true (fun _ => eq_refl)).
        destruct (spans sep r) as [| piece rest] eqn:E;
          [exfalso; exact (spans_nonempty sep r E) | reflexivity]. }
      destruct insep.
      * rewrite (Hin eq_refl). cbn [filter]. rewrite Hkeep. exact Hrest.
      * cbn [filter]. rewrite Hrest. reflexivity.
    + rewrite (IH (cur ++ String c "") false ltac:(discriminate)).
      destruct (spans sep r) as [| piece rest]; cbn [consHead prefixHead];
        rewrite ?append_associative; reflexivity.
Qed.

Lemma sentences_spans (content : string) :
  sentences content = filter longEnough (spans isTerminal content).
Proof.
  unfold sentences, split.
  change (fun s : string => (10 <? String.length (trim s))%nat) with longEnough.
  rewrite (split_from_spans longEnough isTerminal eq_refl content "" false
             ltac:(discriminate)).
  destruct (spans isTerminal content) as [| piece rest] eqn:E;
    [exfalso; exact (spans_nonempty _ _ E) | reflexivity].
Qed.

Lemma filter_first {A : Type} (keep : A -> bool) (l : list A) (x : A)
      (rest : list A) :
  filter keep l = x :: rest ->
  exists l1 l2,
    l = (l1 ++ x :: l2)%list
    /\ keep x = true
    /\ forall y, In y l1 -> keep y = false.
Proof.
  induction l as [| a l IH]; cbn [filter]; [discriminate |].
  destruct (keep a) eqn:Ea.
  - intros H. injection H as -> _. exists [], l.
    repeat split; [exact Ea | intros y []].
  - intros H. destruct (IH H) as [l1 [l2 [-> [Hx Hl1]]]].
    exists (a :: l1), l2. repeat split; [exact Hx |].
    intros y [<- | Hy]; [exact Ea | exact (Hl1 y Hy)].
Qed.

Lemma filter_none_kept {A : Type} (keep : A -> bool) (l : list A) (y : A) :
  filter keep l = [] -> In y l -> keep y = false.
Proof.
  induction l as [| a l IH]; cbn [filter In]; [intros _ [] |].
  destruct (keep a) eqn:Ea; [discriminate |].
  intros H [<- | Hy]; [exact Ea | exact (IH H Hy)].
Qed.

(** X1.  The hook sentence of the intro is the first sentence of the
    content, trimmed: the first maximal stretch of the content without the
    marks [.], [!] and [?] that has more than 10 characters after trimming;
    no stretch before it has that many.  It holds none of the marks, so
    the intro never shows the mark that ended the sentence.  When the
    content has no such stretch the hook is the placeholder. *)
Theorem firstSentence_shape (content : string) :
  (firstSentence content = "Welcome to today's discussion."
   /\ forall pre seg post,
        stretch isTerminal content pre seg post ->
        String.length (trim seg) <= 10)
  \/ (exists pre seg post,
         stretch isTerminal content pre seg post
         /\ 10 < String.length (trim seg)
         /\ firstSentence content = trim seg
         /\ allChars notTerminal (firstSentence content) = true
         /\ forall before earlier after,
              stretch isTerminal pre before earlier after ->
              String.length (trim earlier) <= 10).
Proof.
  rewrite firstSentence_unfold, sentences_spans.
  destruct (filter longEnough (spans isTerminal content)) as [| x rest] eqn:E.
  - left. split; [reflexivity |].
    intros pre seg post H.
    destruct (spans_stretch _ _ _ _ _ H) as [l1 [l2 [Hs _]]].
    assert (Hin : In seg (spans isTerminal content))
      by (rewrite Hs; apply in_or_app; right; left; reflexivity).
    pose proof (filter_none_kept _ _ _ E Hin) as Hshort.
    unfold longEnough in Hshort. apply Nat.ltb_ge in Hshort. exact Hshort.
  - right. destruct (filter_first _ _ _ _ E) as [l1 [l2 [Hs [Hx Hl1]]]].
    destruct (spans_position _ _ _ _ _ Hs) as [pre [post [Hstretch Hpre]]].
    exists pre, x, post. split; [exact Hstretch |].
    unfold longEnough in Hx. apply Nat.ltb_lt in Hx.
    split; [exact Hx |]. split; [reflexivity |]. split.
    + apply trim_allChars. destruct Hstretch as [_ [Hfree _]]. exact Hfree.
    + intros before earlier after H.
      destruct (spans_stretch _ _ _ _ _ H) as [k1 [k2 [Hk _]]].
      assert (Hin : In earlier (spans isTerminal pre))
        by (rewrite Hk; apply in_or_app; right; left; reflexivity).
      destruct Hpre as [[-> _] | Hpre].
      * cbn in Hin. destruct Hin as [<- | []]. cbn. lia.
      * rewrite Hpre in Hin. apply in_app_or in Hin.
        destruct Hin as [Hin | [<- | []]]; [| cbn; lia].
        pose proof (Hl1 _ Hin) as Hshort. unfold longEnough in Hshort.
        apply Nat.ltb_ge in Hshort. exact Hshort.
Qed.

(** X2.  The main content draws on the second to the eighth sentence: the
    chunks are the sentences after the first, seven at most. *)
Theorem contentChunks_are_next_seven (content : string) :
  contentChunks content = firstn 7 (tl (sentences content))
  /\ List.length (contentChunks content) <= 7.
Proof.
  assert (H : contentChunks content = firstn 7 (tl (sentences content))).
  { unfold contentChunks, slice. cbv zeta.
    destruct (sentences content) as [| s rest]; [reflexivity |].
    cbn [skipn tl List.length].
    destruct (Nat.le_gt_cases 8 (S (List.length rest))) as [Hge | Hlt].
    - rewrite Nat.min_r by exact Hge. reflexivity.
    - rewrite Nat.min_l by lia.
      rewrite (firstn_all2 (n := 7)) by lia.
      apply firstn_all2. lia. }
  split; [exact H |]. rewrite H. apply firstn_le_length.
Qed.

(** X3.  With four sentences or fewer the list of key implications is
    empty: the heading is followed by no point, not by a placeholder. *)
Theorem implications_empty (content : string) :
  List.length (sentences content) <= 4 ->
  implications (contentChunks content) = "".
Proof.
  intros Hlen. unfold implications, slice.
  assert (Hchunks : List.length (contentChunks content) <= 3).
  { unfold contentChunks, slice. cbv zeta.
    rewrite length_firstn, length_skipn. lia. }
  rewrite (skipn_all2 (n := 3)) by exact Hchunks. reflexivity.
Qed.

Lemma implications_empty_witness :
  implications (contentChunks (PodcastScriptOptions.content medTech)) = "".
Proof.
  apply implications_empty. vm_compute. lia.
Defined.

(** ** Category *)

(** X4.  The category is one of six names, and a Science keyword decides
    whatever else the content holds; the keyword "study", which the
    Education list holds too, therefore always gives Science. *)
Theorem category_range (content : string) :
  In (category content) categoryNames
  /\ (mentions (words content) Science = true -> category content = "Science")
  /\ (In "study" (words content) -> category content = "Science").
Proof.
  assert (Hscience : mentions (words content) Science = true ->
                     category content = "Science").
  { intros H. rewrite category_unfold, H. reflexivity. }
  split; [| split; [exact Hscience |]].
  - rewrite category_unfold. unfold categoryNames.
    destruct (mentions (words content) Science);
      [cbn; tauto |].
    destruct (mentions (words content) Education); [cbn; tauto |].
    destruct (mentions (words content) Health); [cbn; tauto |].
    destruct (mentions (words content) Business); [cbn; tauto |].
    destruct (mentions (words content) Technology); cbn; tauto.
  - intros Hstudy. apply Hscience. unfold mentions, some.
    apply existsb_exists. exists "study". split; [exact Hstudy | reflexivity].
Qed.

Lemma category_range_witness :
  category "We study at school" = "Science".
Proof.
  apply (proj2 (proj2 (category_range "We study at school"))).
  vm_compute. tauto.
Defined.

(** ** Where the key topics come from *)

Lemma putNamed_keys {V : Type} (k : string) (v : V) (l : list (string * V)) :
  map fst (JsObject.putNamed k v l)
  = if includes (map fst l) k then map fst l else (map fst l ++ [k])%list.
Proof.
  induction l as [| [k' v'] r IH]; [reflexivity |].
  cbn [JsObject.putNamed map fst]. unfold includes. cbn [existsb].
  fold (includes (map fst r) k).
  destruct (String.eqb_spec k k') as [-> | Hne]; [reflexivity |].
  cbn [map fst orb]. rewrite IH.
  destruct (includes (map fst r) k); reflexivity.
Qed.

Lemma putIndexed_keys {V : Type} (i : N) (v : V) (l : list (N * V)) :
  map fst (JsObject.putIndexed i v l) = insertIndex i (map fst l).
Proof.
  induction l as [| [j w] r IH]; [reflexivity |].
  cbn [JsObject.putIndexed map fst insertIndex].
  destruct (N.eqb_spec i j) as [-> | _]; [reflexivity |].
  destruct (i <? j)%N; [reflexivity |].
  cbn [map fst]. rewrite IH. reflexivity.
Qed.

Lemma keysOf_unfold {V : Type} (o : JsObject.t V) :
  keysOf o
  = (map JsObject.numeral (map fst (JsObject.indexed o))
     ++ map fst (JsObject.named o))%list.
Proof.
  unfold keysOf, JsObject.entries. rewrite map_app, !map_map.
  f_equal. apply map_ext. intros [i v]. reflexivity.
Qed.

(** Assignment adds at most the assigned key. *)
Lemma set_keys {V : Type} (o : JsObject.t V) (k : string) (v : V) (x : string) :
  In x (keysOf (JsObject.set o k v)) -> x = k \/ In x (keysOf o).
Proof.
  unfold JsObject.set. destruct (k =? "__proto__"); [auto |].
  destruct (JsObject.arrayIndex k) as [i |] eqn:Ei;
    rewrite !keysOf_unfold; cbn [JsObject.indexed JsObject.named];
    intros H; apply in_app_or in H.
  - destruct H as [H | H]; [| right; apply in_or_app; right; exact H].
    apply in_map_iff in H. destruct H as [j [<- Hj]].
    rewrite putIndexed_keys in Hj. apply In_insertIndex in Hj.
    destruct Hj as [-> | Hj].
    + left. apply arrayIndex_numeral. exact Ei.
    + right. apply in_or_app. left. apply in_map. exact Hj.
  - destruct H as [H | H]; [right; apply in_or_app; left; exact H |].
    rewrite putNamed_keys in H.
    destruct (includes (map fst (JsObject.named o)) k).
    + right. apply in_or_app. right. exact H.
    + apply in_app_or in H. destruct H as [H | [<- | []]]; [| left; reflexivity].
      right. apply in_or_app. right. exact H.
Qed.

Lemma wordFreq_keys (ws : list string) (acc : JsObject.t Tally) (x : string) :
  In x (keysOf (fold_left countWord ws acc)) -> In x ws \/ In x (keysOf acc).
Proof.
  revert acc. induction ws as [| w r IH]; intros acc H; [right; exact H |].
  cbn [fold_left] in H. apply IH in H. destruct H as [H | H].
  - left. right. exact H.
  - apply set_keys in H. destruct H as [-> | H]; [left; left; reflexivity |].
    right. exact H.
Qed.

Lemma insert_In {A : Type} (cmp : A -> A -> Z) (x y : A) (l : list A) :
  In y (insert cmp x l) <-> y = x \/ In y l.
Proof.
  induction l as [| z r IH]; cbn [insert].
  - cbn. intuition congruence.
  - destruct (0 <? cmp x z)%Z.
    + cbn [In]. rewrite IH. intuition congruence.
    + cbn [In]. intuition congruence.
Qed.

Lemma sort_In {A : Type} (cmp : A -> A -> Z) (y : A) (l : list A) :
  In y (sort cmp l) <-> In y l.
Proof.
  induction l as [| x r IH]; [reflexivity |].
  cbn [sort fold_right]. fold (sort cmp r).
  rewrite insert_In, IH. cbn [In]. intuition congruence.
Qed.

Lemma firstn_incl {A : Type} (n : nat) (l : list A) (x : A) :
  In x (firstn n l) -> In x l.
Proof.
  revert l. induction n as [| n IH]; intros l H; [destruct H |].
  destruct l as [| y r]; [destruct H |].
  cbn [firstn In] in *. destruct H as [H | H]; [left; exact H |].
  right. apply IH. exact H.
Qed.

Lemma slice_In {A : Type} (l : list A) (from to : nat) (x : A) :
  In x (slice l from to) -> In x l.
Proof.
  unfold slice. intros H. apply firstn_incl in H.
  rewrite <- (firstn_skipn from l). apply in_or_app. right. exact H.
Qed.

Lemma capitalize_length (w : string) :
  String.length (capitalize w) = String.length w.
Proof. destruct w; reflexivity. Qed.

(** X5.  Every extracted key topic is a token of the lower-cased content
    with its first letter capitalized; the token has more than 4
    characters and is no stop word.  Key topics are never made up. *)
Theorem keyTopics_from_content (content topic : string) :
  In topic (keyTopics content) ->
  exists w,
    In w (words content)
    /\ 4 < String.length w
    /\ includes stopWords w = false
    /\ topic = capitalize w
    /\ 4 < String.length topic.
Proof.
  unfold keyTopics. intros H. apply in_map_iff in H.
  destruct H as [[w v] [<- H]]. apply slice_In, sort_In in H.
  assert (Hkey : In w (keysOf (wordFreq content)))
    by (unfold keysOf; apply in_map_iff; exists (w, v); split;
        [reflexivity | exact H]).
  apply wordFreq_keys in Hkey. destruct Hkey as [Hw | []].
  unfold meaningfulWords in Hw. apply filter_In in Hw.
  destruct Hw as [Hw Hm]. unfold meaningful in Hm.
  apply andb_true_iff in Hm. destruct Hm as [Hlen Hstop].
  apply Nat.ltb_lt in Hlen. apply negb_true_iff in Hstop.
  exists w. rewrite capitalize_length. repeat split; assumption.
Qed.

Lemma keyTopics_from_content_witness :
  exists w,
    In w (words "The Market is open")
    /\ 4 < String.length w
    /\ includes stopWords w = false
    /\ "Market" = capitalize w
    /\ 4 < String.length "Market".
Proof.
  apply (keyTopics_from_content "The Market is open" "Market").
  vm_compute. left. reflexivity.
Defined.

(** ** No topic twice *)

Lemma wellKeyed_empty : wellKeyed (@JsObject.empty Tally).
Proof.
  unfold wellKeyed. cbn. repeat split; try constructor; intros ? [].
Qed.

Lemma set_wellKeyed {V : Type} (o : JsObject.t V) (k : string) (v : V) :
  wellKeyed o -> wellKeyed (JsObject.set o k v).
Proof.
  intros (Hsorted & Hnodup & Hidx & Hnamed). unfold JsObject.set.
  destruct (k =? "__proto__"); [repeat split; assumption |].
  destruct (JsObject.arrayIndex k) as [i |] eqn:Ei; unfold wellKeyed;
    cbn [JsObject.indexed JsObject.named].
  - rewrite putIndexed_keys. repeat split; try assumption.
    + apply insertIndex_sorted. exact Hsorted.
    + intros j Hj. apply In_insertIndex in Hj. destruct Hj as [-> | Hj].
      * rewrite (arrayIndex_numeral k i Ei). exact Ei.
      * apply Hidx. exact Hj.
  - rewrite putNamed_keys. repeat split; try assumption.
    + destruct (includes (map fst (JsObject.named o)) k) eqn:E; [exact Hnodup |].
      apply NoDup_app; [exact Hnodup | repeat constructor; intros [] |].
      intros a Ha [<- | []]. apply includes_false in E. contradiction.
    + intros x Hx.
      destruct (includes (map fst (JsObject.named o)) k); [apply Hnamed, Hx |].
      apply in_app_or in Hx. destruct Hx as [Hx | [<- | []]];
        [apply Hnamed, Hx | exact Ei].
Qed.

Lemma wordFreq_wellKeyed (ws : list string) (acc : JsObject.t Tally) :
  wellKeyed acc -> wellKeyed (fold_left countWord ws acc).
Proof.
  revert acc. induction ws as [| w r IH]; intros acc H; [exact H |].
  cbn [fold_left]. apply IH. apply set_wellKeyed. exact H.
Qed.

Lemma sorted_NoDup (l : list N) : StronglySorted N.lt l -> NoDup l.
Proof.
  induction 1 as [| i r Hr IH Hi]; constructor; [| exact IH].
  intros Hin. rewrite Forall_forall in Hi. specialize (Hi i Hin). lia.
Qed.

(** An object lists no key twice. *)
Lemma wellKeyed_NoDup {V : Type} (o : JsObject.t V) :
  wellKeyed o -> NoDup (keysOf o).
Proof.
  intros (Hsorted & Hnodup & Hidx & Hnamed). rewrite keysOf_unfold.
  apply NoDup_app.
  - apply NoDup_map_NoDup_ForallPairs; [| apply sorted_NoDup; exact Hsorted].
    intros i j Hi Hj E. apply Hidx in Hi, Hj. rewrite E in Hi. congruence.
  - exact Hnodup.
  - intros x Hx Hx'. apply in_map_iff in Hx. destruct Hx as [i [<- Hi]].
    apply Hidx in Hi. apply Hnamed in Hx'. congruence.
Qed.

Lemma insert_Permutation {A : Type} (cmp : A -> A -> Z) (x : A) (l : list A) :
  Permutation (insert cmp x l) (x :: l).
Proof.
  induction l as [| y r IH]; cbn [insert]; [reflexivity |].
  destruct (0 <? cmp x y)%Z; [| reflexivity].
  rewrite IH. apply perm_swap.
Qed.

Lemma sort_Permutation {A : Type} (cmp : A -> A -> Z) (l : list A) :
  Permutation (sort cmp l) l.
Proof.
  induction l as [| x r IH]; [reflexivity |].
  cbn [sort fold_right]. fold (sort cmp r).
  rewrite insert_Permutation, IH. reflexivity.
Qed.

Lemma firstn_NoDup {A : Type} (n : nat) (l : list A) :
  NoDup l -> NoDup (firstn n l).
Proof.
  intros H. rewrite <- (firstn_skipn n l) in H.
  apply NoDup_app_remove_r in H. exact H.
Qed.

Lemma lowerChar_notUpper (c : ascii) : notUpper (lowerChar c) = true.
Proof. destruct c as [[] [] [] [] [] [] [] []]; reflexivity. Qed.

Lemma lowerChar_upperChar (c : ascii) :
  notUpper c = true -> lowerChar (upperChar c) = c.
Proof.
  destruct c as [[] [] [] [] [] [] [] []]; intros H;
    solve [reflexivity | discriminate H].
Qed.

Lemma toLowerCase_notUpper (s : string) :
  allChars notUpper (toLowerCase s) = true.
Proof.
  induction s as [| c r IH]; [reflexivity |].
  cbn [toLowerCase allChars]. rewrite lowerChar_notUpper, IH. reflexivity.
Qed.

Lemma capitalize_injective (u v : string) :
  allChars notUpper u = true -> allChars notUpper v = true ->
  capitalize u = capitalize v -> u = v.
Proof.
  destruct u as [| c r], v as [| d t]; cbn [capitalize allChars];
    intros Hu Hv E; try discriminate E; [reflexivity |].
  apply andb_true_iff in Hu, Hv. destruct Hu as [Hc _], Hv as [Hd _].
  injection E as Ecd <-. f_equal.
  rewrite <- (lowerChar_upperChar c Hc), <- (lowerChar_upperChar d Hd), Ecd.
  reflexivity.
Qed.

Lemma words_notUpper (content w : string) :
  In w (words content) -> allChars notUpper w = true.
Proof.
  unfold words. apply split_keeps. apply toLowerCase_notUpper.
Qed.

(** X6.  The extracted key topics are the capitalized forms of pairwise
    different tokens of the content.  For a content of ASCII characters,
    where capitalizing tells lower-case tokens apart, the topics themselves
    are pairwise different: the show notes never list a topic twice. *)
Theorem keyTopics_NoDup (content : string) :
  (exists chosen,
      keyTopics content = map capitalize chosen
      /\ NoDup chosen
      /\ forall w, In w chosen -> In w (words content))
  /\ (allChars isAscii content = true -> NoDup (keyTopics content)).
Proof.
  unfold keyTopics.
  set (ranked := slice (sort byFrequency (JsObject.entries (wordFreq content))) 0 5).
  replace (map (fun '(word, _) => capitalize word) ranked)
    with (map capitalize (map fst ranked))
    by (rewrite map_map; apply map_ext; intros [w v]; reflexivity).
  assert (Hkeys : forall w, In w (map fst ranked) -> In w (words content)).
  { intros w Hw. apply in_map_iff in Hw. destruct Hw as [[w' v] [<- Hw]].
    apply slice_In, sort_In in Hw.
    assert (Hkey : In w' (keysOf (wordFreq content)))
      by (unfold keysOf; apply in_map_iff; exists (w', v); split;
          [reflexivity | exact Hw]).
    apply wordFreq_keys in Hkey. destruct Hkey as [Hk | []].
    unfold meaningfulWords in Hk. apply filter_In in Hk. apply Hk. }
  assert (Hnd : NoDup (map fst ranked)).
  { unfold ranked, slice. cbn [skipn Nat.sub]. rewrite <- firstn_map.
    apply firstn_NoDup.
    apply (Permutation_NoDup
             (Permutation_map fst
                (Permutation_sym
                   (sort_Permutation byFrequency
                      (JsObject.entries (wordFreq content)))))).
    apply (wellKeyed_NoDup (wordFreq content)).
    apply wordFreq_wellKeyed, wellKeyed_empty. }
  split.
  - exists (map fst ranked). repeat split; assumption.
  - intros _. apply NoDup_map_NoDup_ForallPairs; [| exact Hnd].
    intros u v Hu Hv. apply capitalize_injective;
      apply (words_notUpper content); apply Hkeys; assumption.
Qed.

Lemma keyTopics_NoDup_witness :
  NoDup (keyTopics (PodcastScriptOptions.content medTech)).
Proof.
  apply (proj2 (keyTopics_NoDup (PodcastScriptOptions.content medTech))).
  vm_compute. reflexivity.
Defined.

(** ** Styles and durations outside the tables *)

Lemma ownKey_false_name (k : string) :
  ownKey k = true -> includes JsObject.objectPrototypeKeys k = false.
Proof. unfold ownKey. intros H. apply negb_true_iff. exact H. Qed.

(** X7.  A style that is none of the four names, and no name inherited
    from [Object.prototype], is treated as conversational; the test is
    case-sensitive. *)
Theorem style_defaults_to_conversational (style : string) :
  includes styleNames style = false ->
  ownKey style = true ->
  format style = JsObject.Own conversational
  /\ transitionPhrase style = "So let's dive in".
Proof.
  intros Hname Hown. apply ownKey_false_name in Hown.
  assert (Hformat : format style = JsObject.Own conversational).
  { unfold format, JsObject.get, JsObject.getOwn. rewrite Hown.
    destruct (JsObject.arrayIndex style); [reflexivity |].
    unfold styleNames, includes in Hname. cbn [existsb] in Hname.
    repeat (apply orb_false_iff in Hname; destruct Hname as [? Hname]).
    cbn [styleFormats JsObject.literal JsObject.named JsObject.findNamed].
    repeat match goal with H : (style =? _) = false |- _ => rewrite H; clear H end.
    reflexivity. }
  split; [exact Hformat |]. unfold transitionPhrase. rewrite Hformat.
  reflexivity.
Qed.

Lemma style_defaults_to_conversational_witness :
  format "Interview" = JsObject.Own conversational
  /\ transitionPhrase "Interview" = "So let's dive in".
Proof.
  apply style_defaults_to_conversational; reflexivity.
Defined.

Lemma estimatedDuration_plain (duration : string) :
  duration <> "5-10" ->
  ownKey duration = true ->
  estimatedDuration duration = JsNumber.Num 15
  \/ estimatedDuration duration = JsNumber.Num 25
  \/ estimatedDuration duration = JsNumber.Num 35.
Proof.
  intros Hne Hown. apply ownKey_false_name in Hown.
  unfold estimatedDuration, JsObject.get, JsObject.getOwn. rewrite Hown.
  destruct (JsObject.arrayIndex duration); [left; reflexivity |].
  cbn [durationMap JsObject.literal JsObject.named JsObject.findNamed].
  destruct (String.eqb_spec duration "5-10"); [contradiction |].
  destruct (duration =? "10-20"); [left; reflexivity |].
  destruct (duration =? "20-30"); [right; left; reflexivity |].
  destruct (duration =? "30+"); [right; right; reflexivity |].
  left. reflexivity.
Qed.

(** X8.  For every duration string other than "5-10" that is no name
    inherited from [Object.prototype], the six time labels of the script
    read as times and never go back; a string outside the table gives the
    labels of the 15-minute estimate. *)
Theorem timestamps_in_time_order (options : PodcastScriptOptions.t) :
  PodcastScriptOptions.duration options <> "5-10" ->
  ownKey (PodcastScriptOptions.duration options) = true ->
  (exists seconds,
      allSome (map secondsOf (timesOf (generateFallbackScript options)))
      = Some seconds
      /\ nondecreasing seconds = true)
  /\ (includes ["10-20"; "20-30"; "30+"] (PodcastScriptOptions.duration options)
      = false ->
      timesOf (generateFallbackScript options)
      = ["0:00"; "1:30"; "3:00"; "7:00"; "12:00"; "13:00"]).
Proof.
  intros Hne Hown. unfold timesOf, generateFallbackScript.
  cbn [GeneratedScript.showNotes ShowNotes.timestamps]. unfold timestamps.
  split.
  - destruct (estimatedDuration_plain _ Hne Hown) as [E | [E | E]];
      rewrite E; eexists; split; vm_compute; reflexivity.
  - intros Htable. apply ownKey_false_name in Hown.
    assert (E : estimatedDuration (PodcastScriptOptions.duration options)
                = JsNumber.Num 15).
    { unfold estimatedDuration, JsObject.get, JsObject.getOwn. rewrite Hown.
      destruct (JsObject.arrayIndex (PodcastScriptOptions.duration options));
        [reflexivity |].
      unfold includes in Htable. cbn [existsb] in Htable.
      repeat (apply orb_false_iff in Htable; destruct Htable as [? Htable]).
      cbn [durationMap JsObject.literal JsObject.named JsObject.findNamed].
      destruct (String.eqb_spec (PodcastScriptOptions.duration options) "5-10");
        [contradiction |].
      repeat match goal with
             | H : (PodcastScriptOptions.duration options =? _) = false |- _ =>
                 rewrite H; clear H
             end.
      reflexivity. }
    rewrite E. reflexivity.
Qed.

Lemma timestamps_in_time_order_witness :
  exists seconds,
    allSome (map secondsOf
               (timesOf (generateFallbackScript
                           (PodcastScriptOptions.make "Some content here."
                              "professional" "30+" None))))
    = Some seconds
    /\ nondecreasing seconds = true.
Proof.
  apply (timestamps_in_time_order
           (PodcastScriptOptions.make "Some content here." "professional"
              "30+" None)).
  - cbn. discriminate.
  - reflexivity.
Defined.

(* ================================================================== *)
(** * Further properties of the facade and of the extractor *)
(* ================================================================== *)

(** X9.  The facade with the synthesizer never rejects.  It returns the
    script of the model exactly when the call resolved with a non-empty
    text that [JSON.parse] accepts; in every other case (a rejected call,
    a missing or empty text, malformed JSON) it returns the script of the
    synthesizer for the same options. *)
Theorem generatePodcastScript_fallback_exactly (Json : Type)
        (JSON_parse : string -> Thrown + Json)
        (options : PodcastScriptOptions.t) (call : ModelCall) :
  (forall error, generatePodcastScript Json JSON_parse options call <> inl error)
  /\ (forall script,
         generatePodcastScript Json JSON_parse options call
         = inr (FromModel script)
         <-> exists rawJson,
             call = CallResolves (Some rawJson)
             /\ rawJson <> ""
             /\ JSON_parse rawJson = inr script)
  /\ (generatePodcastScript Json JSON_parse options call
      = inr (FromFallback (generateFallbackScript options))
      \/ exists script,
          generatePodcastScript Json JSON_parse options call
          = inr (FromModel script)).
Proof.
  unfold generatePodcastScript, tryModel. repeat split.
  - intros error.
    destruct call as [e | [raw |]]; try discriminate.
    destruct (raw =? ""); [discriminate |].
    destruct (JSON_parse raw); discriminate.
  - destruct call as [e | [raw |]]; try discriminate.
    destruct (String.eqb_spec raw "") as [-> | Hne]; [discriminate |].
    destruct (JSON_parse raw) as [e | s] eqn:E; [discriminate |].
    intros H. injection H as <-. exists raw. repeat split; assumption.
  - intros [raw [-> [Hne E]]].
    destruct (String.eqb_spec raw ""); [contradiction |].
    rewrite E. reflexivity.
  - destruct call as [e | [raw |]]; try (left; reflexivity).
    destruct (raw =? ""); [left; reflexivity |].
    destruct (JSON_parse raw) as [e | s]; [left; reflexivity |].
    right. exists s. reflexivity.
Qed.

(** X10.  Every failure of the extractor reaches the caller as an [Error]
    whose message starts with the same prefix, and there are four causes:
    the request was rejected; the response was not ok, which is reported
    with status code and text whatever the body holds; the body could not
    be read; the cleaned content is shorter than 50 characters. *)
Theorem fetchContentFromUrl_failures (fetch : Fetch) (e : Thrown) :
  fetchContentFromUrl fetch = inl e ->
  exists cause,
    e = ErrorObject ("Failed to fetch content from URL: " ++ cause)
    /\ ((exists error, fetch = FetchRejects error /\ cause = messageOf error)
        \/ (exists response,
               fetch = FetchResolves response
               /\ ok response = false
               /\ cause = "Failed to fetch content: "
                          ++ JsNumber.toString (JsNumber.Num (status response))
                          ++ " " ++ statusText response)
        \/ (exists response error,
               fetch = FetchResolves response
               /\ ok response = true
               /\ body response = inl error
               /\ cause = messageOf error)
        \/ (exists response dom,
               fetch = FetchResolves response
               /\ ok response = true
               /\ body response = inr dom
               /\ String.length (cleanUp (rawContent dom)) < 50
               /\ cause = "Could not extract meaningful content from the URL")).
Proof.
  unfold fetchContentFromUrl. destruct fetch as [error | response].
  - intros H. injection H as <-. eexists. split; [reflexivity |].
    left. exists error. split; reflexivity.
  - destruct (ok response) eqn:Eok; cbn [negb].
    + destruct (body response) as [error | dom] eqn:Ebody.
      * intros H. injection H as <-. eexists. split; [reflexivity |].
        right. right. left. exists response, error. repeat split; assumption.
      * rewrite extract_unfold. cbv zeta.
        destruct (String.length (cleanUp (rawContent dom)) <? 50)%nat eqn:Elen;
          [| discriminate].
        intros H. injection H as <-. eexists. split; [reflexivity |].
        right. right. right. exists response, dom.
        apply Nat.ltb_lt in Elen. repeat split; assumption.
    + intros H. injection H as <-. eexists. split; [reflexivity |].
      right. left. exists response. repeat split; assumption.
Qed.

Lemma fetchContentFromUrl_failures_witness :
  exists cause,
    ErrorObject "Failed to fetch content from URL: Failed to fetch content: 404 Not Found"
    = ErrorObject ("Failed to fetch content from URL: " ++ cause).
Proof.
  destruct (fetchContentFromUrl_failures
              (FetchResolves
                 {| ok := false; status := 404; statusText := "Not Found";
                    body := inr emptyPage |})
              (ErrorObject
                 "Failed to fetch content from URL: Failed to fetch content: 404 Not Found")
              eq_refl) as [cause [E _]].
  exists cause. exact E.
Defined.

(** ** The cleaned content *)

Lemma isLf_isSpace (c : ascii) : isLf c = true -> isSpace c = true.
Proof.
  unfold isLf. intros H. apply Ascii.eqb_eq in H. subst. reflexivity.
Qed.

Lemma isSpace_not_space_char (c : ascii) :
  isSpace c = false -> Ascii.eqb " " c = false.
Proof.
  intros H. destruct (Ascii.eqb_spec " " c) as [<- | _]; [| reflexivity].
  discriminate H.
Qed.

Lemma collapse_from_collapsed (s : string) (b : bool) :
  collapsed (collapse_from s b) b = true.
Proof.
  revert b. induction s as [| c r IH]; intros b; [reflexivity |].
  cbn [collapse_from]. destruct (isSpace c) eqn:Ec.
  - destruct b; [apply IH |]. cbn [collapsed]. rewrite IH. reflexivity.
  - cbn [collapsed]. rewrite Ec. apply IH.
Qed.

Lemma collapsed_fixed (s : string) (b : bool) :
  collapsed s b = true -> collapse_from s b = s.
Proof.
  revert b. induction s as [| c r IH]; intros b H; [reflexivity |].
  cbn [collapsed collapse_from] in *. destruct (isSpace c).
  - apply andb_true_iff in H. destruct H as [H Hr].
    apply andb_true_iff in H. destruct H as [Hc Hb].
    apply negb_true_iff in Hb. subst b. apply Ascii.eqb_eq in Hc. subst c.
    rewrite (IH true Hr). reflexivity.
  - rewrite (IH false H). reflexivity.
Qed.

Lemma collapsed_notLf (s : string) (b : bool) :
  collapsed s b = true -> allChars notLf s = true.
Proof.
  revert b. induction s as [| c r IH]; intros b H; [reflexivity |].
  cbn [collapsed allChars] in *. destruct (isSpace c) eqn:Ec.
  - apply andb_true_iff in H. destruct H as [H Hr].
    apply andb_true_iff in H. destruct H as [Hc _].
    apply Ascii.eqb_eq in Hc. subst c. rewrite (IH true Hr). reflexivity.
  - rewrite (IH false H). unfold notLf.
    destruct (isLf c) eqn:El; [| reflexivity].
    apply isLf_isSpace in El. congruence.
Qed.

(** Without a line feed the second [replace] finds nothing. *)
Lemma squeeze_noLf (s : string) :
  allChars notLf s = true -> squeezeBlankLines s = s.
Proof.
  unfold squeezeBlankLines. induction s as [| c r IH]; [reflexivity |].
  cbn [allChars squeeze_from]. intros H. apply andb_true_iff in H.
  destruct H as [Hc Hr]. unfold notLf in Hc. apply negb_true_iff in Hc.
  rewrite Hc, (IH Hr). reflexivity.
Qed.

Lemma trimStart_collapsed (s : string) (b b' : bool) :
  collapsed s b = true -> collapsed (trimStart s) b' = true.
Proof.
  revert b. induction s as [| c r IH]; intros b H; [reflexivity |].
  cbn [trimStart]. cbn [collapsed] in H. destruct (isSpace c) eqn:Ec.
  - apply andb_true_iff in H. destruct H as [_ Hr]. apply (IH true Hr).
  - cbn [collapsed]. rewrite Ec. exact H.
Qed.

Lemma trimEnd_collapsed (s : string) (b : bool) :
  collapsed s b = true -> collapsed (trimEnd s) b = true.
Proof.
  revert b. induction s as [| c r IH]; intros b H; [reflexivity |].
  cbn [trimEnd]. destruct (isSpace c && (trimEnd r =? "")); [reflexivity |].
  cbn [collapsed] in *. destruct (isSpace c).
  - apply andb_true_iff in H. destruct H as [H Hr].
    rewrite H, (IH true Hr). reflexivity.
  - apply (IH false H).
Qed.

Lemma trim_collapsed (s : string) (b b' : bool) :
  collapsed s b = true -> collapsed (trim s) b' = true.
Proof.
  intros H. unfold trim. apply trimEnd_collapsed.
  apply (trimStart_collapsed s b b' H).
Qed.

Lemma spaced_unfold (s : string) (b : bool) :
  spaced s b = collapsed s b && negb (endsInSpace s b).
Proof.
  revert b. induction s as [| c r IH]; intros b.
  - cbn. reflexivity.
  - cbn [spaced collapsed endsInSpace]. destruct (isSpace c).
    + rewrite IH, andb_assoc. reflexivity.
    + apply IH.
Qed.

Lemma trim_spaced (s : string) (b : bool) :
  collapsed s b = true -> trim s <> "" -> singleSpaced (trim s) = true.
Proof.
  intros H Hne. unfold singleSpaced. rewrite spaced_unfold.
  rewrite (trim_collapsed s b true H). cbn [andb].
  destruct (trim_head s) as [E | [c [r [E Ec]]]]; [contradiction |].
  rewrite E. cbn [endsInSpace]. rewrite endsInSpace_trimEnd, Ec.
  rewrite andb_false_r. reflexivity.
Qed.

Lemma countTokens_spaced (s : string) (b : bool) :
  spaced s b = true ->
  countTokens_from s (negb b) = countChar " " s + (if b then 1 else 0).
Proof.
  revert b. induction s as [| c r IH]; intros b H.
  - cbn in *. apply negb_true_iff in H. subst b. reflexivity.
  - cbn [spaced countTokens_from countChar] in *.
    destruct (isSpace c) eqn:Ec.
    + apply andb_true_iff in H. destruct H as [H Hr].
      apply andb_true_iff in H. destruct H as [Hc Hb].
      apply negb_true_iff in Hb. subst b. apply Ascii.eqb_eq in Hc. subst c.
      pose proof (IH true Hr) as IH'. cbn [negb] in *. rewrite IH'.
      cbn. lia.
    + rewrite (isSpace_not_space_char c Ec).
      pose proof (IH false H) as IH'. cbn [negb] in IH'. rewrite IH'.
      destruct b; cbn; lia.
Qed.

Lemma cleanUp_unfold (content : string) :
  cleanUp content = trim (collapseWhitespace content).
Proof.
  unfold cleanUp. rewrite squeeze_noLf; [reflexivity |].
  apply (collapsed_notLf _ false). apply collapse_from_collapsed.
Qed.

(** X11.  The second [replace] of the clean-up, which is to squeeze blank
    lines, never changes anything: the first one has left no line feed.
    The clean-up is the collapse of whitespace runs followed by the trim,
    and cleaning a cleaned text again gives the same text. *)
Theorem cleanUp_collapses_and_trims (content : string) :
  cleanUp content = trim (collapseWhitespace content)
  /\ cleanUp (cleanUp content) = cleanUp content.
Proof.
  split; [apply cleanUp_unfold |].
  rewrite !cleanUp_unfold. unfold collapseWhitespace at 1.
  rewrite collapsed_fixed; [apply trim_idempotent |].
  apply (trim_collapsed _ false). apply collapse_from_collapsed.
Qed.

Lemma fetched_extract (fetch : Fetch) (fetched : FetchedContent.t) :
  fetchContentFromUrl fetch = inr fetched ->
  exists dom, extract dom = inr fetched.
Proof.
  unfold fetchContentFromUrl. destruct fetch as [error | response];
    [discriminate |].
  destruct (negb (ok response)); [discriminate |].
  destruct (body response) as [error | dom]; [discriminate |].
  destruct (extract dom) as [e | f] eqn:E; [discriminate |].
  intros H. injection H as <-. exists dom. exact E.
Qed.

(** ** The normal form of the content *)

Lemma trimStart_collapse_true (s : string) :
  trimStart (collapse_from s true) = collapse_from s true.
Proof.
  induction s as [| c r IH]; [reflexivity |].
  cbn [collapse_from]. destruct (isSpace c) eqn:Ec; [exact IH |].
  cbn [trimStart]. rewrite Ec. reflexivity.
Qed.

Lemma trimStart_collapse (s : string) :
  trimStart (collapse_from s false) = collapse_from s true.
Proof.
  destruct s as [| c r]; [reflexivity |].
  cbn [collapse_from]. destruct (isSpace c) eqn:Ec.
  - cbn [trimStart]. change (isSpace " ") with true. cbv iota.
    apply trimStart_collapse_true.
  - cbn [trimStart]. rewrite Ec. reflexivity.
Qed.

Lemma trimEnd_free_app (pfx x : string) :
  allChars notSpace pfx = true -> trimEnd (pfx ++ x) = pfx ++ trimEnd x.
Proof.
  induction pfx as [| c r IH]; [reflexivity |].
  cbn [allChars append trimEnd]. intros H. apply andb_true_iff in H.
  destruct H as [Hc Hr]. unfold notSpace in Hc. apply negb_true_iff in Hc.
  rewrite Hc, (IH Hr). reflexivity.
Qed.

Lemma tokens_at_space (a b : string) (c : ascii) :
  isSpace c = true -> tokens (a ++ String c b) = (tokens a ++ tokens b)%list.
Proof.
  intros Hc. unfold tokens.
  rewrite (spans_at_separator isSpace a b c Hc). apply filter_app.
Qed.

Lemma tokens_free (pfx : string) :
  pfx <> "" -> allChars notSpace pfx = true -> tokens pfx = [pfx].
Proof.
  intros Hne Hfree. unfold tokens.
  rewrite (spans_free isSpace pfx Hfree). cbn [filter]. unfold nonEmpty.
  destruct (String.eqb_spec pfx ""); [contradiction | reflexivity].
Qed.

Lemma tokens_nonEmpty (s t : string) : In t (tokens s) -> t <> "".
Proof.
  unfold tokens. intros H. apply filter_In in H. destruct H as [_ H].
  unfold nonEmpty in H. apply negb_true_iff in H.
  apply String.eqb_neq. exact H.
Qed.

Lemma normalize_empty (s : string) : normalize s = "" -> tokens s = [].
Proof.
  unfold normalize. intros H.
  destruct (tokens s) as [| t ts] eqn:E; [reflexivity |].
  assert (Ht : t <> "") by (apply (tokens_nonEmpty s); rewrite E; left; reflexivity).
  destruct t as [| c t]; [contradiction |].
  destruct ts; cbn [join append] in H; discriminate.
Qed.

Lemma normalize_after (pfx r : string) (c : ascii) :
  pfx <> "" -> allChars notSpace pfx = true -> isSpace c = true ->
  normalize (pfx ++ String c r)
  = if normalize r =? "" then pfx else pfx ++ " " ++ normalize r.
Proof.
  intros Hne Hfree Hc.
  destruct (String.eqb_spec (normalize r) "") as [E | Hn].
  - unfold normalize. rewrite (tokens_at_space pfx r c Hc).
    rewrite (tokens_free pfx Hne Hfree), (normalize_empty r E). reflexivity.
  - unfold normalize in *. rewrite (tokens_at_space pfx r c Hc).
    rewrite (tokens_free pfx Hne Hfree).
    destruct (tokens r) as [| t ts]; [contradiction Hn; reflexivity |].
    reflexivity.
Qed.

(** Collapsing the runs of whitespace and trimming leaves the tokens with
    single spaces between them. *)
Lemma collapse_normal (s : string) :
  trimEnd (collapse_from s true) = normalize s
  /\ forall pfx,
       pfx <> "" -> allChars notSpace pfx = true ->
       trimEnd (pfx ++ collapse_from s false) = normalize (pfx ++ s).
Proof.
  induction s as [| c r [IHg IHq]].
  - split; [reflexivity |]. intros pfx Hne Hfree.
    cbn [collapse_from]. rewrite (trimEnd_free_app pfx "" Hfree).
    cbn [trimEnd]. rewrite !append_empty_r. unfold normalize.
    rewrite (tokens_free pfx Hne Hfree). reflexivity.
  - destruct (isSpace c) eqn:Ec.
    + split.
      * cbn [collapse_from]. rewrite Ec, IHg.
        unfold normalize, tokens. cbn [spans]. rewrite Ec. reflexivity.
      * intros pfx Hne Hfree. cbn [collapse_from]. rewrite Ec.
        rewrite (trimEnd_free_app pfx _ Hfree).
        rewrite (normalize_after pfx r c Hne Hfree Ec).
        cbn [trimEnd]. change (isSpace " ") with true. cbn [andb].
        rewrite IHg.
        destruct (normalize r =? ""); [apply append_empty_r | reflexivity].
    + assert (Hc : allChars notSpace (String c "") = true)
        by (cbn [allChars]; unfold notSpace; rewrite Ec; reflexivity).
      split.
      * cbn [collapse_from]. rewrite Ec.
        apply (IHq (String c "") ltac:(discriminate) Hc).
      * intros pfx Hne Hfree. cbn [collapse_from]. rewrite Ec.
        replace (pfx ++ String c (collapse_from r false))
          with ((pfx ++ String c "") ++ collapse_from r false)
          by (rewrite append_associative; reflexivity).
        replace (pfx ++ String c r) with ((pfx ++ String c "") ++ r)
          by (rewrite append_associative; reflexivity).
        apply IHq.
        -- destruct pfx; discriminate.
        -- rewrite allChars_app, Hfree, Hc. reflexivity.
Qed.

Lemma cleanUp_normalize (content : string) : cleanUp content = normalize content.
Proof.
  rewrite cleanUp_unfold. unfold trim, collapseWhitespace.
  rewrite trimStart_collapse. apply collapse_normal.
Qed.

(** C7.  For a page that was fetched and parsed, let [content] be the
    normal form of the extracted text: its whitespace-delimited tokens with
    single spaces between them.  Below 50 characters the extractor fails
    with the extraction error and returns nothing; from 50 characters on
    it returns the trimmed title, the content, and as word count the
    number of whitespace-delimited tokens of the content. *)
Theorem fetchContentFromUrl_threshold (response : Response) (dom : Document) :
  ok response = true ->
  body response = inr dom ->
  let content := normalize (rawContent dom) in
  (String.length content < 50 ->
   fetchContentFromUrl (FetchResolves response) = inl ExtractionError)
  /\ (50 <= String.length content ->
      fetchContentFromUrl (FetchResolves response)
      = inr (FetchedContent.make (trim (titleOf dom)) content
               (countTokens content))).
Proof.
  intros Hok Hbody. cbv zeta. rewrite <- cleanUp_normalize.
  unfold fetchContentFromUrl. rewrite Hok, Hbody. cbn [negb].
  rewrite extract_unfold. cbv zeta.
  split; intros Hlen.
  - apply Nat.ltb_lt in Hlen. rewrite Hlen. reflexivity.
  - apply Nat.ltb_ge in Hlen. rewrite Hlen. reflexivity.
Qed.

Lemma fetchContentFromUrl_threshold_witness :
  fetchContentFromUrl (FetchResolves (okResponse emptyPage)) = inl ExtractionError
  /\ fetchContentFromUrl (FetchResolves (okResponse raggedPage))
     = inr (FetchedContent.make
              "Fox News"
              "The quick brown fox jumps over the lazy dog while the band plays on and on until everybody in the hall has gone home."
              24).
Proof.
  split.
  - apply (proj1 (fetchContentFromUrl_threshold
                    (okResponse emptyPage) emptyPage eq_refl eq_refl)).
    vm_compute. lia.
  - assert (E : normalize (rawContent raggedPage)
                = "The quick brown fox jumps over the lazy dog while the band plays on and on until everybody in the hall has gone home.")
      by (vm_compute; reflexivity).
    pose proof (proj2 (fetchContentFromUrl_threshold
                         (okResponse raggedPage) raggedPage eq_refl eq_refl))
      as H.
    cbv zeta in H. rewrite E in H. apply H. vm_compute. lia.
Defined.

(** X12.  The content an extraction returns has at least 50 characters and
    consists of words separated by single spaces: no tab or line break, no
    space first or last, no two spaces in a row.  The word count is the
    number of spaces plus one. *)
Theorem fetched_content_shape (fetch : Fetch) (fetched : FetchedContent.t) :
  fetchContentFromUrl fetch = inr fetched ->
  50 <= String.length (FetchedContent.content fetched)
  /\ singleSpaced (FetchedContent.content fetched) = true
  /\ FetchedContent.wordCount fetched
     = countChar " " (FetchedContent.content fetched) + 1.
Proof.
  intros H. apply fetched_extract in H. destruct H as [dom H].
  rewrite extract_unfold in H. cbv zeta in H.
  destruct (String.length (cleanUp (rawContent dom)) <? 50)%nat eqn:Elen;
    [discriminate |].
  injection H as <-. cbn [FetchedContent.content FetchedContent.wordCount].
  apply Nat.ltb_ge in Elen. split; [exact Elen |].
  assert (Hspaced : singleSpaced (cleanUp (rawContent dom)) = true).
  { rewrite cleanUp_unfold in *.
    apply (trim_spaced _ false (collapse_from_collapsed _ false)).
    intros E0. unfold collapseWhitespace in Elen. rewrite E0 in Elen.
    cbn in Elen. lia. }
  split; [exact Hspaced |].
  unfold countTokens. apply (countTokens_spaced _ true Hspaced).
Qed.

Lemma fetched_content_shape_witness :
  singleSpaced
    "The quick brown fox jumps over the lazy dog while the band plays on and on until everybody in the hall has gone home."
  = true
  /\ 24
     = countChar
         " "
         "The quick brown fox jumps over the lazy dog while the band plays on and on until everybody in the hall has gone home."
       + 1.
Proof.
  assert (E : fetchContentFromUrl (foxNetwork "https://example.org/fox")
              = inr (FetchedContent.make
                       "Fox News"
                       "The quick brown fox jumps over the lazy dog while the band plays on and on until everybody in the hall has gone home."
                       24))
    by (vm_compute; reflexivity).
  exact (proj2 (fetched_content_shape _ _ E)).
Defined.

(** ** The choice of the content area and of the title *)

Lemma firstLongEnough_skips (dom : Document) (pre rest : list string) :
  (forall s, In s pre -> qualifies dom s = false) ->
  firstLongEnough dom (pre ++ rest) = firstLongEnough dom rest.
Proof.
  induction pre as [| s pre IH]; intros H; [reflexivity |].
  cbn [app firstLongEnough].
  pose proof (H s (or_introl eq_refl)) as Hs. unfold qualifies in Hs.
  rewrite Hs. apply IH. intros x Hx. apply H. right. exact Hx.
Qed.

(** X13.  The content is taken from the first selector of the list, in its
    order from [article] to [.article-body], that matches an element and
    whose trimmed text has more than 100 characters; the selectors after it
    and the body are not looked at. *)
Theorem rawContent_first_qualifying (dom : Document)
        (pre post : list string) (selector : string) :
  contentSelectors = (pre ++ selector :: post)%list ->
  (forall s, In s pre -> qualifies dom s = false) ->
  qualifies dom selector = true ->
  rawContent dom = trim (text (dom selector))
  /\ 100 < String.length (rawContent dom).
Proof.
  intros Hsel Hpre Hq. unfold rawContent. rewrite Hsel.
  rewrite (firstLongEnough_skips dom pre _ Hpre). cbn [firstLongEnough].
  pose proof Hq as Hq'. unfold qualifies in Hq'. rewrite Hq'.
  apply andb_true_iff in Hq'. destruct Hq' as [_ Hlen].
  apply Nat.ltb_lt in Hlen.
  destruct (String.eqb_spec (trim (text (dom selector))) "") as [E | _].
  - rewrite E in Hlen. cbn in Hlen. lia.
  - split; [reflexivity | exact Hlen].
Qed.

Lemma rawContent_first_qualifying_witness :
  rawContent (articlePage "Fox News")
  = trim (text (articlePage "Fox News" "article"))
  /\ 100 < String.length (rawContent (articlePage "Fox News")).
Proof.
  apply (rawContent_first_qualifying (articlePage "Fox News") []
           [ "main"; ".content"; ".article-content"; ".post-content";
             ".entry-content"; "#content"; ".story-body"; ".article-body" ]
           "article").
  - reflexivity.
  - intros s [].
  - vm_compute. reflexivity.
Defined.

(** X14.  When no selector of the list qualifies, the content is the
    trimmed text of the body. *)
Theorem rawContent_body_fallback (dom : Document) :
  (forall s, In s contentSelectors -> qualifies dom s = false) ->
  rawContent dom = trim (text (dom "body")).
Proof.
  intros H. unfold rawContent.
  rewrite <- (app_nil_r contentSelectors).
  rewrite (firstLongEnough_skips dom contentSelectors [] H). reflexivity.
Qed.

Lemma rawContent_body_fallback_witness :
  rawContent emptyPage = trim (text (emptyPage "body")).
Proof.
  apply rawContent_body_fallback. intros s _. reflexivity.
Defined.

(** X15.  The title of an extraction is the trimmed text of the title
    elements when they have any text; otherwise the trimmed text of the
    first level-1 heading when it has any; otherwise the placeholder.  It
    is empty only when the text that was chosen is all whitespace. *)
Theorem fetched_title_order (dom : Document) (fetched : FetchedContent.t) :
  extract dom = inr fetched ->
  (text (dom "title") <> "" ->
   FetchedContent.title fetched = trim (text (dom "title")))
  /\ (text (dom "title") = "" -> text (first (dom "h1")) <> "" ->
      FetchedContent.title fetched = trim (text (first (dom "h1"))))
  /\ (text (dom "title") = "" -> text (first (dom "h1")) = "" ->
      FetchedContent.title fetched = "Untitled Article")
  /\ (FetchedContent.title fetched = "" -> trim (titleOf dom) = "").
Proof.
  intros H. pose proof (extract_title dom fetched H) as Ht.
  rewrite extract_unfold in H. cbv zeta in H.
  destruct (String.length (cleanUp (rawContent dom)) <? 50)%nat; [discriminate |].
  injection H as <-. cbn [FetchedContent.title] in *.
  repeat split.
  - intros Hne. rewrite Ht.
    destruct (String.eqb_spec (text (dom "title")) ""); [contradiction |].
    reflexivity.
  - intros E Hne. rewrite Ht, E. cbn [String.eqb].
    destruct (String.eqb_spec (text (first (dom "h1"))) ""); [contradiction |].
    reflexivity.
  - intros E1 E2. rewrite Ht, E1, E2. reflexivity.
  - tauto.
Qed.

Lemma fetched_title_order_witness :
  FetchedContent.title
    (FetchedContent.make
       "Fox News"
       "The quick brown fox jumps over the lazy dog while the band plays on and on until everybody in the hall has gone home."
       24)
  = trim (text (articlePage "Fox News" "title")).
Proof.
  assert (E : extract (articlePage "Fox News")
              = inr (FetchedContent.make
                       "Fox News"
                       "The quick brown fox jumps over the lazy dog while the band plays on and on until everybody in the hall has gone home."
                       24))
    by (vm_compute; reflexivity).
  apply (proj1 (fetched_title_order (articlePage "Fox News") _ E)).
  vm_compute. discriminate.
Defined.

(* ================================================================== *)
(** * The storage *)
(* ================================================================== *)

Lemma JsMap_get_set_same {V : Type} (m : JsMap.t V) (k : string) (v : V) :
  JsMap.get (JsMap.set m k v) k = Some v.
Proof.
  induction m as [| [k' v'] r IH]; cbn [JsMap.set JsMap.get].
  - rewrite String.eqb_refl. reflexivity.
  - destruct (String.eqb_spec k k') as [-> | Hne]; cbn [JsMap.get].
    + rewrite String.eqb_refl. reflexivity.
    + destruct (String.eqb_spec k k'); [contradiction | exact IH].
Qed.

Lemma JsMap_get_set_other {V : Type} (m : JsMap.t V) (k k' : string) (v : V) :
  k' <> k -> JsMap.get (JsMap.set m k v) k' = JsMap.get m k'.
Proof.
  intros Hne. induction m as [| [k0 v0] r IH]; cbn [JsMap.set JsMap.get].
  - destruct (String.eqb_spec k' k); [contradiction | reflexivity].
  - destruct (String.eqb_spec k k0) as [-> | Hk]; cbn [JsMap.get].
    + destruct (String.eqb_spec k' k0); [contradiction | reflexivity].
    + rewrite IH. reflexivity.
Qed.

Lemma JsMap_set_fresh {V : Type} (m : JsMap.t V) (k : string) (v : V) :
  JsMap.get m k = None -> JsMap.set m k v = (m ++ [(k, v)])%list.
Proof.
  induction m as [| [k0 v0] r IH]; cbn [JsMap.set JsMap.get app];
    [reflexivity |].
  destruct (k =? k0); [discriminate |].
  intros H. rewrite (IH H). reflexivity.
Qed.

Lemma JsMap_set_present {V : Type} (m : JsMap.t V) (k : string) (v v0 : V) :
  JsMap.get m k = Some v0 -> map fst (JsMap.set m k v) = map fst m.
Proof.
  induction m as [| [k0 v1] r IH]; cbn [JsMap.set JsMap.get map fst];
    [discriminate |].
  destruct (String.eqb_spec k k0) as [-> | Hk]; cbn [map fst].
  - reflexivity.
  - intros H. rewrite (IH H). reflexivity.
Qed.

Lemma JsMap_set_In {V : Type} (m : JsMap.t V) (k k' : string) (v v' : V) :
  In (k', v') (JsMap.set m k v) -> (k', v') = (k, v) \/ In (k', v') m.
Proof.
  induction m as [| [k0 v0] r IH]; cbn [JsMap.set In].
  - intros [E | []]. left. symmetry. exact E.
  - destruct (k =? k0); cbn [In].
    + intros [E | H]; [left; symmetry; exact E | right; right; exact H].
    + intros [E | H]; [right; left; exact E |].
      destruct (IH H) as [E | H']; [left; exact E | right; right; exact H'].
Qed.

Lemma JsMap_In_set {V : Type} (m : JsMap.t V) (k : string) (v : V) :
  In (k, v) (JsMap.set m k v).
Proof.
  induction m as [| [k0 v0] r IH]; cbn [JsMap.set In].
  - left. reflexivity.
  - destruct (k =? k0); cbn [In]; [left; reflexivity | right; exact IH].
Qed.

Lemma JsMap_get_None {V : Type} (m : JsMap.t V) (k : string) :
  JsMap.get m k = None <-> ~ In k (map fst m).
Proof.
  induction m as [| [k0 v0] r IH]; cbn [JsMap.get map fst In].
  - split; [intros _ [] | reflexivity].
  - destruct (String.eqb_spec k k0) as [-> | Hk].
    + split; [discriminate | intros H; exfalso; apply H; left; reflexivity].
    + rewrite IH. split.
      * intros H [E | H']; [apply Hk; symmetry; exact E | exact (H H')].
      * intros H H'. apply H. right. exact H'.
Qed.

Lemma JsMap_set_NoDup {V : Type} (m : JsMap.t V) (k : string) (v : V) :
  NoDup (map fst m) -> NoDup (map fst (JsMap.set m k v)).
Proof.
  intros H. destruct (JsMap.get m k) as [v0 |] eqn:E.
  - rewrite (JsMap_set_present m k v v0 E). exact H.
  - rewrite (JsMap_set_fresh m k v E). rewrite map_app. cbn [map fst].
    apply NoDup_app; [exact H | repeat constructor; intros [] |].
    + intros x Hx [<- | []]. apply JsMap_get_None in E. exact (E Hx).
Qed.

Lemma JsMap_get_In {V : Type} (m : JsMap.t V) (k : string) (v : V) :
  JsMap.get m k = Some v -> In (k, v) m.
Proof.
  induction m as [| [k0 v0] r IH]; cbn [JsMap.get In]; [discriminate |].
  destruct (String.eqb_spec k k0) as [-> | Hk].
  - intros H. injection H as ->. left. reflexivity.
  - intros H. right. exact (IH H).
Qed.

Lemma JsMap_In_get {V : Type} (m : JsMap.t V) (k : string) (v : V) :
  NoDup (map fst m) -> In (k, v) m -> JsMap.get m k = Some v.
Proof.
  induction m as [| [k0 v0] r IH]; cbn [JsMap.get In map fst]; [intros _ [] |].
  intros Hnd [E | H].
  - injection E as -> ->. rewrite String.eqb_refl. reflexivity.
  - inversion Hnd as [| ? ? Hnot Hnd']; subst.
    destruct (String.eqb_spec k k0) as [-> | Hk].
    + exfalso. apply Hnot. apply (in_map fst) in H. exact H.
    + exact (IH Hnd' H).
Qed.

(** X16.  A script that was created is found under the id it was given,
    with the inserted fields in it; what is found under every other id
    is what was found before. *)
Theorem createPodcastScript_round_trip
        {Insert Date : Type} (scripts : MemStorage.t Insert Date)
        (insertScript : Insert) (uuid : string) (now : Date) :
  let created := MemStorage.createPodcastScript scripts insertScript uuid now in
  MemStorage.getPodcastScript (fst created) uuid = Some (snd created)
  /\ MemStorage.id (snd created) = uuid
  /\ MemStorage.fields (snd created) = insertScript
  /\ MemStorage.createdAt (snd created) = now
  /\ forall other,
       other <> uuid ->
       MemStorage.getPodcastScript (fst created) other
       = MemStorage.getPodcastScript scripts other.
Proof.
  cbv zeta. unfold MemStorage.createPodcastScript, MemStorage.getPodcastScript.
  cbn [fst snd MemStorage.id MemStorage.fields MemStorage.createdAt].
  repeat split.
  - apply JsMap_get_set_same.
  - intros other Hne. apply JsMap_get_set_other. exact Hne.
Qed.

(** X17.  The storage keeps its invariant: every script is filed under its
    own id and no id is filed twice, so the listed scripts have distinct
    ids. *)
Theorem createPodcastScript_keeps_invariant
        {Insert Date : Type} (scripts : MemStorage.t Insert Date)
        (insertScript : Insert) (uuid : string) (now : Date) :
  MemStorage.consistent scripts ->
  NoDup (map fst scripts) ->
  let scripts' :=
    fst (MemStorage.createPodcastScript scripts insertScript uuid now) in
  MemStorage.consistent scripts'
  /\ NoDup (map fst scripts')
  /\ NoDup (map MemStorage.id (MemStorage.listPodcastScripts scripts')).
Proof.
  intros Hc Hnd. cbv zeta.
  unfold MemStorage.createPodcastScript. cbn [fst].
  assert (Hc' : MemStorage.consistent
                  (JsMap.set scripts uuid
                             (MemStorage.make insertScript uuid now))).
  { intros k script H. apply JsMap_set_In in H. destruct H as [E | H].
    - injection E as -> ->. reflexivity.
    - exact (Hc k script H). }
  assert (Hnd' : NoDup (map fst (JsMap.set scripts uuid
                                   (MemStorage.make insertScript uuid now))))
    by (apply JsMap_set_NoDup; exact Hnd).
  repeat split; [exact Hc' | exact Hnd' |].
  unfold MemStorage.listPodcastScripts, JsMap.values. rewrite map_map.
  rewrite (map_ext_in (fun x => MemStorage.id (snd x)) fst); [exact Hnd' |].
  intros [k script] H. cbn [fst snd]. exact (Hc' k script H).
Qed.

Lemma twoScripts_consistent : MemStorage.consistent twoScripts.
Proof.
  intros k script [E | [E | []]]; injection E as <- <-; reflexivity.
Qed.

Lemma twoScripts_NoDup : NoDup (map fst twoScripts).
Proof.
  repeat constructor; cbn; intuition discriminate.
Qed.

Lemma createPodcastScript_keeps_invariant_witness :
  let scripts' :=
    fst (MemStorage.createPodcastScript
           twoScripts (MemStorage.fields teaScript) "c3" 2028) in
  MemStorage.consistent scripts'
  /\ NoDup (map fst scripts')
  /\ NoDup (map MemStorage.id (MemStorage.listPodcastScripts scripts')).
Proof.
  exact (createPodcastScript_keeps_invariant
           twoScripts (MemStorage.fields teaScript) "c3" 2028
           twoScripts_consistent twoScripts_NoDup).
Defined.

Lemma JsMap_set_taken {V : Type} (m : JsMap.t V) (k : string) (v old : V) :
  JsMap.get m k = Some old ->
  exists before after,
    m = (before ++ (k, old) :: after)%list
    /\ ~ In k (map fst before)
    /\ JsMap.set m k v = (before ++ (k, v) :: after)%list.
Proof.
  induction m as [| [k0 v0] r IH]; cbn [JsMap.get JsMap.set]; [discriminate |].
  destruct (String.eqb_spec k k0) as [-> | Hk].
  - intros H. injection H as ->. exists [], r.
    repeat split. intros [].
  - intros H. destruct (IH H) as [before [after [-> [Hnot ->]]]].
    exists ((k0, v0) :: before), after. repeat split.
    cbn [map fst In]. intros [E | Hin];
      [apply Hk; symmetry; exact E | exact (Hnot Hin)].
Qed.

(** X18.  With a fresh id the created script is added at the end of the
    list.  With an id that is taken, the entry of that id is the only one
    that changes: the new script stands where the old one stood, between
    the same scripts, and the list keeps its order. *)
Theorem listPodcastScripts_after_create
        {Insert Date : Type} (scripts : MemStorage.t Insert Date)
        (insertScript : Insert) (uuid : string) (now : Date) :
  let created := MemStorage.createPodcastScript scripts insertScript uuid now in
  match MemStorage.getPodcastScript scripts uuid with
  | None =>
      MemStorage.listPodcastScripts (fst created)
      = (MemStorage.listPodcastScripts scripts ++ [snd created])%list
  | Some old =>
      exists before after,
        scripts = (before ++ (uuid, old) :: after)%list
        /\ ~ In uuid (map fst before)
        /\ fst created = (before ++ (uuid, snd created) :: after)%list
        /\ MemStorage.listPodcastScripts scripts
           = (map snd before ++ old :: map snd after)%list
        /\ MemStorage.listPodcastScripts (fst created)
           = (map snd before ++ snd created :: map snd after)%list
  end.
Proof.
  cbv zeta. unfold MemStorage.createPodcastScript, MemStorage.getPodcastScript,
    MemStorage.listPodcastScripts, JsMap.values.
  cbn [fst snd].
  destruct (JsMap.get scripts uuid) as [old |] eqn:E.
  - destruct (JsMap_set_taken
                scripts uuid (MemStorage.make insertScript uuid now) old E)
      as [before [after [Hs [Hnot Hset]]]].
    exists before, after. rewrite Hset. rewrite Hs at 1 2.
    rewrite !map_app. repeat split. exact Hnot.
  - rewrite (JsMap_set_fresh _ _ _ E). rewrite map_app. reflexivity.
Qed.

(* ================================================================== *)
(** * The request schema *)
(* ================================================================== *)

Lemma required_Some {A : Type} (accepts : A -> bool) (f : Field A) (v : A) :
  required accepts f = Some v <-> f = Given v /\ accepts v = true.
Proof.
  unfold required. destruct f as [| x |].
  - split; [discriminate | intros [H _]; discriminate].
  - destruct (accepts x) eqn:E; split.
    + intros H. injection H as <-. split; [reflexivity | exact E].
    + intros [H _]. injection H as <-. reflexivity.
    + discriminate.
    + intros [H Hv]. injection H as <-. congruence.
  - split; [discriminate | intros [H _]; discriminate].
Qed.

Lemma optional_Some {A : Type} (accepts : A -> bool) (f : Field A)
      (o : option A) :
  optional accepts f = Some o <->
  (f = Absent /\ o = None)
  \/ (exists v, f = Given v /\ o = Some v /\ accepts v = true).
Proof.
  unfold optional. destruct f as [| x |].
  - split.
    + intros H. injection H as <-. left. split; reflexivity.
    + intros [[_ ->] | [v [H _]]]; [reflexivity | discriminate].
  - destruct (accepts x) eqn:E; split.
    + intros H. injection H as <-. right. exists x. repeat split. exact E.
    + intros [[H _] | [v [H [-> _]]]]; [discriminate |].
      injection H as <-. reflexivity.
    + discriminate.
    + intros [[H _] | [v [H [_ Hv]]]]; [discriminate |].
      injection H as <-. congruence.
  - split; [discriminate |].
    intros [[H _] | [v [H _]]]; discriminate.
Qed.

Lemma withDefault_Some {A : Type} (accepts : A -> bool) (default : A)
      (f : Field A) (v : A) :
  withDefault accepts default f = Some v <->
  (f = Absent /\ v = default) \/ (f = Given v /\ accepts v = true).
Proof.
  unfold withDefault. destruct f as [| x |].
  - split.
    + intros H. injection H as <-. left. split; reflexivity.
    + intros [[_ ->] | [H _]]; [reflexivity | discriminate].
  - destruct (accepts x) eqn:E; split.
    + intros H. injection H as <-. right. split; [reflexivity | exact E].
    + intros [[H _] | [H _]]; [discriminate |].
      injection H as <-. reflexivity.
    + discriminate.
    + intros [[H _] | [H Hv]]; [discriminate |].
      injection H as <-. congruence.
  - split; [discriminate |].
    intros [[H _] | [H _]]; discriminate.
Qed.

(** X19.  What the request schema lets through: the content is a string of
    at least 10 characters, the input type is "text" or "url", a source
    URL that is given passes the URL test, the style and the duration are
    among the four names each and are "conversational" and "10-20" where
    the request is silent, and the optional members are taken as they
    are.  Nothing else is accepted. *)
Theorem generateScriptSchema_accepts
        {JsNum : Type} (isUrl : string -> bool) (b : RequestBody.t JsNum)
        (v : GenerateScriptRequest.t JsNum) :
  generateScriptSchema isUrl (Object b) = Some v <->
  (RequestBody.inputContent b = Given (GenerateScriptRequest.inputContent v)
   /\ 10 <= String.length (GenerateScriptRequest.inputContent v))
  /\ (RequestBody.inputType b = Given (GenerateScriptRequest.inputType v)
      /\ In (GenerateScriptRequest.inputType v) ["text"; "url"])
  /\ ((RequestBody.sourceUrl b = Absent
       /\ GenerateScriptRequest.sourceUrl v = None)
      \/ (exists url,
             RequestBody.sourceUrl b = Given url
             /\ GenerateScriptRequest.sourceUrl v = Some url
             /\ isUrl url = true))
  /\ ((RequestBody.podcastStyle b = Absent
       /\ GenerateScriptRequest.podcastStyle v = "conversational")
      \/ (RequestBody.podcastStyle b
          = Given (GenerateScriptRequest.podcastStyle v)
          /\ In (GenerateScriptRequest.podcastStyle v) styleNames))
  /\ ((RequestBody.targetDuration b = Absent
       /\ GenerateScriptRequest.targetDuration v = "10-20")
      \/ (RequestBody.targetDuration b
          = Given (GenerateScriptRequest.targetDuration v)
          /\ In (GenerateScriptRequest.targetDuration v) durationNames))
  /\ ((RequestBody.showName b = Absent
       /\ GenerateScriptRequest.showName v = None)
      \/ (exists name,
             RequestBody.showName b = Given name
             /\ GenerateScriptRequest.showName v = Some name))
  /\ ((RequestBody.wordCount b = Absent
       /\ GenerateScriptRequest.wordCount v = None)
      \/ (exists n,
             RequestBody.wordCount b = Given n
             /\ GenerateScriptRequest.wordCount v = Some n))
  /\ ((RequestBody.charCount b = Absent
       /\ GenerateScriptRequest.charCount v = None)
      \/ (exists n,
             RequestBody.charCount b = Given n
             /\ GenerateScriptRequest.charCount v = Some n)).
Proof.
  assert (Hany : forall (A : Type) (f : Field A) (o : option A),
             optional anything f = Some o <->
             (f = Absent /\ o = None)
             \/ (exists x, f = Given x /\ o = Some x)).
  { intros A f o. rewrite optional_Some. split.
    - intros [H | [x [H1 [H2 _]]]]; [left; exact H |].
      right. exists x. split; assumption.
    - intros [H | [x [H1 H2]]]; [left; exact H |].
      right. exists x. repeat split; assumption. }
  rewrite <- !Hany.
  rewrite <- (optional_Some isUrl).
  rewrite <- !includes_In.
  rewrite <- !withDefault_Some.
  rewrite <- (Nat.leb_le 10).
  rewrite <- (required_Some (fun s => (10 <=? String.length s)%nat)).
  rewrite <- (required_Some (includes ["text"; "url"])).
  unfold generateScriptSchema.
  destruct v as [c t u st d n wc cc].
  cbn [GenerateScriptRequest.inputContent GenerateScriptRequest.inputType
       GenerateScriptRequest.sourceUrl GenerateScriptRequest.podcastStyle
       GenerateScriptRequest.targetDuration GenerateScriptRequest.showName
       GenerateScriptRequest.wordCount GenerateScriptRequest.charCount].
  destruct (required _ (RequestBody.inputContent b)) as [c' |];
    [| split; [discriminate | intros [H _]; discriminate]].
  destruct (required _ (RequestBody.inputType b)) as [t' |];
    [| split; [discriminate | intros [_ [H _]]; discriminate]].
  destruct (optional isUrl (RequestBody.sourceUrl b)) as [u' |];
    [| split; [discriminate | intros [_ [_ [H _]]]; discriminate]].
  destruct (withDefault _ _ (RequestBody.podcastStyle b)) as [st' |];
    [| split; [discriminate | intros [_ [_ [_ [H _]]]]; discriminate]].
  destruct (withDefault _ _ (RequestBody.targetDuration b)) as [d' |];
    [| split; [discriminate | intros [_ [_ [_ [_ [H _]]]]]; discriminate]].
  destruct (optional anything (RequestBody.showName b)) as [n' |];
    [| split; [discriminate | intros [_ [_ [_ [_ [_ [H _]]]]]]; discriminate]].
  destruct (optional anything (RequestBody.wordCount b)) as [wc' |];
    [| split; [discriminate
              | intros [_ [_ [_ [_ [_ [_ [H _]]]]]]]; discriminate]].
  destruct (optional anything (RequestBody.charCount b)) as [cc' |];
    [| split; [discriminate
              | intros [_ [_ [_ [_ [_ [_ [_ H]]]]]]]; discriminate]].
  split.
  - intros H. injection H as -> -> -> -> -> -> -> ->. repeat split.
  - intros [H1 [H2 [H3 [H4 [H5 [H6 [H7 H8]]]]]]]. congruence.
Qed.

(* ================================================================== *)
(** * The routes *)
(* ================================================================== *)

Lemma fetchContentFromUrl_error (fetch : Fetch) (e : Thrown) :
  fetchContentFromUrl fetch = inl e ->
  exists cause,
    messageOf e = "Failed to fetch content from URL: " ++ cause.
Proof.
  unfold fetchContentFromUrl.
  destruct (match fetch with
            | FetchRejects error => inl error
            | FetchResolves response => _
            end) as [error | fetched]; [| discriminate].
  intros H. injection H as <-. exists (messageOf error). reflexivity.
Qed.

Lemma fetched_long (fetch : Fetch) (fetched : FetchedContent.t) :
  fetchContentFromUrl fetch = inr fetched ->
  50 <= String.length (FetchedContent.content fetched).
Proof.
  intros H. apply fetched_extract in H. destruct H as [dom H].
  rewrite extract_unfold in H. cbv zeta in H.
  destruct (String.length (cleanUp (rawContent dom)) <? 50)%nat eqn:Elen;
    [discriminate |].
  injection H as <-. cbn [FetchedContent.content].
  apply Nat.ltb_ge in Elen. exact Elen.
Qed.

Section RouteProperties.

Context {JsNum Script Date : Type}.
Variable isUrl : string -> bool.
Variable zodMessage : Body JsNum -> string.
Variable network : string -> Fetch.
Variable generate : PodcastScriptOptions.t -> Thrown + Script.

Local Abbreviation postGenerate :=
  (Routes.postGenerate JsNum Script Date isUrl zodMessage network generate).
Local Abbreviation generateAndSave :=
  (Routes.generateAndSave JsNum Script Date generate).
Local Abbreviation getScript := (Routes.getScript JsNum Script Date).
Local Abbreviation Storage := (Routes.Storage JsNum Script Date).
Local Abbreviation Stored := (Routes.Stored JsNum Script Date).

Lemma generateAndSave_outcomes
      (scripts : Storage) (v : GenerateScriptRequest.t JsNum)
      (uuid : string) (now : Date) :
  (exists script,
      generate (Routes.optionsOf JsNum v (GenerateScriptRequest.inputContent v))
      = inr script
      /\ generateAndSave scripts v uuid now
         = (Json (MemStorage.make (InsertPodcastScript.make v script) uuid now),
            JsMap.set scripts uuid
                      (MemStorage.make (InsertPodcastScript.make v script)
                                       uuid now)))
  \/ (exists error,
         generate (Routes.optionsOf JsNum v
                                    (GenerateScriptRequest.inputContent v))
         = inl error
         /\ generateAndSave scripts v uuid now
            = (Failure 500 "Failed to generate podcast script"
                       (messageOf error),
               scripts)).
Proof.
  unfold Routes.generateAndSave.
  destruct (generate _) as [error | script].
  - right. exists error. split; reflexivity.
  - left. exists script. split; reflexivity.
Qed.

(** X20.  The route that generates answers in one of three ways.  With the
    saved script: it carries the id and the date it was given, it is in
    the storage under that id, and its script was generated from the
    content, style, duration and show name that are stored with it.  With
    status 400 when the page could not be fetched, or with status 500: in
    both cases the storage is as it was. *)
Theorem postGenerate_outcomes
        (scripts : Storage) (body : Body JsNum) (uuid : string) (now : Date) :
  match postGenerate scripts body uuid now with
  | (Json saved, scripts') =>
      MemStorage.id saved = uuid
      /\ MemStorage.createdAt saved = now
      /\ MemStorage.getPodcastScript scripts' uuid = Some saved
      /\ generate
           (PodcastScriptOptions.make
              (GenerateScriptRequest.inputContent
                 (InsertPodcastScript.request (MemStorage.fields saved)))
              (GenerateScriptRequest.podcastStyle
                 (InsertPodcastScript.request (MemStorage.fields saved)))
              (GenerateScriptRequest.targetDuration
                 (InsertPodcastScript.request (MemStorage.fields saved)))
              (GenerateScriptRequest.showName
                 (InsertPodcastScript.request (MemStorage.fields saved))))
         = inr (InsertPodcastScript.script (MemStorage.fields saved))
  | (Message _ _, _) => False
  | (Failure status message _, scripts') =>
      scripts' = scripts
      /\ ((status = 400 /\ message = "Failed to fetch content from URL")
          \/ (status = 500 /\ message = "Failed to generate podcast script"))
  end.
Proof.
  assert (Hsave : forall v,
             match generateAndSave scripts v uuid now with
             | (Json saved, scripts') =>
                 MemStorage.id saved = uuid
                 /\ MemStorage.createdAt saved = now
                 /\ MemStorage.getPodcastScript scripts' uuid = Some saved
                 /\ generate
                      (PodcastScriptOptions.make
                         (GenerateScriptRequest.inputContent
                            (InsertPodcastScript.request (MemStorage.fields saved)))
                         (GenerateScriptRequest.podcastStyle
                            (InsertPodcastScript.request (MemStorage.fields saved)))
                         (GenerateScriptRequest.targetDuration
                            (InsertPodcastScript.request (MemStorage.fields saved)))
                         (GenerateScriptRequest.showName
                            (InsertPodcastScript.request (MemStorage.fields saved))))
                    = inr (InsertPodcastScript.script (MemStorage.fields saved))
             | (Message _ _, _) => False
             | (Failure status message _, scripts') =>
                 scripts' = scripts
                 /\ ((status = 400
                      /\ message = "Failed to fetch content from URL")
                     \/ (status = 500
                         /\ message = "Failed to generate podcast script"))
             end).
  { intros v.
    destruct (generateAndSave_outcomes scripts v uuid now)
      as [[script [Hg ->]] | [error [Hg ->]]].
    - cbn [MemStorage.id MemStorage.createdAt MemStorage.fields
           InsertPodcastScript.request InsertPodcastScript.script].
      repeat split.
      + apply JsMap_get_set_same.
      + exact Hg.
    - split; [reflexivity |]. right. split; reflexivity. }
  unfold Routes.postGenerate.
  destruct (generateScriptSchema isUrl body) as [v |].
  - destruct (Routes.urlToFetch JsNum v) as [url |].
    + destruct (fetchContentFromUrl (network url)) as [error | fetched].
      * split; [reflexivity |]. left. split; reflexivity.
      * apply Hsave.
    + apply Hsave.
  - split; [reflexivity |]. right. split; reflexivity.
Qed.

(** X21.  Validation comes first.  A body whose content is not a string of
    at least 10 characters is answered with status 500 and the message of
    the validation error, whatever the network and the generator would
    do, and also when the request names a URL whose page would replace
    the content. *)
Theorem postGenerate_validates_first
        (scripts : Storage) (b : RequestBody.t JsNum)
        (uuid : string) (now : Date) :
  (forall s, RequestBody.inputContent b = Given s -> String.length s < 10) ->
  postGenerate scripts (Object b) uuid now
  = (Failure 500 "Failed to generate podcast script" (zodMessage (Object b)),
     scripts).
Proof.
  intros H. unfold Routes.postGenerate, generateScriptSchema.
  replace (required (fun s => (10 <=? String.length s)%nat)
                    (RequestBody.inputContent b))
    with (@None string); [reflexivity |].
  unfold required. destruct (RequestBody.inputContent b) as [| s |] eqn:E;
    try reflexivity.
  specialize (H s eq_refl).
  destruct (Nat.leb_spec 10 (String.length s)); [lia | reflexivity].
Qed.

(** X22.  A request of type "url" with a source URL is answered from the
    page: when the page cannot be fetched the answer is status 400 with
    the message of the failure; a saved script holds the content of the
    page, which has at least 50 characters, in place of the content that
    was sent, while the word and character counts are those that were
    sent. *)
Theorem postGenerate_url_replaces_content
        (scripts : Storage) (body : Body JsNum) (uuid : string) (now : Date)
        (v : GenerateScriptRequest.t JsNum) (url : string) :
  generateScriptSchema isUrl body = Some v ->
  GenerateScriptRequest.inputType v = "url" ->
  GenerateScriptRequest.sourceUrl v = Some url ->
  url <> "" ->
  (forall error,
      fetchContentFromUrl (network url) = inl error ->
      postGenerate scripts body uuid now
      = (Failure 400 "Failed to fetch content from URL" (messageOf error),
         scripts))
  /\ (forall saved scripts',
         postGenerate scripts body uuid now = (Json saved, scripts') ->
         exists fetched,
           fetchContentFromUrl (network url) = inr fetched
           /\ GenerateScriptRequest.inputContent
                (InsertPodcastScript.request (MemStorage.fields saved))
              = FetchedContent.content fetched
           /\ 50 <= String.length
                      (GenerateScriptRequest.inputContent
                         (InsertPodcastScript.request (MemStorage.fields saved)))
           /\ GenerateScriptRequest.wordCount
                (InsertPodcastScript.request (MemStorage.fields saved))
              = GenerateScriptRequest.wordCount v
           /\ GenerateScriptRequest.charCount
                (InsertPodcastScript.request (MemStorage.fields saved))
              = GenerateScriptRequest.charCount v
           /\ GenerateScriptRequest.sourceUrl
                (InsertPodcastScript.request (MemStorage.fields saved))
              = Some url).
Proof.
  intros Hv Ht Hu Hne.
  assert (Hurl : Routes.urlToFetch JsNum v = Some url).
  { unfold Routes.urlToFetch. rewrite Ht, Hu.
    change ("url" =? "url") with true. cbv iota.
    destruct (String.eqb_spec url ""); [contradiction | reflexivity]. }
  unfold Routes.postGenerate. rewrite Hv, Hurl. split.
  - intros error E. rewrite E. reflexivity.
  - intros saved scripts' H.
    destruct (fetchContentFromUrl (network url)) as [error | fetched] eqn:E;
      [discriminate |].
    exists fetched. split; [reflexivity |].
    destruct (generateAndSave_outcomes
                scripts (Routes.withContent JsNum v
                                            (FetchedContent.content fetched))
                uuid now)
      as [[script [_ Hs]] | [error [_ Hs]]];
      rewrite Hs in H; [| discriminate].
    injection H as <- <-.
    cbn [MemStorage.fields InsertPodcastScript.request Routes.withContent
         GenerateScriptRequest.inputContent GenerateScriptRequest.wordCount
         GenerateScriptRequest.charCount GenerateScriptRequest.sourceUrl].
    repeat split.
    + exact (fetched_long _ _ E).
    + exact Hu.
Qed.

(** X23.  A script that the generating route answered with is what the
    reading route answers with when asked for its id, and the reading
    route answers as before for every other id. *)
Theorem postGenerate_then_getScript
        (scripts : Storage) (body : Body JsNum) (uuid : string) (now : Date)
        (saved : Stored) (scripts' : Storage) :
  postGenerate scripts body uuid now = (Json saved, scripts') ->
  getScript scripts' (MemStorage.id saved) = Json saved
  /\ forall other,
       other <> MemStorage.id saved ->
       getScript scripts' other = getScript scripts other.
Proof.
  intros H.
  assert (Hs : exists v script,
             saved = MemStorage.make (InsertPodcastScript.make v script) uuid now
             /\ scripts' = JsMap.set scripts uuid saved).
  { unfold Routes.postGenerate in H.
    destruct (generateScriptSchema isUrl body) as [v |]; [| discriminate].
    destruct (Routes.urlToFetch JsNum v) as [url |].
    - destruct (fetchContentFromUrl (network url)) as [error | fetched];
        [discriminate |].
      destruct (generateAndSave_outcomes
                  scripts (Routes.withContent JsNum v
                                              (FetchedContent.content fetched))
                  uuid now)
        as [[script [_ Hs]] | [error [_ Hs]]];
        rewrite Hs in H; [| discriminate].
      injection H as <- <-. eexists. eexists. split; reflexivity.
    - destruct (generateAndSave_outcomes scripts v uuid now)
        as [[script [_ Hs]] | [error [_ Hs]]];
        rewrite Hs in H; [| discriminate].
      injection H as <- <-. eexists. eexists. split; reflexivity. }
  destruct Hs as [v [script [-> ->]]]. cbn [MemStorage.id].
  unfold Routes.getScript, MemStorage.getPodcastScript. split.
  - rewrite JsMap_get_set_same. reflexivity.
  - intros other Hne. rewrite (JsMap_get_set_other _ _ _ _ Hne). reflexivity.
Qed.

(** X26.  While the storage keeps its invariant, the reading route answers
    with a script exactly when that script is listed and has the id asked
    for, and with status 404 exactly when no listed script has that id. *)
Theorem getScript_found_iff_listed
        (scripts : Storage) (id : string) (script : Stored) :
  MemStorage.consistent scripts ->
  NoDup (map fst scripts) ->
  (getScript scripts id = Json script <->
   In script (MemStorage.listPodcastScripts scripts)
   /\ MemStorage.id script = id)
  /\ (getScript scripts id = Message 404 "Script not found" <->
      forall listed,
        In listed (MemStorage.listPodcastScripts scripts) ->
        MemStorage.id listed <> id).
Proof.
  intros Hc Hnd.
  unfold Routes.getScript, MemStorage.getPodcastScript,
    MemStorage.listPodcastScripts, JsMap.values.
  split.
  - split.
    + destruct (JsMap.get scripts id) as [found |] eqn:E; [| discriminate].
      intros H. injection H as <-. apply JsMap_get_In in E. split.
      * apply (in_map snd) in E. exact E.
      * exact (Hc _ _ E).
    + intros [Hin Hid]. apply in_map_iff in Hin.
      destruct Hin as [[k s] [Hs Hin]]. cbn [snd] in Hs. subst s.
      pose proof (Hc _ _ Hin) as Hk. rewrite Hid in Hk. subst k.
      rewrite (JsMap_In_get _ _ _ Hnd Hin). reflexivity.
  - split.
    + destruct (JsMap.get scripts id) as [found |] eqn:E; [discriminate |].
      intros _ listed Hin Hid. apply in_map_iff in Hin.
      destruct Hin as [[k s] [Hs Hin]]. cbn [snd] in Hs. subst s.
      pose proof (Hc _ _ Hin) as Hk. rewrite Hid in Hk. subst k.
      rewrite (JsMap_In_get _ _ _ Hnd Hin) in E. discriminate.
    + intros H. destruct (JsMap.get scripts id) as [found |] eqn:E;
        [| reflexivity].
      exfalso. apply JsMap_get_In in E.
      apply (H found).
      * apply (in_map snd) in E. exact E.
      * exact (Hc _ _ E).
Qed.

End RouteProperties.

Lemma postGenerate_validates_first_witness :
  Routes.postGenerate nat nat nat anyUrl invalidInput foxNetwork
                      countingGenerator MemStorage.create
                      (Object shortRequest) "a1" 2026
  = (Failure 500 "Failed to generate podcast script" "Invalid input",
     MemStorage.create).
Proof.
  apply (postGenerate_validates_first
           anyUrl invalidInput foxNetwork countingGenerator
           MemStorage.create shortRequest "a1" 2026).
  intros s H. injection H as <-. cbn. lia.
Defined.

Lemma postGenerate_url_replaces_content_witness :
  Routes.postGenerate nat nat nat anyUrl invalidInput noNetwork
                      countingGenerator MemStorage.create
                      (Object urlRequest) "a1" 2026
  = (Failure 400 "Failed to fetch content from URL"
             "Failed to fetch content from URL: getaddrinfo ENOTFOUND",
     MemStorage.create).
Proof.
  apply (proj1 (postGenerate_url_replaces_content
                  anyUrl invalidInput noNetwork countingGenerator
                  MemStorage.create (Object urlRequest) "a1" 2026
                  (GenerateScriptRequest.make
                     "placeholder text" "url" (Some "https://example.org/fox")
                     "conversational" "10-20" None (Some 2) (Some 16))
                  "https://example.org/fox"
                  eq_refl eq_refl eq_refl ltac:(discriminate))
               (ErrorObject
                  "Failed to fetch content from URL: getaddrinfo ENOTFOUND")).
  reflexivity.
Defined.

Lemma postGenerate_then_getScript_witness :
  exists saved,
    Routes.getScript nat nat nat
      (snd (Routes.postGenerate nat nat nat anyUrl invalidInput foxNetwork
                                countingGenerator MemStorage.create
                                (Object urlRequest) "a1" 2026))
      "a1"
    = Json saved
    /\ GenerateScriptRequest.inputContent
         (InsertPodcastScript.request (MemStorage.fields saved))
       = "The quick brown fox jumps over the lazy dog while the band plays on and on until everybody in the hall has gone home."
    /\ InsertPodcastScript.script (MemStorage.fields saved) = 117.
Proof.
  assert (E : exists saved scripts',
             Routes.postGenerate nat nat nat anyUrl invalidInput foxNetwork
                                 countingGenerator MemStorage.create
                                 (Object urlRequest) "a1" 2026
             = (Json saved, scripts')
             /\ MemStorage.id saved = "a1"
             /\ GenerateScriptRequest.inputContent
                  (InsertPodcastScript.request (MemStorage.fields saved))
                = "The quick brown fox jumps over the lazy dog while the band plays on and on until everybody in the hall has gone home."
             /\ InsertPodcastScript.script (MemStorage.fields saved) = 117).
  { eexists. eexists. vm_compute. repeat split. }
  destruct E as [saved [scripts' [E [Hid [Hc Hs]]]]].
  exists saved. rewrite E. cbn [snd]. rewrite <- Hid.
  split; [| split; assumption].
  exact (proj1 (postGenerate_then_getScript
                  anyUrl invalidInput foxNetwork countingGenerator
                  MemStorage.create (Object urlRequest) "a1" 2026
                  saved scripts' E)).
Defined.

Lemma getScript_found_iff_listed_witness :
  Routes.getScript nat nat nat twoScripts "b2" = Json foxScript
  /\ Routes.getScript nat nat nat twoScripts "c3"
     = Message 404 "Script not found".
Proof.
  split.
  - apply (proj1 (getScript_found_iff_listed
                    twoScripts "b2" foxScript
                    twoScripts_consistent twoScripts_NoDup)).
    split; [right; left; reflexivity | reflexivity].
  - apply (proj2 (getScript_found_iff_listed
                    twoScripts "c3" foxScript
                    twoScripts_consistent twoScripts_NoDup)).
    intros listed [<- | [<- | []]]; discriminate.
Defined.

(** X24.  When the generator is the facade that falls back on the
    synthesizer, the generating route answers with status 500 only for a
    body that fails validation: neither the model nor the page can cause
    it. *)
Theorem postGenerate_with_fallback_500
        {JsNum Json Date : Type} (isUrl : string -> bool)
        (zodMessage : Body JsNum -> string) (network : string -> Fetch)
        (JSON_parse : string -> Thrown + Json)
        (askModel : PodcastScriptOptions.t -> ModelCall)
        (scripts : Routes.Storage JsNum (Returned Json) Date)
        (body : Body JsNum) (uuid : string) (now : Date) :
  (exists message error,
      fst (Routes.postGenerate
             JsNum (Returned Json) Date isUrl zodMessage network
             (fun options =>
                generatePodcastScript Json JSON_parse options (askModel options))
             scripts body uuid now)
      = Failure 500 message error)
  <-> generateScriptSchema isUrl body = None.
Proof.
  unfold Routes.postGenerate.
  destruct (generateScriptSchema isUrl body) as [v |].
  - split; [| discriminate]. intros [message [error H]]. exfalso.
    assert (Hsave : forall w,
               fst (Routes.generateAndSave
                      JsNum (Returned Json) Date
                      (fun options =>
                         generatePodcastScript Json JSON_parse options
                                               (askModel options))
                      scripts w uuid now)
               <> Failure 500 message error).
    { intros w. unfold Routes.generateAndSave.
      pose proof (generatePodcastScript_total
                    Json JSON_parse
                    (Routes.optionsOf JsNum w
                                      (GenerateScriptRequest.inputContent w))
                    (askModel
                       (Routes.optionsOf JsNum w
                                         (GenerateScriptRequest.inputContent w))))
        as Ht.
      destruct (generatePodcastScript Json JSON_parse _ _) as [e | s].
      - exfalso. destruct Ht as [[r Hr] _]. discriminate.
      - cbn. discriminate. }
    destruct (Routes.urlToFetch JsNum v) as [url |].
    + destruct (fetchContentFromUrl (network url)) as [e | fetched].
      * cbn [fst] in H. discriminate.
      * exact (Hsave _ H).
    + exact (Hsave _ H).
  - split; [reflexivity |]. intros _.
    exists "Failed to generate podcast script", (zodMessage body). reflexivity.
Qed.

(** X25.  The route that fetches answers with status 400 exactly when the
    body holds no URL, an empty one, or one that is not a string.
    Otherwise it answers with what the extractor returns, or with status
    500 and the message of the extractor, which begins with
    "Failed to fetch content from URL: ". *)
Theorem postFetch_outcomes
        (typeErrorMessage : string) (network : string -> Fetch)
        (f : Field string) :
  (Routes.postFetch typeErrorMessage network (UrlMember f)
   = Message 400 "URL is required"
   <-> forall url, f = Given url -> url = "")
  /\ (forall url,
         f = Given url ->
         url <> "" ->
         match fetchContentFromUrl (network url) with
         | inr fetched =>
             Routes.postFetch typeErrorMessage network (UrlMember f)
             = Json fetched
         | inl _ =>
             exists cause,
               Routes.postFetch typeErrorMessage network (UrlMember f)
               = Failure 500 "Failed to fetch content from URL"
                         ("Failed to fetch content from URL: " ++ cause)
         end).
Proof.
  unfold Routes.postFetch. split.
  - destruct f as [| url |].
    + split; [intros _ url H; discriminate | reflexivity].
    + destruct (String.eqb_spec url "") as [-> | Hne].
      * split; [| reflexivity]. intros _ u H. injection H as <-. reflexivity.
      * split.
        -- destruct (fetchContentFromUrl (network url)); discriminate.
        -- intros H. exfalso. apply Hne. apply H. reflexivity.
    + split; [intros _ url H; discriminate | reflexivity].
  - intros url -> Hne.
    destruct (String.eqb_spec url ""); [contradiction |].
    destruct (fetchContentFromUrl (network url)) as [e | fetched] eqn:E;
      [| reflexivity].
    destruct (fetchContentFromUrl_error _ _ E) as [cause Hc].
    exists cause. rewrite Hc. reflexivity.
Qed.

(* ================================================================== *)
(** * The page *)
(* ================================================================== *)

Lemma countTokens_trimStart (s : string) :
  countTokens_from (trimStart s) false = countTokens_from s false.
Proof.
  induction s as [| c r IH]; [reflexivity |].
  cbn [trimStart]. destruct (isSpace c) eqn:Ec.
  - rewrite IH. cbn [countTokens_from]. rewrite Ec. reflexivity.
  - reflexivity.
Qed.

Lemma countTokens_trimEnd (s : string) (b : bool) :
  countTokens_from (trimEnd s) b = countTokens_from s b.
Proof.
  revert b. induction s as [| c r IH]; intros b; [reflexivity |].
  cbn [trimEnd]. destruct (isSpace c) eqn:Ec; cbn [andb].
  - destruct (String.eqb_spec (trimEnd r) "") as [E | Hne].
    + cbn [countTokens_from]. rewrite Ec, <- IH, E. reflexivity.
    + cbn [countTokens_from]. rewrite Ec, IH. reflexivity.
  - cbn [countTokens_from]. rewrite Ec, IH. reflexivity.
Qed.

Lemma countTokens_trim (s : string) : countTokens (trim s) = countTokens s.
Proof.
  unfold countTokens, trim.
  rewrite countTokens_trimEnd. apply countTokens_trimStart.
Qed.

Lemma trimStart_length (s : string) :
  String.length (trimStart s) <= String.length s.
Proof.
  induction s as [| c r IH]; [apply le_n |].
  cbn [trimStart]. destruct (isSpace c); cbn [String.length]; lia.
Qed.

Lemma trimEnd_length (s : string) :
  String.length (trimEnd s) <= String.length s.
Proof.
  induction s as [| c r IH]; [apply le_n |].
  cbn [trimEnd]. destruct (isSpace c && (trimEnd r =? ""));
    cbn [String.length]; lia.
Qed.

Lemma trim_length (s : string) : String.length (trim s) <= String.length s.
Proof.
  unfold trim. pose proof (trimEnd_length (trimStart s)).
  pose proof (trimStart_length s). lia.
Qed.

(** X27.  The word counter of the page shows the number of
    whitespace-delimited tokens of the text, that is of its maximal runs
    of characters other than whitespace; the test for a blank text and the
    [trim] before the [split] make the count of the pieces agree with it. *)
Theorem wordCount_counts_tokens (inputText : string) :
  Home.wordCount inputText = countTokens inputText.
Proof.
  unfold Home.wordCount. rewrite <- countTokens_trim.
  destruct (String.eqb_spec (trim inputText) "") as [E | Hne].
  - rewrite E. reflexivity.
  - apply split_trim_countTokens. exact Hne.
Qed.

Lemma handleGenerateScript_Some (state : Home.State) (data : RequestBody.t nat) :
  Home.handleGenerateScript state = Some data ->
  exists content,
    Home.contentOf state = Some content
    /\ 10 <= String.length (trim content)
    /\ data
       = RequestBody.make
           (Given content)
           (Given (Home.tabName (Home.inputTab state)))
           (match Home.inputTab state with
            | Home.UrlTab => Given (Home.inputUrl state)
            | Home.TextTab => Absent
            end)
           (Given (Home.styleName (Home.podcastStyle state)))
           (Given (Home.durationName (Home.targetDuration state)))
           (if Home.showName state =? "" then Absent
            else Given (Home.showName state))
           (Given (countTokens content))
           (Given (String.length content)).
Proof.
  unfold Home.handleGenerateScript.
  destruct (Home.contentOf state) as [content |]; [| discriminate].
  destruct (content =? ""); cbn [orb]; [discriminate |].
  destruct (Nat.ltb_spec (String.length (trim content)) 10) as [Hlt | Hge];
    [discriminate |].
  intros H. injection H as <-. exists content.
  split; [reflexivity |]. split; [exact Hge |].
  f_equal. f_equal. rewrite <- countTokens_trim.
  apply split_trim_countTokens.
  intros E. rewrite E in Hge. cbn in Hge. lia.
Qed.

Lemma page_request_schema (isUrl : string -> bool) (state : Home.State)
      (data : RequestBody.t nat) :
  Home.handleGenerateScript state = Some data ->
  exists content,
    Home.contentOf state = Some content
    /\ 10 <= String.length content
    /\ generateScriptSchema isUrl (Object data)
       = match Home.inputTab state with
         | Home.UrlTab =>
             if isUrl (Home.inputUrl state)
             then Some (GenerateScriptRequest.make
                          content "url" (Some (Home.inputUrl state))
                          (Home.styleName (Home.podcastStyle state))
                          (Home.durationName (Home.targetDuration state))
                          (if Home.showName state =? "" then None
                           else Some (Home.showName state))
                          (Some (countTokens content))
                          (Some (String.length content)))
             else None
         | Home.TextTab =>
             Some (GenerateScriptRequest.make
                     content "text" None
                     (Home.styleName (Home.podcastStyle state))
                     (Home.durationName (Home.targetDuration state))
                     (if Home.showName state =? "" then None
                      else Some (Home.showName state))
                     (Some (countTokens content))
                     (Some (String.length content)))
         end.
Proof.
  intros H. apply handleGenerateScript_Some in H.
  destruct H as [content [Hc [Hlen ->]]].
  pose proof (trim_length content) as Htrim.
  exists content. split; [exact Hc |]. split; [lia |].
  unfold generateScriptSchema.
  cbn [RequestBody.inputContent RequestBody.inputType RequestBody.sourceUrl
       RequestBody.podcastStyle RequestBody.targetDuration RequestBody.showName
       RequestBody.wordCount RequestBody.charCount].
  assert (E1 : required (fun s => (10 <=? String.length s)%nat) (Given content)
               = Some content).
  { unfold required.
    destruct (Nat.leb_spec 10 (String.length content)); [reflexivity | lia]. }
  assert (E3 : withDefault (includes styleNames) "conversational"
                           (Given (Home.styleName (Home.podcastStyle state)))
               = Some (Home.styleName (Home.podcastStyle state))).
  { destruct (Home.podcastStyle state); reflexivity. }
  assert (E4 : withDefault (includes durationNames) "10-20"
                           (Given (Home.durationName
                                     (Home.targetDuration state)))
               = Some (Home.durationName (Home.targetDuration state))).
  { destruct (Home.targetDuration state); reflexivity. }
  assert (E5 : optional anything
                        (if Home.showName state =? "" then Absent
                         else Given (Home.showName state))
               = Some (if Home.showName state =? "" then None
                       else Some (Home.showName state))).
  { destruct (Home.showName state =? ""); reflexivity. }
  rewrite E1, E3, E4, E5. cbn [optional anything].
  destruct (Home.inputTab state); cbn [Home.tabName optional].
  - reflexivity.
  - destruct (isUrl (Home.inputUrl state)); reflexivity.
Qed.

(** X28.  The request that the page sends passes the validation of the
    server, unless it is sent from the URL tab with an address that fails
    the URL test.  The validated request has the content of the page, the
    chosen style and duration, and a show name only when one was typed:
    an empty show name is never sent, so that the default of the
    synthesizer, "The Show", stands in for it. *)
Theorem handleGenerateScript_request_validates
        (isUrl : string -> bool) (state : Home.State)
        (data : RequestBody.t nat) :
  Home.handleGenerateScript state = Some data ->
  (generateScriptSchema isUrl (Object data) = None <->
   Home.inputTab state = Home.UrlTab /\ isUrl (Home.inputUrl state) = false)
  /\ (forall v,
         generateScriptSchema isUrl (Object data) = Some v ->
         Home.contentOf state = Some (GenerateScriptRequest.inputContent v)
         /\ GenerateScriptRequest.inputType v
            = Home.tabName (Home.inputTab state)
         /\ GenerateScriptRequest.podcastStyle v
            = Home.styleName (Home.podcastStyle state)
         /\ GenerateScriptRequest.targetDuration v
            = Home.durationName (Home.targetDuration state)
         /\ GenerateScriptRequest.showName v <> Some ""
         /\ showNameOf (GenerateScriptRequest.showName v)
            = orElse (Some (Home.showName state)) "The Show"
         /\ GenerateScriptRequest.wordCount v
            = Some (countTokens (GenerateScriptRequest.inputContent v))
         /\ GenerateScriptRequest.charCount v
            = Some (String.length (GenerateScriptRequest.inputContent v))).
Proof.
  intros H. destruct (page_request_schema isUrl state data H)
    as [content [Hc [_ ->]]].
  assert (Hname : (if Home.showName state =? "" then None
                   else Some (Home.showName state)) <> Some ""
                  /\ showNameOf (if Home.showName state =? "" then None
                                 else Some (Home.showName state))
                     = orElse (Some (Home.showName state)) "The Show").
  { unfold orElse, showNameOf.
    destruct (String.eqb_spec (Home.showName state) "") as [E | Hne].
    - split; [discriminate | reflexivity].
    - split; [| reflexivity]. intros Hs. injection Hs as Hs. contradiction. }
  destruct Hname as [Hn1 Hn2].
  destruct (Home.inputTab state).
  - split.
    + split; [discriminate | intros [Hu _]; discriminate].
    + intros v Hv. injection Hv as <-.
      cbn [GenerateScriptRequest.inputContent GenerateScriptRequest.inputType
           GenerateScriptRequest.podcastStyle
           GenerateScriptRequest.targetDuration GenerateScriptRequest.showName
           GenerateScriptRequest.wordCount GenerateScriptRequest.charCount].
      repeat split; assumption.
  - destruct (isUrl (Home.inputUrl state)).
    + split.
      * split; [discriminate | intros [_ Hu]; discriminate].
      * intros v Hv. injection Hv as <-.
        cbn [GenerateScriptRequest.inputContent GenerateScriptRequest.inputType
             GenerateScriptRequest.podcastStyle
             GenerateScriptRequest.targetDuration
             GenerateScriptRequest.showName
             GenerateScriptRequest.wordCount GenerateScriptRequest.charCount].
        repeat split; assumption.
    + split.
      * split; [intros _; split; reflexivity | reflexivity].
      * intros v Hv. discriminate.
Qed.

Lemma handleGenerateScript_request_validates_witness :
  generateScriptSchema anyUrl
    (Object (RequestBody.make
               (Given "Tea is the most widely drunk beverage after water.")
               (Given "text") Absent (Given "educational") (Given "5-10")
               Absent (Given 9) (Given 50)))
  = None
  <-> Home.inputTab typedState = Home.UrlTab
      /\ anyUrl (Home.inputUrl typedState) = false.
Proof.
  apply (proj1 (handleGenerateScript_request_validates
                  anyUrl typedState
                  (RequestBody.make
                     (Given "Tea is the most widely drunk beverage after water.")
                     (Given "text") Absent (Given "educational") (Given "5-10")
                     Absent (Given 9) (Given 50))
                  eq_refl)).
Defined.

(** X29.  What is stored for a request of the page.  From the text tab:
    the content of the page, with the number of its words and of its
    characters.  From the URL tab: the content of the page that the server
    fetches from the address, while the two counts are those of the
    content that the page had, which is discarded. *)
Theorem page_request_stored
        {Script Date : Type} (isUrl : string -> bool)
        (zodMessage : Body nat -> string) (network : string -> Fetch)
        (generate : PodcastScriptOptions.t -> Thrown + Script)
        (scripts : Routes.Storage nat Script Date)
        (state : Home.State) (data : RequestBody.t nat)
        (uuid : string) (now : Date)
        (saved : Routes.Stored nat Script Date)
        (scripts' : Routes.Storage nat Script Date) :
  Home.handleGenerateScript state = Some data ->
  (Home.inputTab state = Home.UrlTab -> Home.inputUrl state <> "") ->
  Routes.postGenerate nat Script Date isUrl zodMessage network generate
                      scripts (Object data) uuid now
  = (Json saved, scripts') ->
  exists content,
    Home.contentOf state = Some content
    /\ GenerateScriptRequest.wordCount
         (InsertPodcastScript.request (MemStorage.fields saved))
       = Some (countTokens content)
    /\ GenerateScriptRequest.charCount
         (InsertPodcastScript.request (MemStorage.fields saved))
       = Some (String.length content)
    /\ match Home.inputTab state with
       | Home.TextTab =>
           GenerateScriptRequest.inputContent
             (InsertPodcastScript.request (MemStorage.fields saved))
           = content
       | Home.UrlTab =>
           exists fetched,
             fetchContentFromUrl (network (Home.inputUrl state)) = inr fetched
             /\ GenerateScriptRequest.inputContent
                  (InsertPodcastScript.request (MemStorage.fields saved))
                = FetchedContent.content fetched
       end.
Proof.
  intros H Hurl Hpost.
  destruct (page_request_schema isUrl state data H) as [content [Hc [_ Hs]]].
  exists content. split; [exact Hc |].
  unfold Routes.postGenerate in Hpost. rewrite Hs in Hpost. clear Hs.
  destruct (Home.inputTab state).
  - clear Hurl. cbn [Routes.urlToFetch GenerateScriptRequest.inputType String.eqb
         Ascii.eqb Bool.eqb] in Hpost.
    unfold Routes.generateAndSave in Hpost.
    destruct (generate _) as [e | script]; [discriminate |].
    injection Hpost as <- <-.
    cbn. repeat split.
  - specialize (Hurl eq_refl).
    destruct (isUrl (Home.inputUrl state)); [| discriminate].
    assert (E : Routes.urlToFetch
                  nat
                  (GenerateScriptRequest.make
                     content "url" (Some (Home.inputUrl state))
                     (Home.styleName (Home.podcastStyle state))
                     (Home.durationName (Home.targetDuration state))
                     (if Home.showName state =? "" then None
                      else Some (Home.showName state))
                     (Some (countTokens content))
                     (Some (String.length content)))
                = Some (Home.inputUrl state)).
    { unfold Routes.urlToFetch.
      cbn [GenerateScriptRequest.inputType GenerateScriptRequest.sourceUrl].
      change ("url" =? "url") with true. cbv iota.
      destruct (String.eqb_spec (Home.inputUrl state) "");
        [contradiction | reflexivity]. }
    rewrite E in Hpost.
    destruct (fetchContentFromUrl (network (Home.inputUrl state)))
      as [e | fetched]; [discriminate |].
    unfold Routes.generateAndSave in Hpost.
    destruct (generate _) as [e | script]; [discriminate |].
    injection Hpost as <- <-.
    cbn. repeat split. exists fetched. split; reflexivity.
Qed.

Lemma page_request_stored_witness :
  exists content,
    Home.contentOf fetchedState = Some content
    /\ Some 24 = Some (countTokens content).
Proof.
  destruct (page_request_stored
              (Script := nat) (Date := nat)
              anyUrl invalidInput foxNetwork countingGenerator
              MemStorage.create fetchedState
              (RequestBody.make
                 (Given "The quick brown fox jumps over the lazy dog while the band plays on and on until everybody in the hall has gone home.")
                 (Given "url") (Given "https://example.org/fox")
                 (Given "conversational") (Given "10-20") (Given "Fox Hour")
                 (Given 24) (Given 117))
              "a1" 2026
              (MemStorage.make
                 (InsertPodcastScript.make
                    (GenerateScriptRequest.make
                       "The quick brown fox jumps over the lazy dog while the band plays on and on until everybody in the hall has gone home."
                       "url" (Some "https://example.org/fox")
                       "conversational" "10-20" (Some "Fox Hour")
                       (Some 24) (Some 117))
                    117)
                 "a1" 2026)
              (JsMap.set
                 MemStorage.create "a1"
                 (MemStorage.make
                    (InsertPodcastScript.make
                       (GenerateScriptRequest.make
                          "The quick brown fox jumps over the lazy dog while the band plays on and on until everybody in the hall has gone home."
                          "url" (Some "https://example.org/fox")
                          "conversational" "10-20" (Some "Fox Hour")
                          (Some 24) (Some 117))
                       117)
                    "a1" 2026))
              ltac:(vm_compute; reflexivity)
              ltac:(intros _; discriminate)
              ltac:(vm_compute; reflexivity))
    as [content [Hc [Hw _]]].
  exists content. split; [exact Hc | exact Hw].
Defined.

(* ================================================================== *)
(** * The serverless function *)
(* ================================================================== *)

Lemma append_split (a x b y : string) :
  a ++ x = b ++ y ->
  String.length a <= String.length b ->
  exists m, b = a ++ m /\ x = m ++ y.
Proof.
  revert b. induction a as [| c a IH]; intros b H Hlen.
  - exists b. split; [reflexivity | exact H].
  - destruct b as [| d b]; [cbn in Hlen; lia |].
    cbn [append] in H. injection H as -> H.
    cbn [String.length] in Hlen.
    destruct (IH b H ltac:(lia)) as [m [-> ->]].
    exists m. split; reflexivity.
Qed.

Lemma substring_prefix (b c : string) :
  String.substring 0 (String.length b) (b ++ c) = b.
Proof.
  induction b as [| x b IH]; cbn [String.length append String.substring].
  - destruct c; reflexivity.
  - rewrite IH. reflexivity.
Qed.

Lemma substring_middle (a b c : string) :
  String.substring (String.length a) (String.length b) (a ++ b ++ c) = b.
Proof.
  induction a as [| x a IH]; cbn [String.length append String.substring].
  - apply substring_prefix.
  - exact IH.
Qed.

Lemma indexOf_spec (c : ascii) (s : string) :
  (Netlify.indexOf c s = (-1)%Z /\ allChars (differs c) s = true)
  \/ (exists pre post,
         s = pre ++ String c post
         /\ allChars (differs c) pre = true
         /\ Netlify.indexOf c s = Z.of_nat (String.length pre)).
Proof.
  induction s as [| d r IH]; [left; split; reflexivity |].
  cbn [Netlify.indexOf]. destruct (Ascii.eqb_spec c d) as [<- | Hne].
  - right. exists "", r. repeat split.
  - destruct IH as [[E Ha] | [pre [post [-> [Ha E]]]]].
    + left. rewrite E. split; [reflexivity |].
      cbn [allChars]. unfold differs at 1.
      rewrite (proj2 (Ascii.eqb_neq c d) Hne). exact Ha.
    + right. exists (String d pre), post. rewrite E.
      destruct (Z.eqb_spec (Z.of_nat (String.length pre)) (-1)); [lia |].
      repeat split.
      * cbn [allChars]. unfold differs at 1.
        rewrite (proj2 (Ascii.eqb_neq c d) Hne). exact Ha.
      * cbn [String.length]. lia.
Qed.

Lemma lastIndexOf_spec (c : ascii) (s : string) :
  (Netlify.lastIndexOf c s = (-1)%Z /\ allChars (differs c) s = true)
  \/ (exists pre post,
         s = pre ++ String c post
         /\ allChars (differs c) post = true
         /\ Netlify.lastIndexOf c s = Z.of_nat (String.length pre)).
Proof.
  induction s as [| d r IH]; [left; split; reflexivity |].
  cbn [Netlify.lastIndexOf].
  destruct IH as [[E Ha] | [pre [post [-> [Ha E]]]]].
  - rewrite E. cbn [Z.eqb Pos.eqb].
    destruct (Ascii.eqb_spec c d) as [<- | Hne].
    + right. exists "", r. repeat split. exact Ha.
    + left. split; [reflexivity |].
      cbn [allChars]. unfold differs at 1.
      rewrite (proj2 (Ascii.eqb_neq c d) Hne). exact Ha.
  - right. exists (String d pre), post. rewrite E.
    destruct (Z.eqb_spec (Z.of_nat (String.length pre)) (-1)); [lia |].
    repeat split; [exact Ha |]. cbn [String.length]. lia.
Qed.

Lemma jsonText_Some (text json : string) :
  Netlify.jsonText text = Some json ->
  exists pre mid post,
    text = pre ++ json ++ post
    /\ json = "{" ++ mid ++ "}"
    /\ allChars (differs "{") pre = true
    /\ allChars (differs "}") post = true.
Proof.
  unfold Netlify.jsonText.
  destruct (indexOf_spec "{" text) as [[E _] | [pre1 [post1 [E1 [Ha1 Ei]]]]].
  - rewrite E. discriminate.
  - destruct (lastIndexOf_spec "}" text)
      as [[E _] | [pre2 [post2 [E2 [Ha2 El]]]]].
    + rewrite E, Ei.
      destruct (Z.ltb_spec (Z.of_nat (String.length pre1)) (-1 + 1)); [lia |].
      rewrite andb_false_r. discriminate.
    + rewrite Ei, El.
      destruct (Z.ltb_spec (Z.of_nat (String.length pre1))
                           (Z.of_nat (String.length pre2) + 1)) as [Hlt | Hge];
        [| rewrite andb_false_r; discriminate].
      destruct (Z.eqb_spec (Z.of_nat (String.length pre1)) (-1)); [lia |].
      cbn [negb andb]. intros H. injection H as <-.
      assert (Hsplit : exists m, pre2 = pre1 ++ m
                                 /\ String "{" post1 = m ++ String "}" post2).
      { apply append_split; [congruence | lia]. }
      destruct Hsplit as [m [-> Hm]].
      destruct m as [| x mid]; [discriminate |].
      cbn [append] in Hm. injection Hm as <- ->.
      exists pre1, mid, post2.
      assert (Etext : text = pre1 ++ ("{" ++ mid ++ "}") ++ post2).
      { rewrite E2. rewrite !append_associative. reflexivity. }
      assert (Ejson : Netlify.sliceBetween
                        text (Z.of_nat (String.length pre1))
                        (Z.of_nat (String.length (pre1 ++ String "{" mid)) + 1)
                      = "{" ++ mid ++ "}").
      { unfold Netlify.sliceBetween. rewrite Nat2Z.id.
        replace (Z.to_nat (Z.of_nat (String.length (pre1 ++ String "{" mid)) + 1
                           - Z.of_nat (String.length pre1)))
          with (String.length ("{" ++ mid ++ "}")).
        - rewrite Etext. apply substring_middle.
        - rewrite !length_append_sum. cbn [String.length append].
          rewrite ?length_append_sum. cbn [String.length]. lia. }
      rewrite Ejson. repeat split; assumption.
Qed.

Lemma jsonText_None (text : string) :
  allChars (differs "{") text = true \/ allChars (differs "}") text = true ->
  Netlify.jsonText text = None.
Proof.
  intros H. destruct (Netlify.jsonText text) as [json |] eqn:E; [| reflexivity].
  exfalso. apply jsonText_Some in E.
  destruct E as [pre [mid [post [-> [-> [_ _]]]]]].
  destruct H as [H | H]; rewrite !allChars_app in H; cbn [allChars] in H;
    [change (differs "{" "{") with false in H
    | change (differs "}" "}") with false in H];
    repeat (rewrite ?andb_false_r in H; cbn [andb] in H);
    discriminate.
Qed.

(** X30.  The serverless function answers with the data of a script only to
    a POST on the path of the generating route, with a body that has a
    content and a configured key; the data is what [JSON.parse] makes of
    the part of the model's text from its first opening brace to its last
    closing brace.  A text without an opening or without a closing brace
    is answered with status 500 and the message
    "Failed to parse AI response". *)
Theorem handler_script_data
        {Json : Type} (JSON_parse : string -> Thrown + Json)
        (hasContent : Json -> Thrown + bool) (promptOf : Json -> string)
        (generateContent : string -> Thrown + string)
        (apiKey : option string) (event : Netlify.Event) :
  (forall status scriptData,
      Netlify.handler Json JSON_parse hasContent promptOf generateContent
                      apiKey event
      = (status, Netlify.ScriptData scriptData) ->
      status = 200
      /\ Netlify.httpMethod event = "POST"
      /\ Netlify.removeFirstOccurrence "/.netlify/functions/api"
                                       (Netlify.path event)
         = "/scripts/generate"
      /\ Netlify.missing apiKey = false
      /\ exists parsed pre mid post,
           JSON_parse (orElse (Netlify.body event) "{}") = inr parsed
           /\ hasContent parsed = inr true
           /\ generateContent (promptOf parsed)
              = inr (pre ++ ("{" ++ mid ++ "}") ++ post)
           /\ allChars (differs "{") pre = true
           /\ allChars (differs "}") post = true
           /\ JSON_parse ("{" ++ mid ++ "}") = inr scriptData)
  /\ (forall parsed text,
         Netlify.httpMethod event = "POST" ->
         Netlify.removeFirstOccurrence "/.netlify/functions/api"
                                       (Netlify.path event)
         = "/scripts/generate" ->
         JSON_parse (orElse (Netlify.body event) "{}") = inr parsed ->
         hasContent parsed = inr true ->
         Netlify.missing apiKey = false ->
         generateContent (promptOf parsed) = inr text ->
         allChars (differs "{") text = true
         \/ allChars (differs "}") text = true ->
         Netlify.handler Json JSON_parse hasContent promptOf generateContent
                         apiKey event
         = (500, Netlify.ErrorWithMessage "Internal server error"
                                          "Failed to parse AI response")).
Proof.
  unfold Netlify.handler. split.
  - intros status scriptData.
    destruct (String.eqb_spec (Netlify.httpMethod event) "OPTIONS");
      [discriminate |].
    destruct (String.eqb_spec
                (Netlify.removeFirstOccurrence "/.netlify/functions/api"
                                               (Netlify.path event))
                "/scripts/generate") as [Ep | Hp]; cbn [andb];
      [| discriminate].
    destruct (String.eqb_spec (Netlify.httpMethod event) "POST") as [Em | Hm];
      [| discriminate].
    unfold Netlify.generate.
    destruct (JSON_parse (orElse (Netlify.body event) "{}"))
      as [e | parsed] eqn:Eparse; [discriminate |].
    destruct (hasContent parsed) as [e | [|]] eqn:Ec; try discriminate.
    destruct (Netlify.missing apiKey) eqn:Ek; [discriminate |].
    destruct (generateContent (promptOf parsed)) as [e | text] eqn:Eg;
      [discriminate |].
    destruct (Netlify.jsonText text) as [json |] eqn:Ej; [| discriminate].
    destruct (JSON_parse json) as [e | d] eqn:Ed; [discriminate |].
    intros H. injection H as <- <-.
    apply jsonText_Some in Ej.
    destruct Ej as [pre [mid [post [-> [-> [Hpre Hpost]]]]]].
    repeat split; try assumption.
    exists parsed, pre, mid, post. repeat split; assumption.
  - intros parsed text Em Ep Eparse Ec Ek Eg Hno.
    rewrite Em, Ep. cbn [String.eqb Ascii.eqb Bool.eqb andb].
    unfold Netlify.generate.
    rewrite Eparse, Ec, Ek, Eg, (jsonText_None text Hno). reflexivity.
Qed.
